(** * Verification of the PTVS module scraper ([scrape_module.py])

    A shallow embedding of the inference-and-classification engine of
    [Python/Product/Analysis/scrape_module.py]: the knowledge-base lookups and
    the signature resolver of class [Signature], the value classifier
    [MemberInfo], and the traversal and serialisation of [ScrapeState].

    Python [str] values are Rocq strings: a text is a sequence of characters
    of which the embedding tells 256 apart, those with a code below 128 being
    the ASCII characters and the others standing for the characters beyond
    ASCII. [None]-or-string values are [option string], dictionaries are
    [gmap]s, sets are [gset]s, and functions that may raise return [option],
    [None] standing for the exception that leaves them. *)

From Stdlib Require Import Ascii String.
From stdpp Require Import base option list strings gmap sorting pretty.

Local Open Scope string_scope.
Local Open Scope list_scope.
Set Warnings "-register-all".

(** ** Python string primitives used by the scraper *)

Module PyStr.

(** [c in s] for a one-character [c]. *)
Fixpoint contains (c : ascii) (s : string) : bool :=
  match s with
  | EmptyString => false
  | String d s' => bool_decide (c = d) || contains c s'
  end.

(** [s.replace(old, new)] for a non-empty [old]: a left-to-right scan that
    replaces every non-overlapping occurrence. [skip] counts the characters
    of an occurrence that was just replaced and are still to be dropped. *)
Fixpoint replace_from (old new : string) (skip : nat) (s : string) : string :=
  match s with
  | EmptyString => EmptyString
  | String c s' =>
      match skip with
      | S k => replace_from old new k s'
      | O =>
          if String.prefix old s
          then new +:+ replace_from old new (String.length old - 1) s'
          else String c (replace_from old new 0 s')
      end
  end.

Definition replace (old new s : string) : string := replace_from old new 0 s.

(** [s.lstrip(chars)]. *)
Fixpoint lstrip (chars : list ascii) (s : string) : string :=
  match s with
  | EmptyString => EmptyString
  | String c s' => if bool_decide (c ∈ chars) then lstrip chars s' else s
  end.

(** [sep.join(l)]. *)
Definition join (sep : string) (l : list string) : string := String.concat sep l.

(** [str(i)] for a non-negative integer. *)
Definition of_nat (i : nat) : string := pretty i.

(** Truthiness of a value that is [None] or a string. *)
Definition truthy (o : option string) : bool :=
  match o with
  | Some (String _ _) => true
  | _ => false
  end.

End PyStr.

(** ** The known-protocol knowledge base *)

(** The values stored in [KNOWN_RESTYPES]: a string, a list of alternative
    return expressions, or [None] (the Python 2 overlay stores [None] to
    withdraw an entry). *)
Inductive kb_value :=
  | KStr (s : string)
  | KList (l : list string)
  | KNone.

(** [dict.update]: the entries of [upd] replace those of [d]. *)
Definition dict_update {V} (d : gmap string V) (upd : list (string * V)) : gmap string V :=
  list_to_map upd ∪ d.
Definition KNOWN_RESTYPES_literal : list (string * kb_value) :=
  [("__abs__", KStr "__T()");
   ("__add__", KStr "__T()");
   ("__and__", KStr "__T()");
   ("__annotations__", KStr "{}");
   ("__base__", KStr "type");
   ("__bases__", KStr "(type,)");
   ("__bool__", KStr "False");
   ("__call__", KStr "Any");
   ("__ceil__", KStr "__T()");
   ("__code__", KStr "object()");
   ("__contains__", KStr "False");
   ("__del__", KStr "None");
   ("__delattr__", KStr "None");
   ("__delitem__", KStr "None");
   ("__dict__", KStr "{'': Any}");
   ("__dir__", KStr "['']");
   ("__divmod__", KStr "(0, 0)");
   ("__eq__", KStr "False");
   ("__format__", KStr "''");
   ("__float__", KStr "0.0");
   ("__floor__", KStr "__T()");
   ("__floordiv__", KStr "0");
   ("__ge__", KStr "False");
   ("__get__", KStr "__T()");
   ("__getattribute__", KStr "Any");
   ("__getitem__", KStr "Any");
   ("__getnewargs__", KStr "()");
   ("__getnewargs_ex__", KStr "((), {})");
   ("__getslice__", KStr "__T()");
   ("__globals__", KStr "{}");
   ("__gt__", KStr "False");
   ("__hash__", KStr "0");
   ("__iadd__", KStr "None");
   ("__iand__", KStr "None");
   ("__imul__", KStr "None");
   ("__index__", KStr "0");
   ("__init__", KStr EmptyString);
   ("__init_subclass__", KStr "None");
   ("__int__", KStr "0");
   ("__invert__", KStr "__T()");
   ("__ior__", KStr "None");
   ("__isub__", KStr "None");
   ("__iter__", KStr "__T()");
   ("__ixor__", KStr "None");
   ("__le__", KStr "False");
   ("__len__", KStr "0");
   ("__length_hint__", KStr "0");
   ("__lshift__", KStr "__T()");
   ("__lt__", KStr "False");
   ("__mod__", KStr "__T()");
   ("__mul__", KStr "__T()");
   ("__ne__", KStr "False");
   ("__neg__", KStr "__T()");
   ("__next__", KStr "Any");
   ("__pos__", KStr "__T()");
   ("__pow__", KStr "__T()");
   ("__or__", KStr "__T()");
   ("__radd__", KStr "__T()");
   ("__rand__", KStr "__T()");
   ("__rdivmod__", KStr "(0, 0)");
   ("__rfloordiv__", KStr "__T()");
   ("__rlshift__", KStr "__T()");
   ("__rmod__", KStr "__T()");
   ("__rmul__", KStr "__T()");
   ("__ror__", KStr "__T()");
   ("__round__", KStr "__T()");
   ("__rpow__", KStr "__T()");
   ("__rrshift__", KStr "__T()");
   ("__rshift__", KStr "__T()");
   ("__rsub__", KStr "__T()");
   ("__rtruediv__", KStr "__T()");
   ("__rxor__", KStr "__T()");
   ("__reduce__", KList ["''"; "()"]);
   ("__reduce_ex__", KList ["''"; "()"]);
   ("__repr__", KStr "''");
   ("__set__", KStr "None");
   ("__setattr__", KStr "None");
   ("__setitem__", KStr "None");
   ("__setstate__", KStr "None");
   ("__sizeof__", KStr "0");
   ("__str__", KStr "''");
   ("__sub__", KStr "__T()");
   ("__truediv__", KStr "0.0");
   ("__trunc__", KStr "__T()");
   ("__xor__", KStr "__T()");
   ("__subclasscheck__", KStr "False");
   ("__subclasshook__", KStr "False")].

Definition KNOWN_ARGSPECS_literal : list (string * string) :=
  [("__contains__", "(self, value)");
   ("__del__", "(self)");
   ("__dir__", "(self)");
   ("__floor__", "(self)");
   ("__format__", "(self, format_spec)");
   ("__getitem__", "(self, index)");
   ("__getnewargs__", "(self)");
   ("__getnewargs_ex__", "(self)");
   ("__init_subclass__", "(cls)");
   ("__instancecheck__", "(self, instance)");
   ("__length_hint__", "(self)");
   ("__prepare__", "(cls, name, bases, **kwds)");
   ("__round__", "(self, ndigits=0)");
   ("__reduce__", "(self)");
   ("__reduce_ex__", "(self, protocol)");
   ("__reversed__", "(self)");
   ("__setitem__", "(self, index, value)");
   ("__setstate__", "(self, state)");
   ("__sizeof__", "(self)");
   ("__subclasses__", "(cls)");
   ("__subclasscheck__", "(cls, subclass)");
   ("__subclasshook__", "(cls, subclass)");
   ("__trunc__", "(self)")].

Definition builtin_restypes_update : list (string * kb_value) :=
  [("__Type__.__call__", KStr "cls()");
   ("__Property__.__delete__", KStr "None");
   ("__Float__.__getformat__", KStr "''");
   ("__Bytes__.__getitem__", KStr "__T()");
   ("__Unicode__.__getitem__", KStr "__T()");
   ("__Type__.__instancecheck__", KStr "False");
   ("__Tuple__.__iter__", KStr "__TupleIterator__()");
   ("__List__.__iter__", KStr "__ListIterator__()");
   ("__Dict__.__iter__", KStr "__DictKeys__()");
   ("__Set__.__iter__", KStr "__SetIterator__()");
   ("__FrozenSet__.__iter__", KStr "__SetIterator__()");
   ("__Bytes__.__iter__", KStr "__BytesIterator__()");
   ("__Unicode__.__iter__", KStr "__UnicodeIterator__()");
   ("__BytesIterator__.__next__", KStr "0");
   ("__UnicodeIterator__.__next__", KStr "__Unicode__()");
   ("__Type__.__prepare__", KStr "None");
   ("__List__.__reversed__", KStr "__ListIterator__()");
   ("__Float__.__setformat__", KStr "None");
   ("__Type__.__subclasses__", KStr "(cls,)");
   ("__truediv__", KStr "Float()");
   ("__Type__.__subclasscheck__", KStr "False");
   ("__subclasshook__", KStr "False");
   ("__Set__.add", KStr "None");
   ("__List__.append", KStr "None");
   ("__Float__.as_integer_ratio", KStr "(0, 0)");
   ("__Int__.bit_length", KStr "0");
   ("capitalize", KStr "__T()");
   ("casefold", KStr "__T()");
   ("center", KStr "__T()");
   ("clear", KStr "None");
   ("__Generator__.close", KStr "None");
   ("conjugate", KStr "__Complex__()");
   ("copy", KStr "__T()");
   ("count", KStr "0");
   ("__Bytes__.decode", KStr "''");
   ("__Property__.deleter", KStr "func");
   ("__Set__.difference", KStr "__T()");
   ("__FrozenSet__.difference", KStr "__T()");
   ("__Set__.difference_update", KStr "None");
   ("__Set__.discard", KStr "None");
   ("__Bytes__.encode", KStr "b''");
   ("__Unicode__.encode", KStr "b''");
   ("endswith", KStr "False");
   ("expandtabs", KStr "__T()");
   ("__List__.extend", KStr "None");
   ("find", KStr "0");
   ("__Unicode__.format", KStr "__T()");
   ("__Unicode__.format_map", KStr "__T()");
   ("__Bool__.from_bytes", KStr "False");
   ("__Int__.from_bytes", KStr "0");
   ("__Long__.from_bytes", KStr "__Long__()");
   ("__Float__.fromhex", KStr "0.0");
   ("__Bytes__.fromhex", KStr "b''");
   ("__Dict__.fromkeys", KStr "{}");
   ("__Dict__.get", KStr "self[0]");
   ("__Property__.getter", KStr "func");
   ("hex", KStr "''");
   ("index", KStr "0");
   ("__List__.insert", KStr "None");
   ("__Set__.intersection", KStr "__T()");
   ("__FrozenSet__.intersection", KStr "__T()");
   ("__Set__.intersection_update", KStr "None");
   ("isalnum", KStr "False");
   ("isalpha", KStr "False");
   ("isdecimal", KStr "False");
   ("isdigit", KStr "False");
   ("islower", KStr "False");
   ("isidentifier", KStr "False");
   ("isnumeric", KStr "False");
   ("isprintable", KStr "False");
   ("isspace", KStr "False");
   ("istitle", KStr "False");
   ("isupper", KStr "False");
   ("__Float__.is_integer", KStr "False");
   ("__Set__.isdisjoint", KStr "False");
   ("__FrozenSet__.isdisjoint", KStr "False");
   ("__DictKeys__.isdisjoint", KStr "False");
   ("__DictItems__.isdisjoint", KStr "False");
   ("__Set__.issubset", KStr "False");
   ("__FrozenSet__.issubset", KStr "False");
   ("__Set__.issuperset", KStr "False");
   ("__FrozenSet__.issuperset", KStr "False");
   ("__Dict__.items", KStr "__DictItems__()");
   ("__Bytes__.join", KStr "b''");
   ("__Unicode__.join", KStr "''");
   ("__Dict__.keys", KStr "__DictKeys__()");
   ("lower", KStr "__T()");
   ("ljust", KStr "__T()");
   ("lstrip", KStr "__T()");
   ("__Bytes__.maketrans", KStr "b''");
   ("__Unicode__.maketrans", KStr "{}");
   ("__Type__.mro", KStr "[__Type__()]");
   ("partition", KStr "(__T(), __T(), __T())");
   ("__List__.pop", KStr "self[0]");
   ("__Dict__.pop", KStr "self.keys()[0]");
   ("__Set__.pop", KStr "Any");
   ("__Dict__.popitem", KStr "self.items()[0]");
   ("remove", KStr "None");
   ("replace", KStr "__T()");
   ("rfind", KStr "0");
   ("__List__.reverse", KStr "None");
   ("rindex", KStr "0");
   ("rjust", KStr "__T()");
   ("rpartition", KStr "(__T(), __T(), __T())");
   ("rsplit", KStr "[__T()]");
   ("rstrip", KStr "__T()");
   ("__Generator__.send", KStr "self.__next__()");
   ("__Dict__.setdefault", KStr "self[0]");
   ("__Property__.setter", KStr "func");
   ("__List__.sort", KStr "None");
   ("split", KStr "[__T()]");
   ("splitlines", KStr "[self()]");
   ("startswith", KStr "False");
   ("strip", KStr "__T()");
   ("swapcase", KStr "__T()");
   ("__Set__.symmetric_difference", KStr "__T()");
   ("__FrozenSet__.symmetric_difference", KStr "__T()");
   ("__Set__.symmetric_difference_update", KStr "None");
   ("__Bytes__.translate", KStr "__T()");
   ("__Unicode__.translate", KStr "__T()");
   ("__Generator__.throw", KStr "None");
   ("title", KStr "__T()");
   ("to_bytes", KStr "b''");
   ("__Set__.union", KStr "__T()");
   ("__FrozenSet__.union", KStr "__T()");
   ("__Dict__.update", KStr "None");
   ("__Set__.update", KStr "None");
   ("upper", KStr "__T()");
   ("__Dict__.values", KStr "__DictValues__()");
   ("zfill", KStr "__T()")].

Definition builtin_argspecs_update : list (string * string) :=
  [("__Type__.__call__", "(cls, *args, **kwargs)");
   ("__Int__.__ceil__", "(self)");
   ("__Int__.__floor__", "(self)");
   ("__Float__.__getformat__", "(typestr)");
   ("__Dict__.__getitem__", "(self, key)");
   ("__Type__.__instancecheck__", "(self, instance)");
   ("__Bool__.__init__", "(self, x)");
   ("__Int__.__init__", "(self, x=0)");
   ("__List__.__init__", "(self, iterable)");
   ("__Tuple__.__init__", "(self, iterable)");
   ("__Type__.__prepare__", "(cls, name, bases, **kwds)");
   ("__Int__.__round__", "(self, ndigits=0)");
   ("__Float__.__round__", "(self, ndigits=0)");
   ("__List__.__reversed__", "(self)");
   ("__Float__.__setformat__", "(typestr, fmt)");
   ("__Dict__.__setitem__", "(self, key, value)");
   ("__Set__.add", "(self, value)");
   ("__List__.append", "(self, value)");
   ("__Float__.as_integer_ratio", "(self)");
   ("__Int__.bit_length", "(self)");
   ("capitalize", "(self)");
   ("casefold", "(self)");
   ("__Bytes__.center", "(self, width, fillbyte=b' ')");
   ("__Unicode__.center", "(self, width, fillchar=' ')");
   ("clear", "(self)");
   ("__Generator__.close", "(self)");
   ("conjugate", "(self)");
   ("copy", "(self)");
   ("count", "(self, x)");
   ("__Bytes__.count", "(self, sub, start=0, end=-1)");
   ("__Unicode__.count", "(self, sub, start=0, end=-1)");
   ("__Bytes__.decode", "(self, encoding='utf-8', errors='strict')");
   ("__Property__.deleter", "(self, func)");
   ("__Set__.difference", "(self, other)");
   ("__FrozenSet__.difference", "(self, other)");
   ("__Set__.difference_update", "(self, *others)");
   ("__Set__.discard", "(self, elem)");
   ("__Unicode__.encode", "(self, encoding='utf-8', errors='strict')");
   ("endswith", "(self, suffix, start=0, end=-1)");
   ("expandtabs", "(self, tabsize=8)");
   ("__List__.extend", "(self, iterable)");
   ("find", "(self, sub, start=0, end=-1)");
   ("__Unicode__.format", "(self, *args, **kwargs)");
   ("__Unicode__.format_map", "(self, mapping)");
   ("__Bool__.from_bytes", "(bytes, byteorder, *, signed=False)");
   ("__Int__.from_bytes", "(bytes, byteorder, *, signed=False)");
   ("__Float__.fromhex", "(string)");
   ("__Dict__.get", "(self, key, d=Unknown())");
   ("__Property__.getter", "(self, func)");
   ("hex", "(self)");
   ("__List__.insert", "(self, index, value)");
   ("index", "(self, v)");
   ("__Bytes__.index", "(self, sub, start=0, end=-1)");
   ("__Unicode__.index", "(self, sub, start=0, end=-1)");
   ("__Set__.intersection", "(self, other)");
   ("__FrozenSet__.intersection", "(self, other)");
   ("__Set__.intersection_update", "(self, *others)");
   ("isalnum", "(self)");
   ("isalpha", "(self)");
   ("isdecimal", "(self)");
   ("isdigit", "(self)");
   ("isidentifier", "(self)");
   ("islower", "(self)");
   ("isnumeric", "(self)");
   ("isprintable", "(self)");
   ("isspace", "(self)");
   ("istitle", "(self)");
   ("isupper", "(self)");
   ("__Float__.is_integer", "(self)");
   ("__Set__.isdisjoint", "(self, other)");
   ("__FrozenSet__.isdisjoint", "(self, other)");
   ("__DictKeys__.isdisjoint", "(self, other)");
   ("__DictItems__.isdisjoint", "(self, other)");
   ("__Set__.issubset", "(self, other)");
   ("__FrozenSet__.issubset", "(self, other)");
   ("__Set__.issuperset", "(self, other)");
   ("__FrozenSet__.issuperset", "(self, other)");
   ("__Dict__.items", "(self)");
   ("__Bytes__.join", "(self, iterable)");
   ("__Unicode__.join", "(self, iterable)");
   ("__Dict__.keys", "(self)");
   ("lower", "(self)");
   ("__Bytes__.ljust", "(self, width, fillbyte=b' ')");
   ("__Unicode__.ljust", "(self, width, fillchar=' ')");
   ("lstrip", "(self, chars)");
   ("__Bytes__.maketrans", "(from_, to)");
   ("__Unicode__.maketrans", "(x, y, z)");
   ("__Type__.mro", "(cls)");
   ("__Bytes__.partition", "(self, sep)");
   ("__Unicode__.partition", "(self, sep)");
   ("__List__.pop", "(self, index=-1)");
   ("__Dict__.pop", "(self, k, d=Unknown())");
   ("__Set__.pop", "(self)");
   ("__Dict__.popitem", "(self, k, d=Unknown())");
   ("__List__.remove", "(self, value)");
   ("__Set__.remove", "(self, elem)");
   ("replace", "(self, old, new, count=-1)");
   ("__List__.reverse", "(self)");
   ("rfind", "(self, sub, start=0, end=-1)");
   ("rindex", "(self, sub, start=0, end=-1)");
   ("__Bytes__.rjust", "(self, width, fillbyte=b' ')");
   ("__Unicode__.rjust", "(self, width, fillchar=' ')");
   ("__Bytes__.rpartition", "(self, sep)");
   ("__Unicode__.rpartition", "(self, sep)");
   ("rsplit", "(self, sep=None, maxsplit=-1)");
   ("rstrip", "(self, chars=None)");
   ("__Generator__.send", "(self, value)");
   ("__Dict__.setdefault", "(self, k, d)");
   ("__Property__.setter", "(self, func)");
   ("__List__.sort", "(self)");
   ("split", "(self, sep=None, maxsplit=-1)");
   ("splitlines", "(self, keepends=False)");
   ("strip", "(self, chars=None)");
   ("startswith", "(self, prefix, start=0, end=-1)");
   ("swapcase", "(self)");
   ("__Set__.symmetric_difference", "(self, other)");
   ("__FrozenSet__.symmetric_difference", "(self, other)");
   ("__Set__.symmetric_difference_update", "(self, *others)");
   ("__Generator__.throw", "(self, type, value=None, traceback=None)");
   ("title", "(self)");
   ("__Int__.to_bytes", "(bytes, byteorder, *, signed=False)");
   ("__Bytes__.translate", "(self, table, delete=b'')");
   ("__Unicode__.translate", "(self, table)");
   ("__Set__.union", "(self, *others)");
   ("__FrozenSet__.union", "(self, *others)");
   ("__Dict__.update", "(self, d)");
   ("__Set__.update", "(self, *others)");
   ("upper", "(self)");
   ("__Dict__.values", "(self)");
   ("zfill", "(self, width)")].

Definition py2_restypes_update : list (string * kb_value) :=
  [("__BytesIterator__.__next__", KNone);
   ("__BytesIterator__.next", KStr "b''");
   ("__UnicodeIterator__.__next__", KNone);
   ("__UnicodeIterator__.next", KStr "u''");
   ("__Generator__.send", KStr "self.next()");
   ("__Function__.func_closure", KStr "()");
   ("__Function__.func_doc", KStr "b''");
   ("__Function__.func_name", KStr "b''")].

Definition py2_argspecs_update : list (string * string) :=
  [("__BytesIterator__.next", "(self)");
   ("__UnicodeIterator__.next", "(self)")].


(** The class attributes as the class body defines them. *)
Definition KNOWN_RESTYPES : gmap string kb_value := list_to_map KNOWN_RESTYPES_literal.
Definition KNOWN_ARGSPECS : gmap string string := list_to_map KNOWN_ARGSPECS_literal.

(** The tables after [add_builtin_objects] has run, on Python 3 and on
    Python 2 ([sys.version[0] == '2']). *)
Definition KNOWN_RESTYPES_builtins (py2 : bool) : gmap string kb_value :=
  let t := dict_update KNOWN_RESTYPES builtin_restypes_update in
  if py2 then dict_update t py2_restypes_update else t.

Definition KNOWN_ARGSPECS_builtins (py2 : bool) : gmap string string :=
  let t := dict_update KNOWN_ARGSPECS builtin_argspecs_update in
  if py2 then dict_update t py2_argspecs_update else t.

(** ** Introspected Python values *)

(** A parameter list parsed from a [def] header ([ast.FunctionDef]). *)
Inductive operator := BitOr | OtherOperator.
Inductive unaryop := USub | OtherUnaryOp.

(** Default-value expressions, by the [walk_*] methods of
    [DefaultValueWriter]; [OtherExpr] stands for every node type without one.
    Constants carry their rendering: [repr(node.value)], [str(node.n)]. *)
Inductive expr :=
  | Name (id : string)
  | NameConstant (repr_value : string)
  | Num (str_n : string)
  | Str (s : string)
  | Attribute (value : expr) (attr : string)
  | List (elts : list expr)
  | Tuple (elts : list expr)
  | Dict
  | BinOp (left : expr) (op : operator) (right : expr)
  | UnaryOp (op : unaryop) (operand : expr)
  | Call
  | OtherExpr.

(** The parameter nodes a parsed header can hold: [ast.arg] (Python 3),
    [ast.Name] and a tuple of names (Python 2). *)
Inductive arg_node :=
  | ArgArg (arg : string)
  | ArgName (id : string)
  | ArgTuple (elts : list string).

Record FunctionDef := {
  fd_name : string;
  fd_args : list arg_node;      (* node.args.args *)
  fd_defaults : list expr;      (* node.args.defaults *)
}.

(** [inspect.Parameter]: the fields [_init_argspec_fromsignature] reads. *)
Inductive parameter_kind :=
  | POSITIONAL_ONLY | POSITIONAL_OR_KEYWORD | VAR_POSITIONAL | KEYWORD_ONLY | VAR_KEYWORD.

Global Instance parameter_kind_eq_dec : EqDecision parameter_kind.
Proof. solve_decision. Defined.

Record SigParameter := {
  p_name : string;
  p_kind : parameter_kind;
  p_default : option string;    (* [None]: [Signature.empty]; else [repr(p.default)] *)
}.

(** The result of [inspect.getfullargspec] (or [getargspec]). *)
Record ArgSpec := {
  as_args : list string;
  as_varargs : option string;
  as_varkw : option string;
}.

(** A [__doc__] attribute: absent or [None], a string, or another object. *)
Inductive pydoc :=
  | DocNone
  | DocStr (s : string)
  | DocOther (truthy : bool).

(** What [_get_typename] and [_should_add_value] read of a type object.
    [tp_name = None]: reading [__name__] raises. [tp_module = None]: the
    type has no [__module__], or it is [None]. *)
Record TypeInfo := {
  tp_name : option string;
  tp_module : option string;
}.

(** The builtin types the scraper tests a value's type against. *)
Inductive type_tag :=
  | TyBool | TyStr | TyBytes | TyInt | TyFloat | TyUnicode | TyLong
  | TyBuiltinMethod        (* type(float.fromhex) *)
  | TyGetSetDescriptor     (* type(int.real) *)
  | TyMemberDescriptor     (* type(property.fget) *)
  | TyOther.

Inductive infinity := PosInf | NegInf.

Inductive getattr_result (A : Type) :=
  | GetValue (v : A)
  | GetAttributeError
  | GetError.
Arguments GetValue {A} v.
Arguments GetAttributeError {A}.
Arguments GetError {A}.

(** An introspected object. Python's [None] is [None : option pyobject].
    Identity ([a is b]) is equality of [ob_id]. The fields from [ob_self] to
    [ob_bases] describe the object as a type; they are read when it is a
    class, or the type of a value. [ob_type = None] stands for the builtin
    metaclass [type]. *)
Inductive pyobject := PyObject {
  ob_id : nat;
  ob_type : option pyobject;                      (* type(value) *)
  ob_truthy : bool;                               (* bool(value) *)
  ob_doc : pydoc;                                 (* getattr(value, '__doc__', None) *)
  ob_repr : string;                               (* repr(value) *)
  ob_is_float : bool;                             (* isinstance(value, float) *)
  ob_infinity : option infinity;                  (* value == float('inf') or float('-inf') *)
  ob_has_call : bool;                             (* hasattr(value, '__call__') *)
  ob_has_get : bool;                              (* hasattr(value, '__get__') *)
  ob_signature : option (list SigParameter);      (* inspect.signature(value) *)
  ob_argspec : option ArgSpec;                    (* inspect.getfullargspec(value) *)
  ob_self : TypeInfo;                             (* value.__name__, value.__module__ *)
  ob_tag : type_tag;                              (* the builtin type that value is *)
  ob_is_type : bool;                              (* issubclass(value, type) *)
  ob_is_module : bool;                            (* issubclass(value, type(sys)) *)
  ob_bases : getattr_result (list TypeInfo);      (* getattr(value, '__bases__') *)
  ob_dir : list string;                           (* dir(value) *)
  ob_attrs : list (string * getattr_result (option pyobject));  (* getattr(value, name) *)
  ob_mro : list pyobject;                         (* getattr(value, '__mro__', None) or () *)
}.

Definition pyvalue := option pyobject.

(** [a is b]. *)
Definition py_is (a b : pyvalue) : bool :=
  match a, b with
  | None, None => true
  | Some x, Some y => bool_decide (ob_id x = ob_id y)
  | _, _ => false
  end.

(** [getattr(obj, name)]; a name without an entry raises [AttributeError]. *)
Fixpoint assoc_getattr (attrs : list (string * getattr_result pyvalue)) (name : string)
  : getattr_result pyvalue :=
  match attrs with
  | [] => GetAttributeError
  | (k, r) :: attrs' => if bool_decide (k = name) then r else assoc_getattr attrs' name
  end.

Definition py_getattr (obj : pyobject) (name : string) : getattr_result pyvalue :=
  assoc_getattr (ob_attrs obj) name.

(** ** The Python runtime the scraper runs on

    Library functions that are not part of the scraper, and the two class
    dictionaries as they stand when the scan starts. *)
(** The outcomes of [ast.parse(src).body[0]] that [_parse_funcdef] tells
    apart: a function definition, another statement, a [SyntaxError], and
    any other exception ([ValueError] for a source with a null byte, for
    one), which [_parse_funcdef] does not catch. *)
Inductive parse_result :=
  | Parsed (node : FunctionDef)
  | ParsedOther
  | ParseSyntaxError
  | ParseRaises.

Record Runtime := {
  py2 : bool;                                     (* sys.version_info[0] == 2 *)
  ast_parse_funcdef : string → parse_result;      (* ast.parse(src).body[0] *)
  ast_parse_ok : string → bool;                   (* ast.parse(src) raises no SyntaxError *)
  isalnum : ascii → bool;                         (* str.isalnum, read for non-ASCII characters *)
  literal_eval_ok : string → bool;                (* ast.literal_eval(src) does not raise *)
  signature_str : list SigParameter → string;        (* str(sig) of an inspect.Signature *)
  repr_str : string → string;                     (* repr(s) of a string *)
  iskeyword : string → bool;                      (* keyword.iskeyword *)
  known_argspecs : gmap string string;            (* Signature.KNOWN_ARGSPECS *)
  known_restypes : gmap string kb_value;          (* Signature.KNOWN_RESTYPES *)
  empty_dict : pyobject;                          (* the value {} *)
  empty_tuple : pyobject;                         (* the value () *)
}.

(** [builtins.__name__]. *)
Definition builtins_name (rt : Runtime) : string :=
  if py2 rt then "__builtin__" else "builtins".

(** ** The signature resolver (class [Signature]) *)

Record Signature := {
  sig_name : string;
  sig_callable : pyobject;
  sig_scope : option string;
  decorators : list string;
  _defaults : list string;
  fullsig : string;
  restype : string;
}.

(** [a or b] on values that are [None] or strings. *)
Definition py_or (a b : option string) : option string :=
  if PyStr.truthy a then a else b.

(** [l[:i] = new]. *)
Definition assign_prefix {A} (i : nat) (new l : list A) : list A := new ++ drop i l.

(** [enumerate(l)]. *)
Definition enumerate {A} (l : list A) : list (nat * A) := imap pair l.

(** The loop of [_insert_default_arguments] over [enumerate(zip(defaults, args))]. *)
Fixpoint insert_defaults_loop (defaults args : list string)
    (it : list (nat * (string * string))) : list string :=
  match it with
  | [] => args
  | (i, (x, y)) :: it' =>
      if bool_decide (x = "cls") && bool_decide (y = "type")
      then insert_defaults_loop defaults args it'
      else if bool_decide (x ≠ y)
      then assign_prefix i defaults args
      else insert_defaults_loop defaults args it'
  end.

Definition _insert_default_arguments (args defaults : list string) : list string :=
  if bool_decide (length args < length defaults)
  then assign_prefix 0 defaults args
  else insert_defaults_loop defaults args (enumerate (zip defaults args)).

(** Lines 235-238 of [Signature.__init__]: the implicit binding argument. *)
Definition init_defaults (scope : option string) (decorators defaults : list string)
  : list string :=
  if PyStr.truthy scope && negb (bool_decide ("@staticmethod" ∈ decorators))
  then
    let def_arg := if bool_decide ("@classmethod" ∈ decorators) then "cls" else "self" in
    if bool_decide (length defaults = 0) || bool_decide (head defaults ≠ Some def_arg)
    then def_arg :: defaults
    else defaults
  else defaults.

(** [_get_first_function_call]: the scan for the closing parenthesis. The
    result is the prefix [expr[:i + 1]]. *)
Fixpoint first_call_scan (n : Z) (expr : string) : option string :=
  match expr with
  | EmptyString => None
  | String c rest =>
      if bool_decide (c = ")"%char)
      then
        let n := (n - 1)%Z in
        if bool_decide (n ≤ 0)%Z then Some (String c EmptyString)
        else String c <$> first_call_scan n rest
      else if bool_decide (c = "("%char)
      then String c <$> first_call_scan (n + 1)%Z rest
      else String c <$> first_call_scan n rest
  end.

Definition py_whitespace : list ascii :=
  ["013"%char; "010"%char; "009"%char; " "%char].

Definition _get_first_function_call (expr : string) : option string :=
  if negb (PyStr.truthy (Some expr)) || negb (PyStr.contains ")" expr) then None
  else first_call_scan 0 (PyStr.lstrip py_whitespace expr).

(** *** The regular-expression rewrites of [_init_argspec_fromdocstring] *)

(** The ASCII word characters [[a-zA-Z0-9_]]. *)
Definition ascii_word (c : ascii) : bool :=
  let n := nat_of_ascii c in
  (bool_decide (48 ≤ n)%nat && bool_decide (n ≤ 57)%nat)
  || (bool_decide (65 ≤ n)%nat && bool_decide (n ≤ 90)%nat)
  || (bool_decide (97 ≤ n)%nat && bool_decide (n ≤ 122)%nat)
  || bool_decide (n = 95%nat).

(** [\w] in a pattern without flags. The characters with a code below 128
    are the ASCII characters; those from 128 on stand for the characters
    beyond ASCII. On Python 2 the text is a byte string and [\w] is
    [[a-zA-Z0-9_]]; on Python 3 it is a Unicode string and [\w] matches
    also every character beyond ASCII that is alphanumeric. *)
Definition is_word (rt : Runtime) (c : ascii) : bool :=
  ascii_word c
  || (negb (py2 rt) && bool_decide (128 ≤ nat_of_ascii c)%nat && isalnum rt c).

(** The longest prefix of word characters, and the rest. *)
Fixpoint span_word (rt : Runtime) (s : string) : string * string :=
  match s with
  | EmptyString => (EmptyString, EmptyString)
  | String c s' =>
      if is_word rt c then let '(w, r) := span_word rt s' in (String c w, r)
      else (EmptyString, s)
  end.

(** [re.sub(r'[\[\]]', '', doc)]. *)
Fixpoint strip_brackets (doc : string) : string :=
  match doc with
  | EmptyString => EmptyString
  | String c s' =>
      if bool_decide (c = "["%char) || bool_decide (c = "]"%char)
      then strip_brackets s'
      else String c (strip_brackets s')
  end.

(** A match of [^(\w+)\.(\w+)\(]: the two groups and the text after it. *)
Definition match_owner_method (rt : Runtime) (doc : string)
  : option (string * string * string) :=
  match span_word rt doc with
  | (String _ _ as owner, String "." r1) =>
      match span_word rt r1 with
      | (String _ _ as method, String "(" r2) => Some (owner, method, r2)
      | _ => None
      end
  | _ => None
  end.

(** [re.sub(r'^(\w+)\.(\w+)\(', r'\2(self : \1, ', doc)]. *)
Definition rewrite_self_typed (rt : Runtime) (doc : string) : string :=
  match match_owner_method rt doc with
  | Some (owner, method, rest) => method +:+ "(self : " +:+ owner +:+ ", " +:+ rest
  | None => doc
  end.

(** [re.sub(r'^(\w+)\.(\w+)\(', r'\2(self, ', doc)]. *)
Definition rewrite_self (rt : Runtime) (doc : string) : string :=
  match match_owner_method rt doc with
  | Some (_, method, rest) => method +:+ "(self, " +:+ rest
  | None => doc
  end.

(** A lazy [.+?] followed by [,] or [)]: the number of characters before the
    terminator when scanning [s], none of them a newline. *)
Fixpoint terminator_offset (s : string) : option nat :=
  match s with
  | EmptyString => None
  | String c s' =>
      if bool_decide (c = ","%char) || bool_decide (c = ")"%char) then Some 0
      else if bool_decide (c = "010"%char) then None
      else S <$> terminator_offset s'
  end.

(** The length of [.+?] in a match of [\=.+?([,\)])] whose [=] was just read. *)
Definition default_length (s : string) : option nat :=
  match s with
  | EmptyString => None
  | String c s' =>
      if bool_decide (c = "010"%char) then None else S <$> terminator_offset s'
  end.

(** [re.sub(r'\=.+?([,\)])', r'\1', doc)]; [skip] counts the characters of
    the current match still to be dropped. *)
Fixpoint strip_defaults_from (skip : nat) (doc : string) : string :=
  match doc with
  | EmptyString => EmptyString
  | String c s' =>
      match skip with
      | S k => strip_defaults_from k s'
      | O =>
          if bool_decide (c = "="%char)
          then match default_length s' with
               | Some k => strip_defaults_from k s'
               | None => String c (strip_defaults_from 0 s')
               end
          else String c (strip_defaults_from 0 s')
      end
  end.

Definition strip_defaults (doc : string) : string := strip_defaults_from 0 doc.

(** *** Rendering of parsed parameters *)

(** [DefaultValueWriter.walk]; [None] is Python's [None]. *)
Fixpoint walk (rt : Runtime) (node : expr) : option string :=
  match node with
  | Name id => Some id
  | NameConstant repr_value => Some repr_value
  | Num str_n => Some str_n
  | Str s => Some (repr_str rt s)
  | Attribute value attr =>
      let v := walk rt value in
      if PyStr.truthy v then Some (default EmptyString v +:+ "." +:+ attr) else None
  | List elts =>
      let elts := map (walk rt) elts in
      if existsb (λ n, negb (bool_decide (is_Some n))) elts then Some "[]"
      else Some ("[" +:+ PyStr.join ", " (omap id elts) +:+ "]")
  | Tuple elts =>
      let elts := map (walk rt) elts in
      if existsb (λ n, negb (bool_decide (is_Some n))) elts then Some "()"
      else Some ("(" +:+ PyStr.join ", " (omap id elts) +:+ ")")
  | Dict => Some "{}"
  | BinOp node_left op node_right =>
      let v1 := walk rt node_left in
      let op := match op with BitOr => Some "|" | OtherOperator => None end in
      let v2 := walk rt node_right in
      if PyStr.truthy v1 && PyStr.truthy op && PyStr.truthy v2
      then Some (default EmptyString v1 +:+ default EmptyString op +:+ default EmptyString v2)
      else None
  | UnaryOp op operand =>
      let op := match op with USub => Some "-" | OtherUnaryOp => None end in
      let value := walk rt operand in
      if PyStr.truthy op && PyStr.truthy value
      then Some (default EmptyString op +:+ default EmptyString value)
      else None
  | Call => None
  | OtherExpr => None
  end.

(** The [while] loop of [_ast_arg_to_str] that looks for an unused
    [arg_id + str(i)]. The loop ends within [size seen_names + 1] rounds
    (lemma [fresh_arg_id_spec]); [fuel] bounds the rounds. *)
Fixpoint fresh_arg_id (fuel : nat) (arg_id : string) (i : nat) (seen_names : gset string)
  : string :=
  let new_arg_id := arg_id +:+ PyStr.of_nat i in
  match fuel with
  | O => new_arg_id
  | S fuel' =>
      if bool_decide (new_arg_id ∈ seen_names)
      then fresh_arg_id fuel' arg_id (S i) seen_names
      else new_arg_id
  end.

(** Lines 516-523: the identifier under which a parameter is recorded. *)
Definition unique_arg_id (arg_id : string) (seen_names : gset string) : string :=
  if bool_decide (arg_id ∈ seen_names)
  then fresh_arg_id (size seen_names) arg_id 2 seen_names
  else arg_id.

(** The marker [_ast_arg_to_str] leaves in [seen_names] once a parameter
    with a default value has been written. *)
Definition default_value_marker : string := " default_value".

(** Lines 505-514: the identifier of a parameter node, [arg.arg], [arg.id]
    or the parenthesised names of a tuple. *)
Definition arg_node_id (arg : arg_node) : string :=
  match arg with
  | ArgTuple elts => "(" +:+ PyStr.join ", " elts +:+ ")"
  | ArgArg a => a
  | ArgName id => id
  end.

(** The outcome of [_ast_arg_to_str]: the returned text, the identifier that
    was added to [seen_names], and [seen_names] after the call. *)
Record arg_str := {
  arg_text : string;
  arg_ident : string;
  arg_seen : gset string;
}.

Definition _ast_arg_to_str (rt : Runtime) (arg : arg_node) (default_ : option expr)
    (seen_names : gset string) : arg_str :=
  let default_value :=
    match default_ with
    | Some d =>
        match walk rt d with
        | Some v => "=" +:+ v
        | None => EmptyString
        end
    | None => EmptyString
    end in
  let arg_id := unique_arg_id (arg_node_id arg) seen_names in
  let seen_names := {[arg_id]} ∪ seen_names in
  let final_arg := arg_id +:+ default_value in
  if PyStr.truthy (Some default_value) && ast_parse_ok rt final_arg
  then {| arg_text := final_arg; arg_ident := arg_id;
          arg_seen := {[default_value_marker]} ∪ seen_names |}
  else if bool_decide (default_value_marker ∈ seen_names)
  then {| arg_text := arg_id +:+ "=None"; arg_ident := arg_id; arg_seen := seen_names |}
  else {| arg_text := arg_id; arg_ident := arg_id; arg_seen := seen_names |}.

(** The list comprehension of [_ast_args_to_list], threading [seen_names]. *)
Fixpoint ast_args_loop (rt : Runtime) (pairs : list (arg_node * option expr))
    (seen_names : gset string) : list arg_str :=
  match pairs with
  | [] => []
  | (a, d) :: pairs' =>
      let r := _ast_arg_to_str rt a d seen_names in
      r :: ast_args_loop rt pairs' (arg_seen r)
  end.

(** The arguments paired with their defaults, the defaults padded with
    [None] at the front. *)
Definition args_with_defaults (node : FunctionDef) : list (arg_node * option expr) :=
  let args := fd_args node in
  let defaults : list (option expr) := Some <$> fd_defaults node in
  let defaults := (replicate (length args - length defaults) None ++ defaults)%list in
  zip args defaults.

Definition ast_args_results (rt : Runtime) (node : FunctionDef) : list arg_str :=
  ast_args_loop rt (args_with_defaults node) ∅.

Definition _ast_args_to_list (rt : Runtime) (node : FunctionDef) : list string :=
  arg_text <$> ast_args_results rt node.

(** *** The resolution strategies *)

(** [_parse_funcdef]: the accepted node, and the warnings it issued; [None]
    when it raises, which it does for every exception of [ast.parse] other
    than [SyntaxError]. *)
Definition _parse_funcdef (rt : Runtime) (name expr : string) (allow_name_mismatch : bool)
  : option (option FunctionDef * list string) :=
  match ast_parse_funcdef rt ("def " +:+ expr +:+ ": pass") with
  | Parsed node =>
      if allow_name_mismatch || bool_decide (fd_name node = name)
      then Some (Some node, [])
      else Some (None, ["function " +:+ name +:+ " had call to " +:+ fd_name node
                          +:+ " in docstring"])
  | ParsedOther => Some (None, [])         (* no FunctionDef: falls off the end *)
  | ParseSyntaxError => Some (None, [])    (* except SyntaxError: pass *)
  | ParseRaises => None
  end.

(** [if not call: call = attempt]: the next attempt runs only when no node
    has been accepted yet, and the statement raises when the attempt does. *)
Definition if_not_call (call : option FunctionDef * list string)
    (attempt : option (option FunctionDef * list string))
  : option (option FunctionDef * list string) :=
  match call.1 with
  | Some _ => Some call
  | None => attempt ← attempt; Some (attempt.1, call.2 ++ attempt.2)
  end.

Definition pydoc_truthy (doc : pydoc) : bool :=
  match doc with
  | DocNone => false
  | DocStr s => PyStr.truthy (Some s)
  | DocOther b => b
  end.

(** The successive parse attempts of [_init_argspec_fromdocstring] on the
    extracted call [doc]; [None] when one of them raises. *)
Definition parse_docstring_call (rt : Runtime) (name doc : string) (allow_name_mismatch : bool)
  : option (option FunctionDef * list string) :=
  call ← _parse_funcdef rt name doc allow_name_mismatch;
  (* Remove optional parameter marks *)
  let doc := strip_brackets doc in
  call ← if_not_call call (_parse_funcdef rt name doc allow_name_mismatch);
  (* Replace X.y( with y(self : X, *)
  let doc2 := rewrite_self_typed rt doc in
  call ← if_not_call call (_parse_funcdef rt name doc2 allow_name_mismatch);
  (* Replace X.y( with y(self, *)
  let doc2 := rewrite_self rt doc in
  call ← if_not_call call (_parse_funcdef rt name doc2 allow_name_mismatch);
  let doc := strip_defaults doc in
  if_not_call call (_parse_funcdef rt name doc allow_name_mismatch).

(** [_init_argspec_fromdocstring(defaults, doc)]: the signature text, and
    the warnings issued on the way; [None] when it raises. *)
Definition _init_argspec_fromdocstring (rt : Runtime) (name : string) (callable : pyobject)
    (defaults : list string) (doc : pydoc) : option (option string * list string) :=
  let '(doc, allow_name_mismatch) :=
    if pydoc_truthy doc then (doc, true) else (ob_doc callable, false) in
  match doc with
  | DocStr doc =>
      match _get_first_function_call doc with
      | Some doc =>
          call ← parse_docstring_call rt name doc allow_name_mismatch;
          match call with
          | (Some call, warnings) =>
              let args := _ast_args_to_list rt call in
              let args := _insert_default_arguments args defaults in
              Some (Some (name +:+ "(" +:+ PyStr.join ", " args +:+ ")"), warnings)
          | (None, warnings) => Some (None, warnings)
          end
      | None => Some (None, [])
      end
  | _ => Some (None, [])
  end.

(** The normalisation of one parameter in [_init_argspec_fromsignature]. *)
Definition normalize_parameter (rt : Runtime) (p : SigParameter) : SigParameter :=
  let p :=
    match p_default p with
    | Some r =>
        if literal_eval_ok rt r then p
        else {| p_name := p_name p; p_kind := p_kind p; p_default := Some "None" |}
    | None => p
    end in
  match p_kind p with
  | POSITIONAL_ONLY =>
      {| p_name := p_name p; p_kind := POSITIONAL_OR_KEYWORD; p_default := p_default p |}
  | _ => p
  end.

Definition _init_argspec_fromsignature (rt : Runtime) (name : string) (callable : pyobject)
  : option string :=
  match ob_signature callable with
  | None => None
  | Some parameters =>
      let new_args := normalize_parameter rt <$> parameters in
      Some (name +:+ signature_str rt new_args)
  end.

Definition _init_restype_fromsignature (callable : pyobject) : option string :=
  match ob_signature callable with
  | None => None
  | Some _ => Some "pass"
  end.

Definition _init_argspec_fromargspec (name : string) (callable : pyobject)
    (defaults : list string) : option string :=
  match ob_argspec callable with
  | None => None
  | Some args =>
      let argn := as_args args in
      let argn :=
        if PyStr.truthy (as_varargs args)
        then argn ++ ["*" +:+ default EmptyString (as_varargs args)] else argn in
      let argn :=
        if PyStr.truthy (as_varkw args)
        then argn ++ ["**" +:+ default EmptyString (as_varkw args)] else argn in
      let argn := _insert_default_arguments argn defaults in
      Some (name +:+ "(" +:+ PyStr.join ", " argn +:+ ")")
  end.

(** [scope + '.' + name], for a scope that is a string. *)
Definition qualified (scope : option string) (name : string) : string :=
  default EmptyString scope +:+ "." +:+ name.

Definition _init_argspec_fromknown (argspecs : gmap string string) (name : string)
    (scope scope_alias : option string) : option string :=
  let spec : option string := None in
  let spec :=
    if PyStr.truthy scope_alias && negb (PyStr.truthy spec)
    then argspecs !! qualified scope_alias name else spec in
  let spec :=
    if PyStr.truthy scope && negb (PyStr.truthy spec)
    then argspecs !! qualified scope name else spec in
  let spec := if negb (PyStr.truthy spec) then argspecs !! name else spec in
  if negb (PyStr.truthy spec) then None
  else Some (name +:+ default EmptyString spec).

(** Truthiness of the result of [KNOWN_RESTYPES.get(key)]. *)
Definition kb_truthy (v : option kb_value) : bool :=
  match v with
  | Some (KStr (String _ _)) => true
  | Some (KList (_ :: _)) => true
  | _ => false
  end.

(** The return statement made of a knowledge-base value. *)
Definition render_restype (v : kb_value) : string :=
  match v with
  | KList l => "return " +:+ PyStr.join "; return " l
  | KStr s => "return " +:+ s
  | KNone => "return "
  end.

Definition _init_restype_fromknown (restypes : gmap string kb_value) (name : string)
    (scope scope_alias : option string) : option string :=
  let restype : option kb_value := None in
  let restype :=
    if PyStr.truthy scope_alias && negb (kb_truthy restype)
    then restypes !! qualified scope_alias name else restype in
  let restype :=
    if PyStr.truthy scope && negb (kb_truthy restype)
    then restypes !! qualified scope name else restype in
  let restype := if negb (kb_truthy restype) then restypes !! name else restype in
  if negb (kb_truthy restype) then None
  else render_restype <$> restype.

(** The signature text of the last resort: [name(defaults...)]. *)
Definition bare_signature (name : string) (defaults : list string) : string :=
  name +:+ "(" +:+ PyStr.join ", " defaults +:+ ")".

(** [a or b] where the evaluation of [b] may raise: [b] is evaluated only
    when [a] is falsy. *)
Definition py_or_else (a : option string) (b : option (option string))
  : option (option string) :=
  if PyStr.truthy a then Some a else b.

(** [Signature.__init__]; [None] when it raises, which it does when the
    parser of the documentation text does. The warnings of the parser go to
    a side channel and are dropped here. *)
Definition Signature_init (rt : Runtime) (name : string) (callable : pyobject)
    (scope : option string) (defaults : list string) (scope_alias : option string)
    (decorators : list string) (module_doc : pydoc) : option Signature :=
  let _defaults := init_defaults scope decorators defaults in
  '(decorators, fullsig) ←
    (if bool_decide (name ∈ ["__init__"; "__new__"]) && pydoc_truthy module_doc
     then
       r ← _init_argspec_fromdocstring rt name callable _defaults module_doc;
       Some (decorators, r.1)
     else if negb (ob_has_call callable) && ob_has_get callable
     then Some (["@property"], Some (bare_signature name _defaults))
                                                      (* We have a property *)
     else Some (decorators, None));
  fullsig ←
    py_or_else fullsig
      (* fromsignature() is disabled: it does not work as well as argspec *)
      (py_or_else (_init_argspec_fromargspec name callable _defaults)
        (py_or_else (_init_argspec_fromknown (known_argspecs rt) name scope scope_alias)
          (r ← _init_argspec_fromdocstring rt name callable _defaults DocNone;
           Some (py_or r.1 (Some (bare_signature name _defaults))))));
  let restype :=
    py_or (_init_restype_fromsignature callable)
      (py_or (_init_restype_fromknown (known_restypes rt) name scope scope_alias)
        (Some "pass")) in
  let restype := default EmptyString restype in
  let restype :=
    if PyStr.truthy scope then PyStr.replace "__T" (default EmptyString scope) restype
    else restype in
  let restype :=
    if bool_decide (restype ∈ ["Any"; "Unknown"]) then "pass" else restype in
  Some {| sig_name := name; sig_callable := callable; sig_scope := scope;
          decorators := decorators; _defaults := _defaults;
          fullsig := default EmptyString fullsig; restype := restype |}.

(** ** The value classifier (class [MemberInfo]) *)

(** The builtin metaclass [type], as far as the scraper reads it. *)
Definition type_object (rt : Runtime) : pyobject :=
  {| ob_id := 1; ob_type := None; ob_truthy := true; ob_doc := DocNone;
     ob_repr := "<class 'type'>"; ob_is_float := false; ob_infinity := None;
     ob_has_call := true; ob_has_get := false; ob_signature := None;
     ob_argspec := None;
     ob_self := {| tp_name := Some "type"; tp_module := Some (builtins_name rt) |};
     ob_tag := TyOther; ob_is_type := true; ob_is_module := false;
     ob_bases := GetValue [{| tp_name := Some "object";
                              tp_module := Some (builtins_name rt) |}];
     ob_dir := []; ob_attrs := []; ob_mro := [] |}.

(** [type(value)] of an object. *)
Definition py_type (rt : Runtime) (value : pyobject) : pyobject :=
  default (type_object rt) (ob_type value).

(** [MemberInfo.NO_VALUE = object()]. *)
Definition NO_VALUE (rt : Runtime) : pyobject :=
  {| ob_id := 0;
     ob_type := Some
       {| ob_id := 2; ob_type := None; ob_truthy := true; ob_doc := DocNone;
          ob_repr := "<class 'object'>"; ob_is_float := false; ob_infinity := None;
          ob_has_call := true; ob_has_get := false; ob_signature := None;
          ob_argspec := None;
          ob_self := {| tp_name := Some "object"; tp_module := Some (builtins_name rt) |};
          ob_tag := TyOther; ob_is_type := false; ob_is_module := false;
          ob_bases := GetValue []; ob_dir := []; ob_attrs := []; ob_mro := [] |};
     ob_truthy := true; ob_doc := DocNone; ob_repr := "<object object>";
     ob_is_float := false; ob_infinity := None; ob_has_call := false;
     ob_has_get := false; ob_signature := None; ob_argspec := None;
     ob_self := {| tp_name := None; tp_module := None |};
     ob_tag := TyOther; ob_is_type := false; ob_is_module := false;
     ob_bases := GetAttributeError; ob_dir := []; ob_attrs := []; ob_mro := [] |}.

Definition SKIP_TYPENAME_FOR_TYPES (rt : Runtime) : list type_tag :=
  [TyBool; TyStr; TyBytes; TyInt; TyFloat] ++ (if py2 rt then [TyUnicode; TyLong] else []).
Definition STATICMETHOD_TYPES : list type_tag := [].
Definition CLASSMETHOD_TYPES : list type_tag := [TyBuiltinMethod].
Definition PROPERTY_TYPES : list type_tag := [TyGetSetDescriptor; TyMemberDescriptor].

Global Instance type_tag_eq_dec : EqDecision type_tag.
Proof. solve_decision. Defined.

(** These full names are known to be lies. *)
Definition LIES_ABOUT_MODULE (rt : Runtime) : gset string :=
  list_to_set [
    builtins_name rt +:+ ".weakcallableproxy";
    builtins_name rt +:+ ".weakproxy";
    builtins_name rt +:+ ".weakref";
    "os.stat_result";
    "os.statvfs_result";
    "numpy.broadcast";
    "numpy.busdaycalendar";
    "numpy.dtype";
    "numpy.flagsobj";
    "numpy.flatiter";
    "numpy.ndarray";
    "numpy.nditer"
  ].

Definition VALUE_REPR_FIX (v : infinity) : string :=
  match v with
  | PosInf => "float('inf')"
  | NegInf => "float('-inf')"
  end.

(** [MemberInfo._get_typename]: the imports the type needs, and its name.
    A [None] among the imports is the [None] passed as [in_module]. The
    result is [None] when the method raises: when the name of the type
    cannot be read, the handler builds its warning from [value], a name that
    is not defined there, and the [NameError] leaves the method. *)
Definition _get_typename (rt : Runtime) (value_type : TypeInfo) (in_module : option string)
  : option (list (option string) * option string) :=
  match tp_name value_type with
  | None => None                  (* except Exception: ... repr(value): NameError *)
  | Some type_name =>
      let type_name := PyStr.replace "-" "_" type_name in
      let module := tp_module value_type in
      (* Special workaround for Python 2 exceptions lying about their module *)
      let module :=
        if py2 rt && bool_decide (module = Some "exceptions")
           && bool_decide (in_module = Some (builtins_name rt))
        then Some (builtins_name rt) else module in
      if PyStr.truthy module && negb (bool_decide (module = Some "<unknown>"))
      then
        if bool_decide (module = in_module) then Some ([module], Some type_name)
        else
          let fullname := qualified module type_name in
          if bool_decide (fullname ∈ LIES_ABOUT_MODULE rt)
          then Some ([in_module], Some type_name)
                                     (* as if it came from the current module *)
          else Some ([module], Some fullname)
      else Some ([], Some type_name)
  end.

Inductive MemberInfo := Build_MemberInfo {
  mi_name : string;
  mi_value : pyvalue;
  mi_literal : option string;
  mi_members : list (option MemberInfo);     (* [None]: the sentinel [NO_VALUE] *)
  mi_need_imports : list (option string);
  mi_type_name : option string;
  mi_scope_name : option string;
  mi_bases : list string;
  mi_signature : option Signature;
  mi_documentation : option string;
  mi_alias : option string;
}.

(** The loop over the bases of a class in [MemberInfo.__init__]: the bases
    and the imports collected so far, extended by the remaining [bases];
    [None] when [_get_typename] raises for one of them. *)
Fixpoint bases_loop (rt : Runtime) (type_name : option string) (module : option string)
    (bases : list TypeInfo) (acc : list string * list (option string))
  : option (list string * list (option string)) :=
  match bases with
  | [] => Some acc
  | b :: bases' =>
      '(ni, t) ← _get_typename rt b module;
      if negb (PyStr.truthy t) then bases_loop rt type_name module bases' acc
      else if bool_decide (t = type_name) && bool_decide (module ∈ ni)
      then bases_loop rt type_name module bases' acc
      else bases_loop rt type_name module bases'
             (acc.1 ++ [default EmptyString t], acc.2 ++ ni)
  end.

(** [MemberInfo.__init__]; [None] when the constructor raises. *)
Definition MemberInfo_init (rt : Runtime) (name : string) (value : pyvalue)
    (literal : option string) (scope module alias : option string)
    (module_doc : pydoc) (scope_alias : option string) : option MemberInfo :=
  let documentation :=
    match value with
    | Some v => match ob_doc v with DocStr d => Some d | _ => None end
    | None => None
    end in
  let self_name := if PyStr.truthy (Some name) then PyStr.replace "-" "_" name else name in
  let mk literal need_imports type_name scope_name bases signature :=
    {| mi_name := self_name; mi_value := value; mi_literal := literal; mi_members := [];
       mi_need_imports := need_imports; mi_type_name := type_name;
       mi_scope_name := scope_name; mi_bases := bases; mi_signature := signature;
       mi_documentation := documentation; mi_alias := alias |} in
  match value with
  | Some v =>
      let value_type := py_type rt v in
      if ob_is_type value_type then
        '(need_imports, type_name) ← _get_typename rt (ob_self v) module;
        match type_name with
        | None => None                       (* not reached: the name is a string *)
        | Some tn =>
            if PyStr.contains "." tn
            then Some (mk type_name need_imports None None [] None)
            else
              match ob_bases v with
              | GetError => Some (mk literal need_imports type_name type_name [] None)
              | GetAttributeError =>
                  Some (mk literal need_imports type_name type_name [] None)
              | GetValue bases =>
                  '(bs, ni) ← bases_loop rt type_name module bases ([], need_imports);
                  Some (mk literal ni type_name type_name bs None)
              end
        end
      else if ob_has_call v then       (* safe_callable(value) *)
        let dec : list string := [] in
        let dec :=
          if PyStr.truthy scope then
            if bool_decide (ob_tag value_type ∈ STATICMETHOD_TYPES)
            then dec ++ ["@staticmethod"]
            else if bool_decide (ob_tag value_type ∈ CLASSMETHOD_TYPES)
            then dec ++ ["@classmethod"]
            else dec
          else dec in
        signature ← Signature_init rt name v scope [] scope_alias dec module_doc;
        Some (mk literal [] None None [] (Some signature))
      else
        signature ←
          (if bool_decide (ob_tag value_type ∈ PROPERTY_TYPES)
           then Some <$> Signature_init rt name v scope [] scope_alias [] DocNone
           else Some None);
        '(need_imports, type_name) ←
          (if negb (bool_decide (ob_tag value_type ∈ SKIP_TYPENAME_FOR_TYPES rt))
           then _get_typename rt (ob_self value_type) module
           else Some ([], None));
        let literal :=
          if ob_is_float v && bool_decide (ob_repr v = "nan")
          then Some "float('nan')" else literal in
        let literal :=
          match ob_infinity v with
          | Some i => Some (VALUE_REPR_FIX i)
          | None => literal
          end in
        Some (mk literal need_imports type_name None [] signature)
  | None =>
      let literal := if negb (PyStr.truthy literal) then Some "None" else literal in
      Some (mk literal [] None None [] None)
  end.

(** *** Rendering of an entry *)

Definition newline : string := String "010"%char EmptyString.
Definition indent4 : string := "    ".

(** The decorators of [_lines_with_signature]: each one once, in order. *)
Fixpoint decorator_lines (decorators : list string) (seen_decorators : gset string)
  : list string :=
  match decorators with
  | [] => []
  | d :: ds =>
      if bool_decide (d ∈ seen_decorators) then decorator_lines ds seen_decorators
      else d :: decorator_lines ds ({[d]} ∪ seen_decorators)
  end.

Definition _lines_with_signature (rt : Runtime) (documentation : option string)
    (signature : Signature) : list string :=
  decorator_lines (decorators signature) ∅
  ++ ["def " +:+ fullsig signature +:+ ":"]
  ++ (if PyStr.truthy documentation
      then [indent4 +:+ repr_str rt (default EmptyString documentation)] else [])
  ++ (if PyStr.truthy (Some (restype signature))
      then [indent4 +:+ restype signature] else [indent4 +:+ "pass"])
  ++ [EmptyString].

(** [MemberInfo.as_str], with [_lines_with_members] inlined for the
    recursion over the members. *)
Fixpoint as_str (rt : Runtime) (indent : string) (mi : MemberInfo) : string :=
  let name := mi_name mi in
  if PyStr.truthy (mi_literal mi)
  then indent +:+ name +:+ " = " +:+ default EmptyString (mi_literal mi)
  else
    match mi_members mi with
    | _ :: _ =>
        let member_lines :=
          (fix lines (members : list (option MemberInfo)) : list string :=
             match members with
             | [] => []
             | Some m :: members' => as_str rt indent4 m :: lines members'
             | None :: members' => lines members'       (* mi is NO_VALUE *)
             end) (mi_members mi) in
        let lines_with_members :=
          [if bool_decide (mi_bases mi ≠ [])
           then "class " +:+ name +:+ "(" +:+ PyStr.join "," (mi_bases mi) +:+ "):"
           else "class " +:+ name +:+ ":"]
          ++ (if PyStr.truthy (mi_documentation mi)
              then [indent4 +:+ repr_str rt (default EmptyString (mi_documentation mi))]
              else [])
          ++ member_lines
          ++ [EmptyString] in
        PyStr.join newline ((λ s, indent +:+ s) <$> lines_with_members)
    | [] =>
        match mi_signature mi with
        | Some signature =>
            PyStr.join newline
              ((λ s, indent +:+ s)
                 <$> _lines_with_signature rt (mi_documentation mi) signature)
        | None =>
            match mi_type_name mi with
            | Some type_name => indent +:+ name +:+ " = " +:+ type_name +:+ "()"
            | None =>
                match mi_value mi with
                | Some v => indent +:+ name +:+ " = " +:+ ob_repr v
                | None => indent +:+ name
                end
            end
        end
    end.

(** ** The traversal (class [ScrapeState]) *)

Record ScrapeState := {
  st_module : pyvalue;                      (* self.module *)
  st_module_name : string;                  (* self.module_name *)
  st_members : list (option MemberInfo);    (* self.members *)
}.

Definition MODULE_MEMBER_SUBSTITUTE (rt : Runtime) : option (gmap string (option MemberInfo)) :=
  builtins_mi ← MemberInfo_init rt "__builtins__" (Some (empty_dict rt))
                  None None None None DocNone None;
  Some (<["__builtins__" := Some builtins_mi]>
        (<["__spec__" := None]> (<["__loader__" := None]> ∅))).

Definition CLASS_MEMBER_SUBSTITUTE (rt : Runtime) : option (gmap string (option MemberInfo)) :=
  bases_mi ← MemberInfo_init rt "__bases__" (Some (empty_tuple rt))
               None None None None DocNone None;
  mro_mi ← MemberInfo_init rt "__mro__" (Some (empty_tuple rt))
             None None None None DocNone None;
  dict_mi ← MemberInfo_init rt "__dict__" (Some (empty_dict rt))
              None None None None DocNone None;
  Some (<["__bases__" := Some bases_mi]>
        (<["__mro__" := Some mro_mi]>
         (<["__dict__" := Some dict_mi]>
          (<["__doc__" := None]> (<["__new__" := None]> ∅))))).

(** [set(m.name for m in members)]; reading [name] off the sentinel
    [NO_VALUE] raises. *)
Definition member_names (members : list (option MemberInfo)) : option (gset string) :=
  names ← mapM (fmap mi_name) members;
  Some (list_to_set names).

Definition _should_add_value (rt : Runtime) (value : pyvalue) : bool :=
  match value with
  | None => true                          (* type(None) is no module type *)
  | Some v =>
      let value_type := py_type rt v in
      let mod_ := tp_module (ob_self value_type) in
      match tp_name (ob_self value_type) with
      | None => false                     (* error getting typename *)
      | Some name =>
          if bool_decide ((mod_, name) = (Some (builtins_name rt), "CompiledLib"))
          then true                       (* Always allow CFFI lib *)
          else if ob_is_module value_type
          then false                      (* Disallow nested modules *)
          else true                       (* By default, include all values *)
      end
  end.

Fixpoint _mro_contains (mro : list pyobject) (name : string) (value : pyvalue) : bool :=
  match mro with
  | [] => false
  | m :: mro' =>
      match py_getattr m name with
      | GetValue mro_value =>
          if py_is mro_value value then true else _mro_contains mro' name value
      | _ => _mro_contains mro' name value
      end
  end.

(** One round of the loop of [_collect_members] over [dir(mod)]. *)
Definition collect_member (rt : Runtime) (module_name : string) (mod_ : pyobject)
    (substitutes : gmap string (option MemberInfo)) (existing_names : gset string)
    (scope scope_alias : option string) (mod_scope : string) (mro : list pyobject)
    (members : list (option MemberInfo)) (name : string)
  : option (list (option MemberInfo)) :=
  let append_substitute (m : option MemberInfo) :=
    match m with
    | Some _ => members ++ [m]
    | None => members
    end in
  if iskeyword rt name then Some members
  else
    match substitutes !! name with
    | Some m => Some (append_substitute m)
    | None =>
        match substitutes !! (mod_scope +:+ "." +:+ name) with
        | Some m => Some (append_substitute m)
        | None =>
            if bool_decide (name ∈ existing_names) then Some members
            else
              match py_getattr mod_ name with
              | GetValue value =>
                  if negb (_should_add_value rt value) then Some members
                  else if _mro_contains mro name value then Some members
                  else
                    mi ← MemberInfo_init rt name value None scope (Some module_name)
                           None (ob_doc mod_) scope_alias;
                    Some (members ++ [Some mi])
              | _ => Some members          (* a warning; the name is skipped *)
              end
        end
    end.

Fixpoint collect_loop (rt : Runtime) (module_name : string) (mod_ : pyobject)
    (substitutes : gmap string (option MemberInfo)) (existing_names : gset string)
    (scope scope_alias : option string) (mod_scope : string) (mro : list pyobject)
    (names : list string) (members : list (option MemberInfo))
  : option (list (option MemberInfo)) :=
  match names with
  | [] => Some members
  | name :: names' =>
      members ← collect_member rt module_name mod_ substitutes existing_names
                  scope scope_alias mod_scope mro members name;
      collect_loop rt module_name mod_ substitutes existing_names
        scope scope_alias mod_scope mro names' members
  end.

(** [ScrapeState._collect_members]: the member list after the call, or
    [None] when it raises. *)
Definition _collect_members (rt : Runtime) (module_name : string) (mod_ : pyvalue)
    (members : list (option MemberInfo)) (substitutes : gmap string (option MemberInfo))
    (outer_member : option MemberInfo) : option (list (option MemberInfo)) :=
  match mod_ with
  | None => None                                     (* failed to import module *)
  | Some mod_ =>
      if negb (ob_truthy mod_) then None
      else if py_is (Some mod_) (Some (NO_VALUE rt)) then Some members
      else
        existing_names ← member_names members;
        let '(scope, scope_alias) :=
          match outer_member with
          | Some outer => (mi_scope_name outer, mi_alias outer)
          | None => (None, None)
          end in
        let mod_scope :=
          if PyStr.truthy scope then qualified (Some module_name) (default EmptyString scope)
          else module_name in
        let mro := drop 1 (ob_mro mod_) in
        collect_loop rt module_name mod_ substitutes existing_names
          scope scope_alias mod_scope mro (ob_dir mod_) members
  end.

(** The loop of [collect_top_level_members] that declares the local types
    which have no entry of their own. *)
Fixpoint undeclared_loop (rt : Runtime) (module_name : string) (m_names : gset string)
    (members : list (option MemberInfo)) (undeclared : list (option MemberInfo))
  : option (list (option MemberInfo)) :=
  match members with
  | [] => Some undeclared
  | None :: _ => None                     (* the sentinel has no attribute [value] *)
  | Some m :: members' =>
      match mi_value m, mi_type_name m with
      | Some v, Some type_name =>
          if PyStr.truthy (Some type_name) && negb (PyStr.contains "." type_name)
             && negb (bool_decide (type_name ∈ m_names))
          then
            mi ← MemberInfo_init rt type_name (Some (py_type rt v)) None None
                   (Some module_name) None DocNone None;
            undeclared_loop rt module_name m_names members' (undeclared ++ [Some mi])
          else undeclared_loop rt module_name m_names members' undeclared
      | _, _ => undeclared_loop rt module_name m_names members' undeclared
      end
  end.

Definition with_members (st : ScrapeState) (members : list (option MemberInfo))
  : ScrapeState :=
  {| st_module := st_module st; st_module_name := st_module_name st;
     st_members := members |}.

Definition collect_top_level_members (rt : Runtime) (st : ScrapeState)
  : option ScrapeState :=
  substitutes ← MODULE_MEMBER_SUBSTITUTE rt;
  members ← _collect_members rt (st_module_name st) (st_module st) (st_members st)
              substitutes None;
  m_names ← member_names members;
  undeclared ← undeclared_loop rt (st_module_name st) m_names members [];
  Some (with_members st (assign_prefix 0 undeclared members)).

Definition _should_collect_members (rt : Runtime) (module_name : string)
    (member : MemberInfo) : bool :=
  if bool_decide (Some module_name ∈ mi_need_imports member)
     && bool_decide (Some (mi_name member) = mi_type_name member)
  then true
  else
    (* Support cffi libs *)
    bool_decide (mi_type_name member = Some (builtins_name rt +:+ ".CompiledLib")).

(** [mi2.signature.decorators += '@staticmethod',] for every member. *)
Fixpoint add_staticmethod (members : list (option MemberInfo))
  : option (list (option MemberInfo)) :=
  match members with
  | [] => Some []
  | None :: _ => None                     (* the sentinel has no attribute [signature] *)
  | Some mi2 :: members' =>
      let mi2 :=
        match mi_signature mi2 with
        | Some s =>
            let s := {| sig_name := sig_name s; sig_callable := sig_callable s;
                        sig_scope := sig_scope s;
                        decorators := decorators s ++ ["@staticmethod"];
                        _defaults := _defaults s; fullsig := fullsig s;
                        restype := restype s |} in
            {| mi_name := mi_name mi2; mi_value := mi_value mi2;
               mi_literal := mi_literal mi2; mi_members := mi_members mi2;
               mi_need_imports := mi_need_imports mi2; mi_type_name := mi_type_name mi2;
               mi_scope_name := mi_scope_name mi2; mi_bases := mi_bases mi2;
               mi_signature := Some s; mi_documentation := mi_documentation mi2;
               mi_alias := mi_alias mi2 |}
        | None => mi2
        end in
      rest ← add_staticmethod members';
      Some (Some mi2 :: rest)
  end.

(** The body of the loop of [collect_second_level_members] for one entry. *)
Definition collect_second_level (rt : Runtime) (module_name : string) (mi : MemberInfo)
  : option MemberInfo :=
  if _should_collect_members rt module_name mi then
    class_substitutes ← CLASS_MEMBER_SUBSTITUTE rt;
    class_mi ← MemberInfo_init rt "__class__" None (mi_type_name mi)
                 None None None DocNone None;
    let substitutes := <["__class__" := Some class_mi]> class_substitutes in
    members ← _collect_members rt module_name (mi_value mi) (mi_members mi)
                substitutes (Some mi);
    members ←
      (if bool_decide (mi_scope_name mi ≠ mi_type_name mi)
       then add_staticmethod members else Some members);
    Some {| mi_name := mi_name mi; mi_value := mi_value mi; mi_literal := mi_literal mi;
            mi_members := members; mi_need_imports := mi_need_imports mi;
            mi_type_name := mi_type_name mi; mi_scope_name := mi_scope_name mi;
            mi_bases := mi_bases mi; mi_signature := mi_signature mi;
            mi_documentation := mi_documentation mi; mi_alias := mi_alias mi |}
  else Some mi.

Fixpoint second_level_loop (rt : Runtime) (module_name : string)
    (members : list (option MemberInfo)) : option (list (option MemberInfo)) :=
  match members with
  | [] => Some []
  | None :: _ => None
  | Some mi :: members' =>
      mi ← collect_second_level rt module_name mi;
      rest ← second_level_loop rt module_name members';
      Some (Some mi :: rest)
  end.

Definition collect_second_level_members (rt : Runtime) (st : ScrapeState)
  : option ScrapeState :=
  members ← second_level_loop rt (st_module_name st) (st_members st);
  Some (with_members st members).

(** [state.members[:] = [m for m in state.members if m.name not in EXCLUDED_MEMBERS]]. *)
Fixpoint exclude_loop (excluded : list string) (members : list (option MemberInfo))
  : option (list (option MemberInfo)) :=
  match members with
  | [] => Some []
  | None :: _ => None
  | Some m :: members' =>
      rest ← exclude_loop excluded members';
      Some (if bool_decide (mi_name m ∉ excluded) then Some m :: rest else rest)
  end.

Definition exclude_members (excluded : list string) (st : ScrapeState)
  : option ScrapeState :=
  members ← exclude_loop excluded (st_members st);
  Some (with_members st members).

(** *** Serialisation *)

(** The order in which a Python [set] hands out its elements. It depends on
    the hash seed of the process; every order is an enumeration without
    repetition of the elements. *)
Definition set_order := gset string → list string.

Definition valid_set_order (order : set_order) : Prop :=
  ∀ X : gset string, NoDup (order X) ∧ ∀ x, x ∈ order X ↔ x ∈ X.

(** [sorted(imports)] on strings. *)
Definition py_sorted (l : list string) : list string := merge_sort String.le l.

(** The first loop of [dump]: the set of the modules to import. *)
Fixpoint dump_imports (members : list (option MemberInfo))
    (imports : gset (option string)) : option (gset (option string)) :=
  match members with
  | [] => Some imports
  | None :: _ => None                     (* the sentinel has no [need_imports] *)
  | Some value :: members' =>
      dump_imports members' (list_to_set (mi_need_imports value) ∪ imports)
  end.

(** The module names in a set of imports; [None] when the set holds
    Python's [None], which cannot be concatenated to a string. *)
Definition import_names (imports : gset (option string)) : option (gset string) :=
  if bool_decide (None ∈ imports) then None
  else Some (list_to_set (omap id (elements imports))).

(** The second loop of [dump]: one printed text per entry. *)
Fixpoint dump_members (rt : Runtime) (members : list (option MemberInfo))
  : option (list string) :=
  match members with
  | [] => Some []
  | None :: _ => None
  | Some value :: members' =>
      rest ← dump_members rt members';
      Some (as_str rt EmptyString value :: rest)
  end.

(** [print(s, file=out)] for every [s] of [lines]. *)
Definition print_lines (lines : list string) : string :=
  String.concat EmptyString ((λ s, s +:+ newline) <$> lines).

(** [ScrapeState.dump]: the text written to [out], or [None] when it raises. *)
Definition dump (rt : Runtime) (order : set_order) (st : ScrapeState) : option string :=
  imports ← dump_imports (st_members st) ∅;
  let imports := imports ∖ {[Some (st_module_name st)]} in
  names ← import_names imports;
  let import_lines :=
    if bool_decide (imports ≠ ∅)
    then ((λ mod_, "import " +:+ mod_) <$> py_sorted (order names)) ++ [EmptyString]
    else [] in
  member_lines ← dump_members rt (st_members st);
  Some (print_lines (import_lines ++ member_lines)).

(** The main program after the state has been set up: top-level collection,
    exclusion, second-level collection, dump. *)
Definition scrape (rt : Runtime) (order : set_order) (excluded : list string)
    (st : ScrapeState) : option string :=
  st ← collect_top_level_members rt st;
  st ← exclude_members excluded st;
  st ← collect_second_level_members rt st;
  dump rt order st.

Local Open Scope nat_scope.

(** ** Concrete values for the examples *)

(** An object with the given identity, type, documentation and
    callability, and no further metadata. *)
Definition simple_object (id : nat) (type_ : option pyobject) (doc : pydoc)
    (callable : bool) : pyobject :=
  {| ob_id := id; ob_type := type_; ob_truthy := true; ob_doc := doc;
     ob_repr := "<object>"; ob_is_float := false; ob_infinity := None;
     ob_has_call := callable; ob_has_get := false; ob_signature := None;
     ob_argspec := None; ob_self := {| tp_name := None; tp_module := None |};
     ob_tag := TyOther; ob_is_type := false; ob_is_module := false;
     ob_bases := GetAttributeError; ob_dir := []; ob_attrs := []; ob_mro := [] |}.

(** A class [module.name] with the given bases and attributes, whose
    metaclass is [type]. *)
Definition class_object (id : nat) (name module : string) (doc : pydoc)
    (bases : list TypeInfo) (attrs : list (string * getattr_result pyvalue))
    (mro : list pyobject) : pyobject :=
  {| ob_id := id; ob_type := None; ob_truthy := true; ob_doc := doc;
     ob_repr := "<class>"; ob_is_float := false; ob_infinity := None;
     ob_has_call := true; ob_has_get := false; ob_signature := None;
     ob_argspec := None;
     ob_self := {| tp_name := Some name; tp_module := Some module |};
     ob_tag := TyOther; ob_is_type := false; ob_is_module := false;
     ob_bases := GetValue bases; ob_dir := attrs.*1; ob_attrs := attrs;
     ob_mro := mro |}.

(** The builtin type [name] that the scraper knows under [tag]. *)
Definition builtin_class (id : nat) (name : string) (tag : type_tag) : pyobject :=
  {| ob_id := id; ob_type := None; ob_truthy := true; ob_doc := DocNone;
     ob_repr := "<class>"; ob_is_float := false; ob_infinity := None;
     ob_has_call := true; ob_has_get := false; ob_signature := None;
     ob_argspec := None;
     ob_self := {| tp_name := Some name; tp_module := Some "builtins" |};
     ob_tag := tag; ob_is_type := false; ob_is_module := false;
     ob_bases := GetValue []; ob_dir := []; ob_attrs := []; ob_mro := [] |}.

(** An instance of a builtin type, with its [repr]. *)
Definition builtin_value (id : nat) (type_ : pyobject) (repr : string) : pyobject :=
  {| ob_id := id; ob_type := Some type_; ob_truthy := true; ob_doc := DocNone;
     ob_repr := repr; ob_is_float := false; ob_infinity := None;
     ob_has_call := false; ob_has_get := false; ob_signature := None;
     ob_argspec := None; ob_self := {| tp_name := None; tp_module := None |};
     ob_tag := TyOther; ob_is_type := false; ob_is_module := false;
     ob_bases := GetAttributeError; ob_dir := []; ob_attrs := []; ob_mro := [] |}.

(** A module object with the given attributes. *)
Definition module_object (id : nat) (doc : pydoc)
    (attrs : list (string * getattr_result pyvalue)) : pyobject :=
  {| ob_id := id;
     ob_type := Some
       {| ob_id := 3; ob_type := None; ob_truthy := true; ob_doc := DocNone;
          ob_repr := "<class 'module'>"; ob_is_float := false; ob_infinity := None;
          ob_has_call := true; ob_has_get := false; ob_signature := None;
          ob_argspec := None;
          ob_self := {| tp_name := Some "module"; tp_module := Some "builtins" |};
          ob_tag := TyOther; ob_is_type := false; ob_is_module := true;
          ob_bases := GetValue []; ob_dir := []; ob_attrs := []; ob_mro := [] |};
     ob_truthy := true; ob_doc := doc; ob_repr := "<module>";
     ob_is_float := false; ob_infinity := None; ob_has_call := false;
     ob_has_get := false; ob_signature := None; ob_argspec := None;
     ob_self := {| tp_name := None; tp_module := None |};
     ob_tag := TyOther; ob_is_type := false; ob_is_module := false;
     ob_bases := GetAttributeError; ob_dir := attrs.*1; ob_attrs := attrs;
     ob_mro := [] |}.

(** [callable] with the results of [inspect.signature] and
    [inspect.getfullargspec] set. *)
Definition with_introspection (callable : pyobject)
    (signature : option (list SigParameter)) (argspec : option ArgSpec) : pyobject :=
  {| ob_id := ob_id callable; ob_type := ob_type callable;
     ob_truthy := ob_truthy callable; ob_doc := ob_doc callable;
     ob_repr := ob_repr callable; ob_is_float := ob_is_float callable;
     ob_infinity := ob_infinity callable; ob_has_call := ob_has_call callable;
     ob_has_get := ob_has_get callable; ob_signature := signature;
     ob_argspec := argspec; ob_self := ob_self callable; ob_tag := ob_tag callable;
     ob_is_type := ob_is_type callable; ob_is_module := ob_is_module callable;
     ob_bases := ob_bases callable; ob_dir := ob_dir callable;
     ob_attrs := ob_attrs callable; ob_mro := ob_mro callable |}.

(** A parser that knows the headers used in the examples; every other
    source is a syntax error for it. *)
Definition example_parse (src : string) : parse_result :=
  if bool_decide (src = "def f(a, b=1): pass")
  then Parsed {| fd_name := "f"; fd_args := [ArgArg "a"; ArgArg "b"];
                 fd_defaults := [Num "1"] |}
  else if bool_decide (src = "def f(a, b): pass")
  then Parsed {| fd_name := "f"; fd_args := [ArgArg "a"; ArgArg "b"];
                 fd_defaults := [] |}
  else if bool_decide (src = "def g(a): pass")
  then Parsed {| fd_name := "g"; fd_args := [ArgArg "a"]; fd_defaults := [] |}
  else if bool_decide (src = "def m(self, x): pass")
  then Parsed {| fd_name := "m"; fd_args := [ArgArg "self"; ArgArg "x"];
                 fd_defaults := [] |}
  else if bool_decide (src = "def m(self : C, x): pass")
  then Parsed {| fd_name := "m"; fd_args := [ArgArg "self"; ArgArg "x"];
                 fd_defaults := [] |}
  else if bool_decide (src = "def f(self : C, x, y=2): pass")
  then Parsed {| fd_name := "f"; fd_args := [ArgArg "self"; ArgArg "x"; ArgArg "y"];
                 fd_defaults := [Num "2"] |}
  else if bool_decide (src = "def h(x, x, x2, x): pass")
  then Parsed {| fd_name := "h";
                 fd_args := [ArgArg "x"; ArgArg "x"; ArgArg "x2"; ArgArg "x"];
                 fd_defaults := [] |}
  else ParseSyntaxError.

(** The letters among the characters from 192 on, as in Latin-1. *)
Definition example_isalnum (c : ascii) : bool :=
  let n := nat_of_ascii c in
  bool_decide (192 ≤ n) && negb (bool_decide (n = 215)) && negb (bool_decide (n = 247)).

(** A Python 3 runtime with the tables of the class body. *)
Definition example_runtime : Runtime :=
  {| py2 := false;
     ast_parse_funcdef := example_parse;
     ast_parse_ok := λ _, true;
     isalnum := example_isalnum;
     literal_eval_ok := λ r, bool_decide (r ∈ ["None"; "0"; "1"]);
     signature_str := λ ps, "(" +:+ PyStr.join ", " (p_name <$> ps) +:+ ")";
     repr_str := λ s, "'" +:+ s +:+ "'";
     iskeyword := λ s, bool_decide (s ∈ ["class"; "def"; "pass"; "None"]);
     known_argspecs := KNOWN_ARGSPECS;
     known_restypes := KNOWN_RESTYPES;
     empty_dict := simple_object 4 (Some (class_object 5 "dict" "builtins" DocNone [] [] []))
                     DocNone false;
     empty_tuple := simple_object 6 (Some (class_object 7 "tuple" "builtins" DocNone [] [] []))
                      DocNone false |}.

(** A builtin method that offers neither a signature nor an argument
    specification nor documentation. *)
Definition opaque_callable : pyobject :=
  simple_object 20 (Some (class_object 21 "method-wrapper" "builtins" DocNone [] [] []))
    DocNone true.

(** * Specification-level definitions

    The notions in which the theorems below are stated, and the values of
    their examples. *)

(** The binding argument [def_arg] of [Signature.__init__]. *)
Definition binding_argument (decorators : list string) : string :=
  if bool_decide ("@classmethod" ∈ decorators) then "cls" else "self".

(** Position [i] is a mismatch: the implicit name and the inferred name
    differ, and the pair is not (['cls'], ['type']). *)
Definition mismatch_at (defaults args : list string) (i : nat) : Prop :=
  ∃ x y, defaults !! i = Some x ∧ args !! i = Some y
         ∧ x ≠ y ∧ ¬ (x = "cls" ∧ y = "type").

(** The keys consulted for method [name] in scope [scope] with alias
    [scope_alias], in the order of precedence: ['a.m'], ['s.m'], ['m']. An
    alias or scope that is [None] or empty contributes no key. *)
Definition kb_keys (name : string) (scope scope_alias : option string) : list string :=
  (if PyStr.truthy scope_alias then [qualified scope_alias name] else [])
  ++ (if PyStr.truthy scope then [qualified scope name] else [])
  ++ [name].

(** The lookup rule in the words of the specification: the first key that
    is present in the table provides the result. *)
Fixpoint first_present {V} (tbl : gmap string V) (keys : list string) : option V :=
  match keys with
  | [] => None
  | k :: keys' =>
      match tbl !! k with
      | Some v => Some v
      | None => first_present tbl keys'
      end
  end.

(** The lookup rule of the code: the first key whose entry is truthy (a
    non-empty string or list) provides the result. *)
Fixpoint first_hit {V} (truthy : option V → bool) (tbl : gmap string V)
    (keys : list string) : option V :=
  match keys with
  | [] => None
  | k :: keys' => if truthy (tbl !! k) then tbl !! k else first_hit truthy tbl keys'
  end.

(** A callable whose native signature is [(x, /)] and whose argument
    specification lists the single argument [y]. *)
Definition callable_with_both : pyobject :=
  with_introspection opaque_callable
    (Some [{| p_name := "x"; p_kind := POSITIONAL_ONLY; p_default := None |}])
    (Some {| as_args := ["y"]; as_varargs := None; as_varkw := None |}).











(** The identifiers recorded for the parameters [pairs], starting from the
    recorded names [seen]: an identifier that is not yet recorded is kept; a
    recorded identifier [x] becomes [x] followed by the least number from 2
    on that gives an unrecorded name. Every recorded identifier is new, and
    apart from the marker for default values the recorded names grow by it
    alone. *)
Inductive renamed_from : gset string → list (arg_node * option expr) → list arg_str → Prop :=
  | renamed_nil seen : renamed_from seen [] []
  | renamed_cons seen a d pairs r rs :
      (arg_node_id a ∉ seen → arg_ident r = arg_node_id a) →
      (arg_node_id a ∈ seen →
         ∃ k, 2 ≤ k ∧ arg_ident r = arg_node_id a +:+ PyStr.of_nat k
              ∧ ∀ j, (2 ≤ j < k) → (arg_node_id a +:+ PyStr.of_nat j) ∈ seen) →
      arg_ident r ∉ seen →
      {[arg_ident r]} ∪ seen ⊆ arg_seen r →
      arg_seen r ⊆ {[default_value_marker]} ∪ ({[arg_ident r]} ∪ seen) →
      renamed_from (arg_seen r) pairs rs →
      renamed_from seen ((a, d) :: pairs) (r :: rs).

(** A member [x = 1] entered before the scan, as [add_literal] does. *)
Definition literal_member (name literal : string) : MemberInfo :=
  {| mi_name := name; mi_value := None; mi_literal := Some literal; mi_members := [];
     mi_need_imports := []; mi_type_name := None; mi_scope_name := None;
     mi_bases := []; mi_signature := None; mi_documentation := None;
     mi_alias := None |}.

(** A module whose only attribute is [x = 1]. *)
Definition module_with_x : pyobject :=
  module_object 40 DocNone
    [("x", GetValue (Some (builtin_value 41 (builtin_class 42 "int" TyInt) "1")))].

(** An entry that a scan of [names] may add: a substitute registered for
    one of the names, or the entry of a name that is not [existing], under
    that name with hyphens replaced. *)
Definition added_entry (substitutes : gmap string (option MemberInfo))
    (existing : string → Prop) (mod_scope : string) (names : list string)
    (m : option MemberInfo) : Prop :=
  ∃ mi name, m = Some mi ∧ name ∈ names
    ∧ (substitutes !! name = Some (Some mi)
       ∨ substitutes !! (mod_scope +:+ "." +:+ name) = Some (Some mi)
       ∨ (¬ existing name ∧ mi_name mi = PyStr.replace "-" "_" name)).

(** The names of the entries of a member list. *)
Definition member_named (members : list (option MemberInfo)) (name : string) : Prop :=
  ∃ pre, Some pre ∈ members ∧ mi_name pre = name.

(** The names of the entries, [None] for the sentinel. *)
Definition entry_names (members : list (option MemberInfo)) : list (option string) :=
  (λ m : option MemberInfo, mi_name <$> m) <$> members.

(** A header with the parameters [x, x, x2, x]. *)
Definition header_h : FunctionDef :=
  {| fd_name := "h"; fd_args := [ArgArg "x"; ArgArg "x"; ArgArg "x2"; ArgArg "x"];
     fd_defaults := [] |}.

(** The name under which the base [b] of a class [type_name] of [module]
    is emitted, if it is: a base without a name is passed over, and so is a
    base that resolves to the name of the class and to the current module. *)
Definition emitted_base (rt : Runtime) (type_name : string) (module : option string)
    (b : TypeInfo) : option string :=
  match _get_typename rt b module with
  | Some (ni, Some t) =>
      if PyStr.truthy (Some t) && negb (bool_decide (t = type_name ∧ module ∈ ni))
      then Some t else None
  | _ => None
  end.

(** The class [m.C], whose bases are a class [m.C] and [object]. *)
Definition class_C : pyobject :=
  class_object 50 "C" "m" DocNone
    [{| tp_name := Some "C"; tp_module := Some "m" |};
     {| tp_name := Some "object"; tp_module := Some "builtins" |}] [] [].

(** The set of imports of [dump] before the sort: the imports of the
    entries without the module that is scanned. *)
Definition dump_import_set (st : ScrapeState) : option (gset (option string)) :=
  imports ← dump_imports (st_members st) ∅;
  Some (imports ∖ {[Some (st_module_name st)]}).

(** [numpy.ndarray], as the type reports itself. *)
Definition ndarray_type : pyobject :=
  class_object 60 "ndarray" "numpy" DocNone [] [] [].

(** A value of that type, found in the module [numpy.core.multiarray]. *)
Definition ndarray_value : pyobject :=
  builtin_value 61 ndarray_type "array([])".

(** A Python function with the given documentation. *)
Definition function_object (id : nat) (doc : pydoc) (argspec : option ArgSpec) : pyobject :=
  with_introspection
    (simple_object id (Some (class_object 70 "function" "builtins" DocNone [] [] []))
       doc true)
    None argspec.

(** The module [m]: a class [C] with a method [f], a function [g], two
    values of types of other modules, and a number. *)
Definition example_module : pyobject :=
  module_object 71 (DocStr "An example.")
    [("C", GetValue (Some
        (class_object 72 "C" "m" (DocStr "A class.")
           [{| tp_name := Some "object"; tp_module := Some "builtins" |}]
           [("f", GetValue (Some (function_object 73 (DocStr "C.f(x, y=2) -> int") None)));
            ("size", GetValue (Some (builtin_value 74 (builtin_class 75 "int" TyInt) "3")))]
           [])));
     ("g", GetValue (Some (function_object 76 DocNone
              (Some {| as_args := ["a"]; as_varargs := Some "rest"; as_varkw := None |}))));
     ("v", GetValue (Some (builtin_value 77
              (class_object 78 "Z" "zlib" DocNone [] [] []) "<Z>")));
     ("w", GetValue (Some (builtin_value 79
              (class_object 80 "W" "abc" DocNone [] [] []) "<W>")));
     ("n", GetValue (Some (builtin_value 81 (builtin_class 75 "int" TyInt) "7")));
     ("gone", GetAttributeError)].

Definition example_state : ScrapeState :=
  {| st_module := Some example_module; st_module_name := "m"; st_members := [] |}.

(** An order of iteration that differs from [elements]. *)
Definition reverse_order : set_order := λ X, reverse (elements X).

(** Every character of [s] satisfies [p]. *)
Fixpoint all_chars (p : ascii → bool) (s : string) : bool :=
  match s with
  | EmptyString => true
  | String c s' => p c && all_chars p s'
  end.

(** A character that a lazy [.+?] may pass before [,] or [)]: no newline
    and none of the two terminators. *)
Definition value_char (c : ascii) : bool :=
  negb (bool_decide (c = ","%char)) && negb (bool_decide (c = ")"%char))
  && negb (bool_decide (c = "010"%char)).

(** The name [Caf] followed by the letter with code 233, a letter beyond
    ASCII. *)
Definition accented_owner : string :=
  String "C" (String "a" (String "f" (String "233" EmptyString))).

(** Default-value expressions that [DefaultValueWriter] does not render: a
    call, a node without a [walk_] method, an operator other than [|] and
    unary [-], and every attribute access or operation on such an
    expression. *)
Inductive unrenderable : expr → Prop :=
  | unrenderable_call : unrenderable Call
  | unrenderable_other : unrenderable OtherExpr
  | unrenderable_attribute value attr :
      unrenderable value → unrenderable (Attribute value attr)
  | unrenderable_left l op r : unrenderable l → unrenderable (BinOp l op r)
  | unrenderable_right l op r : unrenderable r → unrenderable (BinOp l op r)
  | unrenderable_operator l r : unrenderable (BinOp l OtherOperator r)
  | unrenderable_operand op e : unrenderable e → unrenderable (UnaryOp op e)
  | unrenderable_unaryop e : unrenderable (UnaryOp OtherUnaryOp e).

(** The expression [x.a1.a2...]. *)
Definition attribute_chain (x : string) (attrs : list string) : expr :=
  foldl Attribute (Name x) attrs.

(** The header [f(a=1, b=g())]. *)
Definition header_with_call_default : FunctionDef :=
  {| fd_name := "f"; fd_args := [ArgArg "a"; ArgArg "b"];
     fd_defaults := [Num "1"; Call] |}.

(** A descriptor of a builtin type: it has [__get__] and cannot be called. *)
Definition getset_descriptor : pyobject :=
  {| ob_id := 90;
     ob_type := Some (builtin_class 91 "getset_descriptor" TyGetSetDescriptor);
     ob_truthy := true; ob_doc := DocStr "real(self) -> the real part";
     ob_repr := "<attribute 'real'>"; ob_is_float := false; ob_infinity := None;
     ob_has_call := false; ob_has_get := true; ob_signature := None;
     ob_argspec := Some {| as_args := ["x"]; as_varargs := None; as_varkw := None |};
     ob_self := {| tp_name := Some "real"; tp_module := None |};
     ob_tag := TyOther; ob_is_type := false; ob_is_module := false;
     ob_bases := GetAttributeError; ob_dir := []; ob_attrs := []; ob_mro := [] |}.

(** A runtime whose knowledge base is the one of the builtins scan. *)
Definition builtins_runtime : Runtime :=
  {| py2 := false;
     ast_parse_funcdef := example_parse;
     ast_parse_ok := λ _, true;
     isalnum := isalnum example_runtime;
     literal_eval_ok := literal_eval_ok example_runtime;
     signature_str := signature_str example_runtime;
     repr_str := repr_str example_runtime;
     iskeyword := iskeyword example_runtime;
     known_argspecs := KNOWN_ARGSPECS_builtins false;
     known_restypes := KNOWN_RESTYPES_builtins false;
     empty_dict := empty_dict example_runtime;
     empty_tuple := empty_tuple example_runtime |}.

(** A resolution result that is [None], or the name followed by a text;
    and one that is the name followed by a text. *)
Definition named (name : string) (o : option string) : Prop :=
  o = None ∨ ∃ rest, rest ≠ EmptyString ∧ o = Some (name +:+ rest).

Definition named_some (name : string) (o : option string) : Prop :=
  ∃ rest, rest ≠ EmptyString ∧ o = Some (name +:+ rest).

(** A function documented by an example call. *)
Definition described_function : pyobject :=
  simple_object 92 None (DocStr "g(a) -> int") true.

(** The class [Decimal] of the module [decimal]. *)
Definition foreign_class : pyobject :=
  class_object 100 "Decimal" "decimal" (DocStr "A decimal number.")
    [{| tp_name := Some "object"; tp_module := Some "builtins" |}] [] [].

(** The float [inf]. *)
Definition float_inf : pyobject :=
  {| ob_id := 101; ob_type := Some (builtin_class 102 "float" TyFloat);
     ob_truthy := true; ob_doc := DocNone; ob_repr := "inf"; ob_is_float := true;
     ob_infinity := Some PosInf; ob_has_call := false; ob_has_get := false;
     ob_signature := None; ob_argspec := None;
     ob_self := {| tp_name := None; tp_module := None |};
     ob_tag := TyOther; ob_is_type := false; ob_is_module := false;
     ob_bases := GetAttributeError; ob_dir := []; ob_attrs := []; ob_mro := [] |}.

(** The float [nan]. *)
Definition float_nan : pyobject :=
  {| ob_id := 103; ob_type := Some (builtin_class 102 "float" TyFloat);
     ob_truthy := true; ob_doc := DocNone; ob_repr := "nan"; ob_is_float := true;
     ob_infinity := None; ob_has_call := false; ob_has_get := false;
     ob_signature := None; ob_argspec := None;
     ob_self := {| tp_name := None; tp_module := None |};
     ob_tag := TyOther; ob_is_type := false; ob_is_module := false;
     ob_bases := GetAttributeError; ob_dir := []; ob_attrs := []; ob_mro := [] |}.

(** How the type of the value of a CFFI library reports itself. *)
Definition CompiledLib (rt : Runtime) : TypeInfo :=
  {| tp_name := Some "CompiledLib"; tp_module := Some (builtins_name rt) |}.

(** An entry that a scan of [mod_] appends: a registered substitute, or the
    entry of an attribute of [mod_] that is no keyword, whose value is no
    module (a CFFI library apart) and is not the very object that a base
    class gives under the same name. *)
Definition scanned_entry (rt : Runtime) (mod_ : pyobject)
    (substitutes : gmap string (option MemberInfo)) (e : option MemberInfo) : Prop :=
  ∃ mi, e = Some mi
    ∧ ((∃ key, substitutes !! key = Some (Some mi))
       ∨ ∃ name value,
           name ∈ ob_dir mod_ ∧ iskeyword rt name = false
           ∧ py_getattr mod_ name = GetValue value
           ∧ mi_value mi = value ∧ mi_name mi = PyStr.replace "-" "_" name
           ∧ (∀ v, value = Some v → ob_is_module (py_type rt v) = true →
                   ob_self (py_type rt v) = CompiledLib rt)
           ∧ (∀ base inherited,
                base ∈ drop 1 (ob_mro mod_) →
                py_getattr base name = GetValue inherited →
                py_is inherited value = false)).

(** A class [m.Base] with the attribute [shared], and a class [m.Derived]
    that inherits [shared], defines [own] and holds the module [sub]. *)
Definition shared_value : pyobject :=
  builtin_value 110 (builtin_class 111 "int" TyInt) "1".

Definition base_class : pyobject :=
  class_object 112 "Base" "m" DocNone [] [("shared", GetValue (Some shared_value))] [].

Definition derived_class : pyobject :=
  class_object 113 "Derived" "m" DocNone
    [{| tp_name := Some "Base"; tp_module := Some "m" |}]
    [("own", GetValue (Some (builtin_value 114 (builtin_class 111 "int" TyInt) "2")));
     ("shared", GetValue (Some shared_value));
     ("sub", GetValue (Some (module_object 115 DocNone [])))]
    [class_object 113 "Derived" "m" DocNone [] [] []; base_class].

(** Two entries that differ in their members at most. *)
Definition same_entry_header (m m' : MemberInfo) : Prop :=
  mi_name m' = mi_name m ∧ mi_value m' = mi_value m ∧ mi_literal m' = mi_literal m
  ∧ mi_need_imports m' = mi_need_imports m ∧ mi_type_name m' = mi_type_name m
  ∧ mi_scope_name m' = mi_scope_name m ∧ mi_bases m' = mi_bases m
  ∧ mi_signature m' = mi_signature m ∧ mi_documentation m' = mi_documentation m
  ∧ mi_alias m' = mi_alias m.

(** The module [m] with the value [v] of the local type [Local], which the
    module does not export. *)
Definition module_with_hidden_type : pyobject :=
  module_object 120 DocNone
    [("v", GetValue (Some (builtin_value 121
              (class_object 122 "Local" "m" DocNone [] [] []) "<Local>")))].

(** The value [lib] of the type [Lib] of the module [m], with one function:
    an object that stands where a class is expected. *)
Definition static_function : pyobject :=
  simple_object 130 (Some (class_object 131 "function" "builtins" DocNone [] [] []))
    DocNone true.

Definition static_value : pyobject :=
  {| ob_id := 132; ob_type := Some (class_object 133 "Lib" "m" DocNone [] [] []);
     ob_truthy := true; ob_doc := DocNone; ob_repr := "<Lib>"; ob_is_float := false;
     ob_infinity := None; ob_has_call := false; ob_has_get := false;
     ob_signature := None; ob_argspec := None;
     ob_self := {| tp_name := None; tp_module := None |};
     ob_tag := TyOther; ob_is_type := false; ob_is_module := false;
     ob_bases := GetAttributeError; ob_dir := ["run"];
     ob_attrs := [("run", GetValue (Some static_function))]; ob_mro := [] |}.

(** The module [m] with a value of the type [Z] of the module [zlib] and a
    value of the type [W] of the module [abc]. *)
Definition module_with_foreign_values : pyobject :=
  module_object 140 DocNone
    [("v", GetValue (Some (builtin_value 141
              (class_object 142 "Z" "zlib" DocNone [] [] []) "<Z>")));
     ("w", GetValue (Some (builtin_value 143
              (class_object 144 "W" "abc" DocNone [] [] []) "<W>")))].

(** The module [m] with the class [Holder], whose attribute [unit] is a
    value of the type [Z] of the module [zlib]. *)
Definition module_with_holder : pyobject :=
  module_object 150 DocNone
    [("Holder", GetValue (Some
        (class_object 151 "Holder" "m" DocNone [] 
           [("unit", GetValue (Some (builtin_value 152
                        (class_object 153 "Z" "zlib" DocNone [] [] []) "<Z>")))]
           [])))].

(** * Theorems *)

Set Warnings "-clear-no-such-hyp".

(** ** The implicit binding argument (C10) *)

Section BindingArgument.

Lemma Signature_init_defaults rt name callable scope defaults scope_alias decs module_doc s :
  Signature_init rt name callable scope defaults scope_alias decs module_doc = Some s →
  _defaults s = init_defaults scope decs defaults.
Proof.
  unfold Signature_init. intros H.
  destruct (if bool_decide (name ∈ ["__init__"; "__new__"]) && pydoc_truthy module_doc
            then _ else _) as [[decs' fullsig0]|]; [|done].
  cbn [mbind option_bind] in H.
  destruct (py_or_else fullsig0 _) as [fullsig1|]; [|done].
  cbn [mbind option_bind] in H. by injection H as <-.
Qed.

Lemma init_defaults_cases scope decs defaults :
  init_defaults scope decs defaults =
    if PyStr.truthy scope && negb (bool_decide ("@staticmethod" ∈ decs))
    then match defaults with
         | [] => [binding_argument decs]
         | d :: _ => if decide (d = binding_argument decs) then defaults
                     else binding_argument decs :: defaults
         end
    else defaults.
Proof.
  unfold init_defaults, binding_argument.
  destruct (PyStr.truthy scope && negb (bool_decide ("@staticmethod" ∈ decs))); [|done].
  destruct defaults as [|d ds]; [done|]. simpl.
  destruct (decide (d = _)) as [->|Hne].
  - rewrite bool_decide_eq_false_2; [done|]. intros H. by apply H.
  - rewrite bool_decide_eq_true_2; [done|]. congruence.
Qed.

(** C10: for a scope and no ['@staticmethod'] decorator, [Signature.__init__]
    prepends the binding argument (['cls'] with ['@classmethod'], else
    ['self']) to the defaults exactly when the defaults are empty or start
    with another name; it prepends in no other case; the step is idempotent,
    a list that starts with the binding argument is left as it is, and no
    doubled leading binding argument is produced. The defaults of every
    signature that the constructor returns are the ones so computed. *)
Theorem init_defaults_binding_argument
    rt name callable (scope : option string) (defaults : list string)
    scope_alias (decs : list string) module_doc :
  let def_arg := binding_argument decs in
  let construct ds := init_defaults scope decs ds in
  (∀ ds s,
     Signature_init rt name callable scope ds scope_alias decs module_doc = Some s →
     _defaults s = construct ds)
  ∧ (construct defaults ≠ defaults →
     construct defaults = def_arg :: defaults
     ∧ (defaults = [] ∨ head defaults ≠ Some def_arg))
  ∧ (PyStr.truthy scope = true → "@staticmethod" ∉ decs →
     (defaults = [] ∨ head defaults ≠ Some def_arg) →
     construct defaults = def_arg :: defaults)
  ∧ (head defaults = Some def_arg → construct defaults = defaults)
  ∧ construct (construct defaults) = construct defaults
  ∧ (PyStr.truthy scope = true → "@staticmethod" ∉ decs →
     head (construct defaults) = Some def_arg)
  ∧ (∀ rest, construct defaults = def_arg :: def_arg :: rest →
     defaults = def_arg :: def_arg :: rest).
Proof.
  intros def_arg construct. subst construct. cbn beta.
  split; [intros ds s; apply Signature_init_defaults|].
  rewrite !init_defaults_cases. fold def_arg.
  destruct (PyStr.truthy scope && negb (bool_decide ("@staticmethod" ∈ decs))) eqn:Hs.
  - destruct defaults as [|d ds]; [|destruct (decide (d = def_arg)) as [->|Hne]];
      simpl; destruct (decide (def_arg = def_arg)); try done;
      repeat split; intros; naive_solver.
  - repeat split; intros; simplify_eq; try done.
    all: match goal with
         | Ht : PyStr.truthy _ = true, Hn : _ ∉ _ |- _ =>
             rewrite Ht in Hs; rewrite bool_decide_eq_false_2 in Hs; done
         end.
Qed.

End BindingArgument.

(** ** Default-argument reconciliation (C6) *)

Section DefaultArguments.

Lemma imap_shift {A B} (f : nat → A → B) k (l : list A) :
  imap ((λ i, f (k + i)) ∘ S) l = imap (λ i, f (S k + i)) l.
Proof. apply imap_ext. intros i x _. simpl. f_equal. lia. Qed.

Lemma insert_defaults_loop_spec D A ds as_ k :
  (∀ i, ds !! i = D !! (k + i)) →
  (∀ i, i < length ds → as_ !! i = A !! (k + i)) →
  length ds ≤ length as_ →
  (∀ j, j < k → ¬ mismatch_at D A j) →
  let r := insert_defaults_loop D A (imap (λ i p, (k + i, p)) (zip ds as_)) in
  (∀ i, mismatch_at D A i → (∀ j, j < i → ¬ mismatch_at D A j) → r = D ++ drop i A)
  ∧ ((∀ i, ¬ mismatch_at D A i) → r = A).
Proof.
  revert as_ k. induction ds as [|x ds IH]; intros as_ k Hd Ha Hlen Hbefore r.
  - subst r. simpl. split; [|done].
    intros i Hi _. exfalso.
    destruct (decide (i < k)) as [Hlt|Hge]; [by apply (Hbefore i)|].
    destruct Hi as (x & y & Hx & _).
    specialize (Hd (i - k)). replace (k + (i - k)) with i in Hd by lia.
    rewrite Hx in Hd. done.
  - destruct as_ as [|y as_]; [simpl in Hlen; lia|].
    assert (HDk : D !! k = Some x).
    { specialize (Hd 0). rewrite Nat.add_0_r in Hd. by rewrite <- Hd. }
    assert (HAk : A !! k = Some y).
    { specialize (Ha 0). rewrite Nat.add_0_r in Ha.
      rewrite <- Ha; [reflexivity|simpl; lia]. }
    assert (Hnext : ¬ mismatch_at D A k →
      let r' := insert_defaults_loop D A (imap (λ i p, (S k + i, p)) (zip ds as_)) in
      (∀ i, mismatch_at D A i → (∀ j, j < i → ¬ mismatch_at D A j) → r' = D ++ drop i A)
      ∧ ((∀ i, ¬ mismatch_at D A i) → r' = A)).
    { intros Hk. apply IH.
      - intros i. specialize (Hd (S i)). simpl in Hd. rewrite Hd. f_equal. lia.
      - intros i Hi. specialize (Ha (S i)). simpl in Ha. rewrite Ha; [f_equal; lia|lia].
      - simpl in Hlen. lia.
      - intros j Hj. destruct (decide (j = k)) as [->|]; [done|]. apply Hbefore. lia. }
    subst r. simpl. rewrite (imap_shift (λ i p, (i, p))). rewrite Nat.add_0_r.
    destruct (bool_decide (x = "cls") && bool_decide (y = "type")) eqn:Hcls.
    { apply Hnext. intros (x' & y' & Hx' & Hy' & _ & Hn). apply Hn.
      apply andb_prop in Hcls as [?%bool_decide_eq_true ?%bool_decide_eq_true].
      split; congruence. }
    destruct (decide (x = y)) as [Heq|Hxy].
    + rewrite bool_decide_eq_false_2 by (intros ?; done).
      apply Hnext. intros (x' & y' & Hx' & Hy' & Hne & _). apply Hne. congruence.
    + rewrite bool_decide_eq_true_2 by done.
      assert (Hk : mismatch_at D A k).
      { exists x, y. split; [done|]. split; [done|]. split; [done|].
        intros [-> ->]. by rewrite !bool_decide_eq_true_2 in Hcls. }
      split.
      * intros i Hi Hfirst. unfold assign_prefix.
        destruct (decide (i = k)) as [->|Hne]; [done|]. exfalso.
        destruct (decide (i < k)); [by apply (Hbefore i)|].
        apply (Hfirst k); [lia|done].
      * intros Hno. by destruct (Hno k).
Qed.

(** C6: [_insert_default_arguments] prepends the implicit list when the
    inferred list is shorter; otherwise it replaces the inferred names before
    the first mismatching position by the whole implicit list, a pair
    (['cls'], ['type']) counting as a match; without a mismatch the inferred
    list is unchanged. *)
Theorem insert_default_arguments_reconciles (args defaults : list string) :
  (length args < length defaults →
     _insert_default_arguments args defaults = defaults ++ args)
  ∧ (length defaults ≤ length args →
     (∀ i, mismatch_at defaults args i →
           (∀ j, j < i → ¬ mismatch_at defaults args j) →
           _insert_default_arguments args defaults = defaults ++ drop i args)
     ∧ ((∀ i, ¬ mismatch_at defaults args i) →
           _insert_default_arguments args defaults = args)).
Proof.
  unfold _insert_default_arguments. split.
  - intros Hlt. rewrite bool_decide_eq_true_2 by done. done.
  - intros Hle. rewrite bool_decide_eq_false_2 by lia.
    apply (insert_defaults_loop_spec defaults args defaults args 0); try done.
    intros j Hj. lia.
Qed.

Lemma insert_default_arguments_witness :
  _insert_default_arguments ["x"] ["self"; "y"] = ["self"; "y"; "x"]
  ∧ _insert_default_arguments ["type"; "b"; "c"] ["cls"; "a"] = ["cls"; "a"; "b"; "c"]
  ∧ _insert_default_arguments ["self"; "a"] ["self"] = ["self"; "a"].
Proof.
  destruct (insert_default_arguments_reconciles ["x"] ["self"; "y"]) as [H1 _].
  destruct (insert_default_arguments_reconciles ["type"; "b"; "c"] ["cls"; "a"])
    as [_ H2].
  destruct (insert_default_arguments_reconciles ["self"; "a"] ["self"]) as [_ H3].
  split; [|split].
  - apply H1. simpl. lia.
  - destruct H2 as [H2 _]; [simpl; lia|].
    apply (H2 1).
    + exists "a", "b". repeat split; try done. intros [? _]. done.
    + intros j Hj (x & y & Hx & Hy & Hne & Hn).
      assert (j = 0) as -> by lia. simpl in Hx, Hy.
      apply Hn. split; congruence.
  - destruct H3 as [_ H3]; [simpl; lia|].
    apply H3. intros [|[|i]] (x & y & Hx & Hy & Hne & _); simpl in *; congruence.
Defined.

End DefaultArguments.

(** ** Knowledge-base lookups (C3) *)

Section KnownLookups.

Lemma truthy_default (o : option string) :
  PyStr.truthy o = true → o = Some (default EmptyString o).
Proof. by destruct o. Qed.

Lemma argspec_fromknown_first_hit argspecs name scope scope_alias :
  _init_argspec_fromknown argspecs name scope scope_alias
  = (λ spec, name +:+ spec) <$> first_hit PyStr.truthy argspecs (kb_keys name scope scope_alias).
Proof.
  unfold _init_argspec_fromknown, kb_keys.
  destruct (PyStr.truthy scope_alias), (PyStr.truthy scope); simpl;
    repeat match goal with
           | |- context [PyStr.truthy (?t !! ?k)] =>
               let H := fresh "H" in
               destruct (PyStr.truthy (t !! k)) eqn:H; simpl; try rewrite H; simpl
           end;
    try done;
    match goal with
    | H : PyStr.truthy ?o = true |- _ => by rewrite (truthy_default _ H)
    end.
Qed.

Lemma kb_truthy_is_Some o : kb_truthy o = true → is_Some o.
Proof. destruct o; [by eexists|done]. Qed.

Lemma restype_fromknown_first_hit restypes name scope scope_alias :
  _init_restype_fromknown restypes name scope scope_alias
  = render_restype <$> first_hit kb_truthy restypes (kb_keys name scope scope_alias).
Proof.
  unfold _init_restype_fromknown, kb_keys.
  destruct (PyStr.truthy scope_alias), (PyStr.truthy scope); simpl;
    repeat match goal with
           | |- context [kb_truthy (?t !! ?k)] =>
               let H := fresh "H" in
               destruct (kb_truthy (t !! k)) eqn:H; simpl; try rewrite H; simpl
           end;
    done.
Qed.

(** C3 (amended): both tables are consulted under the keys ['a.m'], ['s.m'],
    ['m'] in this order, a key being used only for a non-empty alias or
    scope, and the first entry whose value is truthy wins: an entry holding
    an empty string, an empty list or [None] is passed over like a missing
    one. A truthy alias-qualified entry is returned whatever else the table
    holds, and without any truthy entry the lookup returns [None]. *)
Theorem known_lookup_precedence
    (argspecs : gmap string string) (restypes : gmap string kb_value)
    (name : string) (scope scope_alias : option string) :
  let keys := kb_keys name scope scope_alias in
  _init_argspec_fromknown argspecs name scope scope_alias
    = (λ spec, name +:+ spec) <$> first_hit PyStr.truthy argspecs keys
  ∧ _init_restype_fromknown restypes name scope scope_alias
    = render_restype <$> first_hit kb_truthy restypes keys
  ∧ (∀ spec, PyStr.truthy scope_alias = true →
       argspecs !! qualified scope_alias name = Some spec →
       PyStr.truthy (Some spec) = true →
       _init_argspec_fromknown argspecs name scope scope_alias = Some (name +:+ spec))
  ∧ (∀ v, PyStr.truthy scope_alias = true →
       restypes !! qualified scope_alias name = Some v →
       kb_truthy (Some v) = true →
       _init_restype_fromknown restypes name scope scope_alias = Some (render_restype v))
  ∧ ((∀ k, k ∈ keys → PyStr.truthy (argspecs !! k) = false) →
       _init_argspec_fromknown argspecs name scope scope_alias = None)
  ∧ ((∀ k, k ∈ keys → kb_truthy (restypes !! k) = false) →
       _init_restype_fromknown restypes name scope scope_alias = None).
Proof.
  intros keys. subst keys.
  rewrite argspec_fromknown_first_hit, restype_fromknown_first_hit.
  split; [done|]. split; [done|]. repeat split.
  - intros spec Ha Hl Ht. unfold kb_keys. rewrite Ha. simpl. by rewrite Hl, Ht.
  - intros v Ha Hl Ht. unfold kb_keys. rewrite Ha. simpl. by rewrite Hl, Ht.
  - intros Hno. induction (kb_keys name scope scope_alias) as [|k ks IH]; [done|].
    simpl. rewrite (Hno k) by set_solver. apply IH. intros k' Hk'. apply Hno. set_solver.
  - intros Hno. induction (kb_keys name scope scope_alias) as [|k ks IH]; [done|].
    simpl. rewrite (Hno k) by set_solver. apply IH. intros k' Hk'. apply Hno. set_solver.
Qed.

Lemma known_lookup_precedence_witness :
  _init_restype_fromknown (KNOWN_RESTYPES_builtins false) "__iter__"
      (Some "list") (Some "__List__") = Some "return __ListIterator__()"
  ∧ _init_argspec_fromknown (KNOWN_ARGSPECS_builtins false) "index"
      (Some "bytes") (Some "__Bytes__") = Some "index(self, sub, start=0, end=-1)"
  ∧ _init_argspec_fromknown (KNOWN_ARGSPECS_builtins false) "frobnicate"
      (Some "bytes") (Some "__Bytes__") = None.
Proof.
  pose proof (known_lookup_precedence (KNOWN_ARGSPECS_builtins false)
                (KNOWN_RESTYPES_builtins false) "__iter__" (Some "list") (Some "__List__"))
    as (_ & _ & _ & Hr & _).
  pose proof (known_lookup_precedence (KNOWN_ARGSPECS_builtins false)
                (KNOWN_RESTYPES_builtins false) "index" (Some "bytes") (Some "__Bytes__"))
    as (_ & _ & Ha & _).
  pose proof (known_lookup_precedence (KNOWN_ARGSPECS_builtins false)
                (KNOWN_RESTYPES_builtins false) "frobnicate" (Some "bytes")
                (Some "__Bytes__"))
    as (_ & _ & _ & _ & Hn & _).
  split; [|split].
  - apply (Hr (KStr "__ListIterator__()")); reflexivity.
  - apply (Ha "(self, sub, start=0, end=-1)"); reflexivity.
  - apply Hn. intros k Hk. simpl in Hk.
    repeat (apply elem_of_cons in Hk as [->|Hk]; [reflexivity|]).
    exfalso. exact (proj1 (elem_of_nil k) Hk).
Defined.

(** C3, as stated, fails on the tables of the program. On Python 2 the
    overlay stores [None] under ['__BytesIterator__.__next__']: the
    alias-qualified entry and the bare entry ['__next__'] both exist, and
    the bare entry is returned. In the class body ['__init__'] maps to the
    empty string: the entry is present, and the lookup returns no result. *)
Lemma known_lookup_first_present_fails :
  KNOWN_RESTYPES_builtins true !! "__BytesIterator__.__next__" = Some KNone
  ∧ KNOWN_RESTYPES_builtins true !! "__next__" = Some (KStr "Any")
  ∧ _init_restype_fromknown (KNOWN_RESTYPES_builtins true) "__next__"
      None (Some "__BytesIterator__") = Some "return Any"
  ∧ _init_restype_fromknown (KNOWN_RESTYPES_builtins true) "__next__"
      None (Some "__BytesIterator__")
    ≠ render_restype <$> first_present (KNOWN_RESTYPES_builtins true)
                           (kb_keys "__next__" None (Some "__BytesIterator__"))
  ∧ KNOWN_RESTYPES !! "__init__" = Some (KStr EmptyString)
  ∧ _init_restype_fromknown KNOWN_RESTYPES "__init__" None None = None
  ∧ _init_restype_fromknown KNOWN_RESTYPES "__init__" None None
    ≠ render_restype <$> first_present KNOWN_RESTYPES (kb_keys "__init__" None None).
Proof. vm_compute. repeat split; congruence. Qed.

End KnownLookups.

(** ** Native introspection (C4) *)

Section NativeIntrospection.

Lemma truthy_append_nonempty (a : string) (c : ascii) (b : string) :
  PyStr.truthy (Some (a +:+ String c b)) = true.
Proof. by destruct a. Qed.

Lemma normalize_parameter_spec rt p :
  let q := normalize_parameter rt p in
  p_name q = p_name p
  ∧ p_kind q = (if decide (p_kind p = POSITIONAL_ONLY) then POSITIONAL_OR_KEYWORD
                else p_kind p)
  ∧ p_default q = match p_default p with
                  | Some r => if literal_eval_ok rt r then Some r else Some "None"
                  | None => None
                  end.
Proof.
  unfold normalize_parameter. destruct p as [n k [r|]]; simpl.
  - destruct (literal_eval_ok rt r); destruct k; simpl; done.
  - destruct k; simpl; done.
Qed.

(** C4 (amended): the constructor never consults the native signature
    metadata for the parameter list, the call of
    [_init_argspec_fromsignature] being disabled: the signature text is the
    same whatever [inspect.signature] returns, and after the constructor and
    accessor cases the argument specification is the first strategy. The
    helper itself, when called, renders the metadata under the name of the
    callable after replacing every default that is no literal by [None] and
    widening every positional-only parameter. *)
Theorem native_signature_is_not_consulted
    rt name callable scope defaults scope_alias decs module_doc
    (signature signature' : option (list SigParameter)) (argspec : option ArgSpec) :
  fullsig <$> Signature_init rt name (with_introspection callable signature argspec)
                scope defaults scope_alias decs module_doc
  = fullsig <$> Signature_init rt name (with_introspection callable signature' argspec)
                  scope defaults scope_alias decs module_doc
  ∧ (∀ text,
       (bool_decide (name ∈ ["__init__"; "__new__"]) && pydoc_truthy module_doc) = false →
       (negb (ob_has_call callable) && ob_has_get callable) = false →
       _init_argspec_fromargspec name (with_introspection callable signature argspec)
         (init_defaults scope decs defaults) = Some text →
       fullsig <$> Signature_init rt name (with_introspection callable signature argspec)
                     scope defaults scope_alias decs module_doc = Some text)
  ∧ (∀ parameters,
       _init_argspec_fromsignature rt name
         (with_introspection callable (Some parameters) argspec)
       = Some (name +:+ signature_str rt (normalize_parameter rt <$> parameters))
       ∧ ∀ q, q ∈ normalize_parameter rt <$> parameters →
              p_kind q ≠ POSITIONAL_ONLY
              ∧ ∀ r, p_default q = Some r → r = "None" ∨ literal_eval_ok rt r = true).
Proof.
  split; [|split].
  - unfold Signature_init. cbn [ob_has_call ob_has_get with_introspection].
    destruct (bool_decide (name ∈ ["__init__"; "__new__"]) && pydoc_truthy module_doc).
    + change (_init_argspec_fromdocstring rt name
                (with_introspection callable signature argspec))
        with (_init_argspec_fromdocstring rt name
                (with_introspection callable signature' argspec)).
      destruct (_init_argspec_fromdocstring rt name _ _ module_doc) as [r|]; [|done].
      cbn [mbind option_bind].
      change (_init_argspec_fromdocstring rt name
                (with_introspection callable signature argspec))
        with (_init_argspec_fromdocstring rt name
                (with_introspection callable signature' argspec)).
      change (_init_argspec_fromargspec name
                (with_introspection callable signature argspec))
        with (_init_argspec_fromargspec name
                (with_introspection callable signature' argspec)).
      destruct (py_or_else r.1 _) as [f|]; reflexivity.
    + change (_init_argspec_fromdocstring rt name
                (with_introspection callable signature argspec))
        with (_init_argspec_fromdocstring rt name
                (with_introspection callable signature' argspec)).
      change (_init_argspec_fromargspec name
                (with_introspection callable signature argspec))
        with (_init_argspec_fromargspec name
                (with_introspection callable signature' argspec)).
      destruct (negb (ob_has_call callable) && ob_has_get callable);
        cbn [mbind option_bind];
        match goal with
        | |- context [py_or_else ?a ?b] => destruct (py_or_else a b) as [f|]
        end; reflexivity.
  - intros text Hctor Hprop Hspec. unfold Signature_init.
    cbn [ob_has_call ob_has_get with_introspection] in *.
    rewrite Hctor, Hprop. cbn [mbind option_bind]. rewrite Hspec.
    assert (PyStr.truthy (Some text) = true) as Ht.
    { unfold _init_argspec_fromargspec in Hspec. simpl in Hspec.
      destruct argspec; [|discriminate]. injection Hspec as <-.
      apply (truthy_append_nonempty name "("). }
    unfold py_or_else at 1 2. change (PyStr.truthy None) with false. cbn iota.
    rewrite Ht. reflexivity.
  - intros parameters. split; [reflexivity|].
    intros q [p [-> _]]%list_elem_of_fmap.
    destruct (normalize_parameter_spec rt p) as (_ & Hk & Hd).
    split.
    + rewrite Hk. destruct (decide (p_kind p = POSITIONAL_ONLY)); done.
    + intros r. rewrite Hd. destruct (p_default p) as [r'|]; [|done].
      destruct (literal_eval_ok rt r') eqn:Hl; intros [= <-]; auto.
Qed.

Lemma native_signature_is_not_consulted_witness :
  fullsig <$> Signature_init example_runtime "f" callable_with_both
                None [] None [] DocNone = Some "f(y)".
Proof.
  destruct (native_signature_is_not_consulted example_runtime "f" opaque_callable
              None [] None [] DocNone
              (Some [{| p_name := "x"; p_kind := POSITIONAL_ONLY; p_default := None |}])
              None
              (Some {| as_args := ["y"]; as_varargs := None; as_varkw := None |}))
    as (_ & H & _).
  apply H; reflexivity.
Defined.

(** C4, as stated, fails: for a callable with full native signature
    metadata the parameter list comes from the argument specification. *)
Lemma native_signature_strategy_is_disabled :
  _init_argspec_fromsignature example_runtime "f" callable_with_both = Some "f(x)"
  ∧ fullsig <$> Signature_init example_runtime "f" callable_with_both
                  None [] None [] DocNone = Some "f(y)"
  ∧ fullsig <$> Signature_init example_runtime "f" callable_with_both
                  None [] None [] DocNone
    ≠ _init_argspec_fromsignature example_runtime "f" callable_with_both.
Proof. vm_compute. repeat split; congruence. Qed.

End NativeIntrospection.

(** ** The return expression (C5) *)

Section ReturnExpression.

Lemma fullsig_choice_irrelevant_for_restype rt name callable scope defaults scope_alias
    decs module_doc s :
  Signature_init rt name callable scope defaults scope_alias decs module_doc = Some s →
  restype s
  = let restype :=
      default EmptyString
        (py_or (_init_restype_fromsignature callable)
           (py_or (_init_restype_fromknown (known_restypes rt) name scope scope_alias)
              (Some "pass"))) in
    let restype :=
      if PyStr.truthy scope then PyStr.replace "__T" (default EmptyString scope) restype
      else restype in
    if bool_decide (restype ∈ ["Any"; "Unknown"]) then "pass" else restype.
Proof.
  unfold Signature_init. intros H.
  destruct (if bool_decide (name ∈ ["__init__"; "__new__"]) && pydoc_truthy module_doc
            then _ else _) as [[decs' fullsig0]|]; [|done].
  cbn [mbind option_bind] in H.
  destruct (py_or_else fullsig0 _) as [fullsig1|]; [|done].
  cbn [mbind option_bind] in H. by injection H as <-.
Qed.

(** C5 (the code at the failing input): when the runtime offers no
    signature for the callable and the knowledge base answers ['Any'], the
    lookup returns the statement ['return Any'], the final test compares it
    with ['Any'] and ['Unknown'], and the stored return expression of the
    signature that the constructor returns is ['return Any'], not ['pass']. *)
Theorem restype_Any_is_not_collapsed
    rt name callable (scope scope_alias : option string) defaults decs module_doc s :
  _init_restype_fromsignature callable = None →
  _init_restype_fromknown (known_restypes rt) name scope scope_alias
    = Some (render_restype (KStr "Any")) →
  Signature_init rt name callable scope defaults scope_alias decs module_doc = Some s →
  restype s = "return Any".
Proof.
  intros Hsig Hknown Hinit.
  rewrite (fullsig_choice_irrelevant_for_restype _ _ _ _ _ _ _ _ _ Hinit), Hsig, Hknown.
  simpl. destruct (PyStr.truthy scope); reflexivity.
Qed.

Lemma restype_Any_is_not_collapsed_witness :
  known_restypes example_runtime !! "__call__" = Some (KStr "Any")
  ∧ ∃ s, Signature_init example_runtime "__call__" opaque_callable
           None [] None [] DocNone = Some s
         ∧ restype s = "return Any".
Proof.
  split; [vm_compute; reflexivity|].
  eexists. split; [vm_compute; reflexivity|].
  apply (restype_Any_is_not_collapsed example_runtime "__call__" opaque_callable
           None None [] [] DocNone); vm_compute; reflexivity.
Defined.

(** The final test of [Signature.__init__] never succeeds: the return
    expression is ['pass'] or a [return] statement before it. *)
Lemma restype_collapse_is_dead rt name callable scope defaults scope_alias decs module_doc
    s :
  Signature_init rt name callable scope defaults scope_alias decs module_doc = Some s →
  restype s = "pass" ∨ ∃ rest, restype s = "return " +:+ rest.
Proof.
  intros Hinit. rewrite (fullsig_choice_irrelevant_for_restype _ _ _ _ _ _ _ _ _ Hinit).
  cbn zeta. unfold _init_restype_fromsignature.
  destruct (ob_signature callable); simpl.
  { left. destruct (PyStr.truthy scope); reflexivity. }
  destruct (_init_restype_fromknown _ _ _ _) as [r|] eqn:Hr; simpl.
  2:{ left. destruct (PyStr.truthy scope); reflexivity. }
  assert (∃ rest, r = "return " +:+ rest) as [rest ->].
  { unfold _init_restype_fromknown in Hr.
    repeat match type of Hr with
           | context [if ?b then _ else _] => destruct b
           end;
    try discriminate;
    match type of Hr with
    | render_restype <$> ?o = _ =>
        destruct o as [[]|]; simpl in Hr; simplify_eq; simpl; eauto
    end. }
  right. unfold py_or. simpl. destruct (PyStr.truthy scope); simpl; eauto.
Qed.

End ReturnExpression.

(** ** Extraction of the first call from documentation text (C2) *)

Section FirstFunctionCall.

(** In this section [simpl] unfolds the concatenation of strings. *)
Local Arguments String.append : simpl nomatch.










End FirstFunctionCall.

(** ** Signatures from documentation text (C2) *)

Section DocstringSignatures.

(** In this section [simpl] unfolds the concatenation of strings. *)
Local Arguments String.append : simpl nomatch.














End DocstringSignatures.

(** ** Name collisions (C9) *)

Section NameCollisions.

(** In this section [simpl] unfolds the concatenation of strings. *)
Local Arguments String.append : simpl nomatch.

Lemma fresh_arg_id_spec (x : string) (seen : gset string) :
  ∀ (fuel i : nat) (T : gset string),
    T ⊆ seen →
    (∀ j, i ≤ j → (x +:+ PyStr.of_nat j) ∈ seen → (x +:+ PyStr.of_nat j) ∈ T) →
    size T ≤ fuel →
    (fresh_arg_id fuel x i seen ∉ seen)
    ∧ ∃ k, i ≤ k ∧ fresh_arg_id fuel x i seen = x +:+ PyStr.of_nat k
           ∧ ∀ j, (i ≤ j < k) → (x +:+ PyStr.of_nat j) ∈ seen.
Proof.
  induction fuel as [|fuel IH]; intros i T HT Hcand Hsize.
  - simpl. assert (size T = 0) as Hz by lia.
    apply size_empty_inv, leibniz_equiv in Hz. subst T.
    split.
    + intros Hin. apply (Hcand i) in Hin; [|lia]. set_solver.
    + exists i. split; [lia|]. split; [done|]. intros j ?. lia.
  - simpl. case_bool_decide as Hin.
    + destruct (IH (S i) (T ∖ {[x +:+ PyStr.of_nat i]})) as (Hfresh & k & Hk & Heq & Hbelow).
      * set_solver.
      * intros j Hj Hjn. apply elem_of_difference. split; [apply Hcand; [lia|done]|].
        intros Heq%elem_of_singleton. apply (inj (String.app x)) in Heq.
        apply (inj pretty) in Heq. lia.
      * assert (x +:+ PyStr.of_nat i ∈ T) as HiT by (apply Hcand; [lia|done]).
        pose proof (size_difference T {[x +:+ PyStr.of_nat i]}) as Hd.
        rewrite size_singleton in Hd. 
        assert ({[x +:+ PyStr.of_nat i]} ⊆ T) as Hsub by set_solver.
        specialize (Hd Hsub).
        assert (size T ≠ 0); [|lia].
        intros Hz. apply size_empty_inv in Hz. set_solver.
      * split; [done|]. exists k. split; [lia|]. split; [done|].
        intros j Hj. destruct (decide (j = i)) as [->|]; [done|]. apply Hbelow. lia.
    + split; [done|]. exists i. split; [lia|]. split; [done|]. intros j ?. lia.
Qed.

Lemma unique_arg_id_spec (x : string) (seen : gset string) :
  (unique_arg_id x seen ∉ seen)
  ∧ (x ∉ seen → unique_arg_id x seen = x)
  ∧ (x ∈ seen →
       ∃ k, 2 ≤ k ∧ unique_arg_id x seen = x +:+ PyStr.of_nat k
            ∧ ∀ j, (2 ≤ j < k) → (x +:+ PyStr.of_nat j) ∈ seen).
Proof.
  unfold unique_arg_id. case_bool_decide as Hin.
  - destruct (fresh_arg_id_spec x seen (size seen) 2 seen) as (Hfresh & k & Hk & Heq & Hbelow);
      [done|done|done|].
    split; [done|]. split; [done|]. intros _. eauto.
  - split; [done|]. split; [done|]. done.
Qed.

Lemma ast_arg_to_str_spec rt a d seen :
  let r := _ast_arg_to_str rt a d seen in
  arg_ident r = unique_arg_id (arg_node_id a) seen
  ∧ {[arg_ident r]} ∪ seen ⊆ arg_seen r
  ∧ arg_seen r ⊆ {[default_value_marker]} ∪ ({[arg_ident r]} ∪ seen).
Proof.
  unfold _ast_arg_to_str.
  destruct (PyStr.truthy _ && ast_parse_ok rt _); simpl; [set_solver|].
  case_bool_decide; simpl; set_solver.
Qed.

Lemma ast_args_loop_renamed rt pairs :
  ∀ seen, renamed_from seen pairs (ast_args_loop rt pairs seen).
Proof.
  induction pairs as [|[a d] pairs IH]; intros seen; simpl; [constructor|].
  destruct (ast_arg_to_str_spec rt a d seen) as (Hid & Hsub & Hsup).
  destruct (unique_arg_id_spec (arg_node_id a) seen) as (Hfresh & Hkeep & Hren).
  constructor; rewrite ?Hid; auto.
  - by rewrite <- Hid.
  - by rewrite <- Hid.
Qed.

Lemma renamed_from_distinct seen pairs rs :
  renamed_from seen pairs rs →
  length rs = length pairs
  ∧ NoDup (arg_ident <$> rs)
  ∧ ∀ r, r ∈ rs → arg_ident r ∉ seen.
Proof.
  induction 1 as [|seen a d pairs r rs _ _ Hfresh Hsub _ _ (Hlen & Hnd & Hout)];
    simpl.
  - split; [done|]. split; [constructor|]. intros r Hr. by apply elem_of_nil in Hr.
  - split; [by rewrite Hlen|]. split.
    + constructor; [|done].
      intros (r' & Heq & Hr')%list_elem_of_fmap.
      apply (Hout r' Hr'). rewrite <- Heq. set_solver.
    + intros r' [->|Hr']%elem_of_cons; [done|].
      intros Hin. apply (Hout r' Hr'). set_solver.
Qed.

Lemma MemberInfo_init_name rt name value literal scope module alias module_doc scope_alias mi :
  MemberInfo_init rt name value literal scope module alias module_doc scope_alias = Some mi →
  mi_name mi = PyStr.replace "-" "_" name.
Proof.
  unfold MemberInfo_init.
  assert ((if PyStr.truthy (Some name) then PyStr.replace "-" "_" name else name)
          = PyStr.replace "-" "_" name) as ->.
  { by destruct name. }
  intros H.
  repeat (match type of H with
          | context [mbind _ ?x] => destruct x eqn:?
          | context [match ?x with _ => _ end] => destruct x eqn:?
          end;
          cbn [mbind option_bind] in H; simplify_eq); try done.
Qed.

Lemma collect_member_outcome rt module_name mod_ substitutes existing scope scope_alias
    mod_scope mro members name members' :
  collect_member rt module_name mod_ substitutes existing scope scope_alias mod_scope mro
    members name = Some members' →
  members' = members
  ∨ ∃ m, members' = members ++ [m]
         ∧ added_entry substitutes (.∈ existing) mod_scope [name] m.
Proof.
  unfold collect_member, added_entry.
  destruct (iskeyword rt name); [intros [= <-]; by left|].
  destruct (substitutes !! name) as [[mi|]|] eqn:Hs1.
  { intros [= <-]. right. exists (Some mi). split; [done|].
    exists mi, name. split; [done|]. split; [set_solver|]. by left. }
  { intros [= <-]. by left. }
  destruct (substitutes !! (mod_scope +:+ "." +:+ name)) as [[mi|]|] eqn:Hs2.
  { intros [= <-]. right. exists (Some mi). split; [done|].
    exists mi, name. split; [done|]. split; [set_solver|]. right. by left. }
  { intros [= <-]. by left. }
  case_bool_decide as Hex; [intros [= <-]; by left|].
  destruct (py_getattr mod_ name) as [value| |]; try (intros [= <-]; by left).
  destruct (negb (_should_add_value rt value)); [intros [= <-]; by left|].
  destruct (_mro_contains mro name value); [intros [= <-]; by left|].
  destruct (MemberInfo_init _ _ _ _ _ _ _ _ _) as [mi|] eqn:Hmi; [|done].
  simpl. intros [= <-]. right. exists (Some mi). split; [done|].
  exists mi, name. split; [done|]. split; [set_solver|]. right. right.
  split; [done|]. by eapply MemberInfo_init_name.
Qed.

Lemma collect_loop_outcome rt module_name mod_ substitutes existing scope scope_alias
    mod_scope mro names :
  ∀ members members',
    collect_loop rt module_name mod_ substitutes existing scope scope_alias mod_scope mro
      names members = Some members' →
    ∃ added, members' = members ++ added
             ∧ Forall (added_entry substitutes (.∈ existing) mod_scope names) added.
Proof.
  induction names as [|name names IH]; intros members members'; simpl.
  { intros [= <-]. exists []. by rewrite app_nil_r. }
  destruct (collect_member _ _ _ _ _ _ _ _ _ members name) as [members1|] eqn:H1;
    [|done].
  simpl. intros Hrest.
  destruct (IH _ _ Hrest) as (added & -> & Hadded).
  assert (Hweaken : ∀ ns m, added_entry substitutes (.∈ existing) mod_scope ns m →
            ns ⊆ name :: names →
            added_entry substitutes (.∈ existing) mod_scope (name :: names) m).
  { intros ns m (mi & n & ? & ? & ?) Hsub. exists mi, n. set_solver. }
  apply collect_member_outcome in H1 as [->|(m & -> & Hm)].
  - exists added. split; [done|].
    eapply Forall_impl; [done|]. intros m Hm. apply (Hweaken names); set_solver.
  - exists (m :: added). split; [by rewrite <- app_assoc|].
    constructor; [apply (Hweaken [name]); set_solver|].
    eapply Forall_impl; [done|]. intros m' Hm'. apply (Hweaken names); set_solver.
Qed.

Lemma member_names_elem members existing pre :
  member_names members = Some existing → Some pre ∈ members → mi_name pre ∈ existing.
Proof.
  unfold member_names. destruct (mapM _ members) as [names|] eqn:Hm; [|done].
  simpl. intros [= <-] Hin. apply mapM_Some in Hm.
  apply elem_of_list_to_set.
  induction Hm as [|m n ms ns Hmn _ IH]; [by apply elem_of_nil in Hin|].
  apply elem_of_cons in Hin as [<-|Hin].
  - simpl in Hmn. injection Hmn as <-. set_solver.
  - set_solver.
Qed.

Lemma collect_members_outcome rt module_name mod_ members substitutes outer_member members' :
  _collect_members rt module_name mod_ members substitutes outer_member = Some members' →
  ∃ mod_scope added,
    members' = members ++ added
    ∧ Forall (added_entry substitutes (member_named members) mod_scope
                (from_option ob_dir [] mod_)) added.
Proof.
  unfold _collect_members. destruct mod_ as [obj|]; [|done].
  destruct (negb (ob_truthy obj)); [done|].
  destruct (py_is _ _).
  { intros [= <-]. exists EmptyString, []. by rewrite app_nil_r. }
  destruct (member_names members) as [existing|] eqn:Hex; [|done]. simpl.
  destruct outer_member as [outer|]; simpl.
  all: intros (added & -> & Hadded)%collect_loop_outcome.
  all: eexists _, added; split; [done|].
  all: eapply Forall_impl; [exact Hadded|].
  all: intros m (mi & name & ? & ? & Hcase); exists mi, name.
  all: split; [done|]; split; [done|].
  all: destruct Hcase as [?|[?|[Hnot ?]]]; [by left|right; by left|right; right].
  all: split; [|done].
  all: intros (pre & Hpre & <-); apply Hnot; by eapply member_names_elem.
Qed.

(** C9 (amended): in a signature parsed from documentation text, a
    parameter whose identifier [x] is already recorded for an earlier
    parameter is recorded as [x] followed by the least number from 2 on that
    gives an unrecorded name ([x2], or [x3] when [x2] is taken, and so on);
    every parameter stays, and the recorded identifiers are pairwise
    distinct. Members are never renamed: a scan only appends entries, each a
    registered substitute or the entry of a name that no entry present before
    the scan has, under that name with hyphens replaced; a name that an
    earlier entry has is skipped. *)
Theorem name_collisions rt :
  (∀ node,
     renamed_from ∅ (args_with_defaults node) (ast_args_results rt node)
     ∧ length (_ast_args_to_list rt node) = length (args_with_defaults node)
     ∧ NoDup (arg_ident <$> ast_args_results rt node))
  ∧ (∀ module_name mod_ members substitutes outer_member members',
       _collect_members rt module_name mod_ members substitutes outer_member
         = Some members' →
       ∃ mod_scope added,
         members' = members ++ added
         ∧ Forall (added_entry substitutes (member_named members) mod_scope
                     (from_option ob_dir [] mod_)) added).
Proof.
  split.
  - intros node. pose proof (ast_args_loop_renamed rt (args_with_defaults node) ∅) as Hr.
    split; [exact Hr|].
    apply renamed_from_distinct in Hr as (Hlen & Hnd & _).
    split; [|exact Hnd].
    unfold _ast_args_to_list. rewrite length_fmap. exact Hlen.
  - intros. by eapply collect_members_outcome.
Qed.

Lemma name_collisions_witness :
  arg_ident <$> ast_args_results example_runtime header_h = ["x"; "x2"; "x22"; "x3"]
  ∧ NoDup (arg_ident <$> ast_args_results example_runtime header_h)
  ∧ ∃ mod_scope added,
      [Some (literal_member "x" "0")] = [Some (literal_member "x" "0")] ++ added
      ∧ Forall (added_entry ∅ (member_named [Some (literal_member "x" "0")]) mod_scope
                  ["x"]) added.
Proof.
  destruct (name_collisions example_runtime) as [Hparams Hmembers].
  split; [vm_compute; reflexivity|]. split; [apply Hparams|].
  apply (Hmembers "m" (Some module_with_x) [Some (literal_member "x" "0")] ∅ None).
  vm_compute. reflexivity.
Defined.

(** C9, as stated, fails. A module attribute [x] found while an entry [x]
    is already present is skipped, not entered as [x2]: one entry remains.
    And in the parameters [x, x2, x] the second [x] becomes [x3]. *)
Lemma sibling_members_are_not_renamed :
  _collect_members example_runtime "m" (Some module_with_x)
    [Some (literal_member "x" "0")] ∅ None
  = Some [Some (literal_member "x" "0")]
  ∧ entry_names
      <$> _collect_members example_runtime "m" (Some module_with_x) [] ∅ None
    = Some [Some "x"]
  ∧ arg_ident
      <$> ast_args_results example_runtime
            {| fd_name := "h"; fd_args := [ArgArg "x"; ArgArg "x2"; ArgArg "x"];
               fd_defaults := [] |}
    = ["x"; "x2"; "x3"].
Proof. vm_compute. repeat split; reflexivity. Qed.

End NameCollisions.

(** ** Base classes (C7) *)

Section BaseClasses.

(** In this section [simpl] unfolds the concatenation of strings. *)
Local Arguments String.append : simpl nomatch.

Lemma bases_loop_cons rt type_name module b bases acc :
  bases_loop rt (Some type_name) module (b :: bases) acc
  = r ← _get_typename rt b module;
    bases_loop rt (Some type_name) module bases
      match emitted_base rt type_name module b with
      | Some t => (acc.1 ++ [t], acc.2 ++ r.1)
      | None => acc
      end.
Proof.
  unfold emitted_base. cbn [bases_loop].
  destruct (_get_typename rt b module) as [[ni [t|]]|]; [|reflexivity..].
  cbn [mbind option_bind].
  destruct (PyStr.truthy (Some t)); [|reflexivity]. cbn [negb andb fst snd].
  destruct (decide (t = type_name)) as [Heq|Hne].
  - rewrite (bool_decide_eq_true_2 (Some t = Some type_name)) by congruence.
    destruct (decide (module ∈ ni)) as [Hin|Hout].
    + rewrite (bool_decide_eq_true_2 (module ∈ ni)) by done.
      rewrite (bool_decide_eq_true_2 (_ ∧ _)) by done. reflexivity.
    + rewrite (bool_decide_eq_false_2 (module ∈ ni)) by done.
      rewrite (bool_decide_eq_false_2 (_ ∧ _)) by tauto. reflexivity.
  - rewrite (bool_decide_eq_false_2 (Some t = Some type_name)) by congruence.
    rewrite (bool_decide_eq_false_2 (_ ∧ _)) by tauto. reflexivity.
Qed.

Lemma bases_loop_emitted rt type_name module bases :
  ∀ acc r, bases_loop rt (Some type_name) module bases acc = Some r →
           r.1 = acc.1 ++ omap (emitted_base rt type_name module) bases.
Proof.
  induction bases as [|b bases IH]; intros acc r.
  { cbn [bases_loop omap list_omap]. intros [= <-]. by rewrite app_nil_r. }
  rewrite bases_loop_cons. cbn [omap list_omap].
  destruct (_get_typename rt b module) as [r0|]; [|done]. cbn [mbind option_bind].
  intros Hloop. rewrite (IH _ _ Hloop).
  destruct (emitted_base rt type_name module b) as [t|]; [|reflexivity].
  cbn [fst]. by rewrite <- app_assoc.
Qed.

(** C7: in the entry of a class, the emitted bases are, in order, the
    resolved names of the bases, without the nameless ones and without every
    base that resolves to the name of the class itself and to the current
    module: no emitted base is the class's own name from its own module. *)
Theorem no_self_inheritance
    rt (name : string) (v : pyobject) literal scope (module : option string) alias
    module_doc scope_alias (mi : MemberInfo) (type_name : string) :
  ob_is_type (py_type rt v) = true →
  MemberInfo_init rt name (Some v) literal scope module alias module_doc scope_alias
    = Some mi →
  mi_type_name mi = Some type_name →
  snd <$> _get_typename rt (ob_self v) module = Some (Some type_name)
  ∧ mi_bases mi
    = match ob_bases v with
      | GetValue bases => omap (emitted_base rt type_name module) bases
      | _ => []
      end
  ∧ ∀ t, t ∈ mi_bases mi →
      ∃ bases b ni, ob_bases v = GetValue bases ∧ b ∈ bases
        ∧ _get_typename rt b module = Some (ni, Some t)
        ∧ ¬ (t = type_name ∧ module ∈ ni).
Proof.
  intros Htype Hinit Hname. unfold MemberInfo_init in Hinit. rewrite Htype in Hinit.
  destruct (_get_typename rt (ob_self v) module) as [[need_imports [tn|]]|] eqn:Hself;
    [|done..].
  cbn [mbind option_bind] in Hinit.
  destruct (PyStr.contains "." tn) eqn:Hdot.
  { injection Hinit as <-. done. }
  assert (Hbases : tn = type_name ∧ mi_bases mi =
            match ob_bases v with
            | GetValue bases => omap (emitted_base rt type_name module) bases
            | _ => []
            end).
  { destruct (ob_bases v) as [bases| |] eqn:Hb.
    - destruct (bases_loop rt (Some tn) module bases ([], need_imports))
        as [[bs ni]|] eqn:Hloop; [|done].
      apply bases_loop_emitted in Hloop. cbn [mbind option_bind] in Hinit.
      injection Hinit as <-. simpl in *. injection Hname as <-. done.
    - injection Hinit as <-. simpl in *. by injection Hname as <-.
    - injection Hinit as <-. simpl in *. by injection Hname as <-. }
  destruct Hbases as [-> Hbases]. split; [done|]. split; [done|].
  intros t Ht. rewrite Hbases in Ht.
  destruct (ob_bases v) as [bases| |]; [|by apply elem_of_nil in Ht..].
  apply list_elem_of_omap in Ht as (b & Hb & Hem).
  unfold emitted_base in Hem.
  destruct (_get_typename rt b module) as [[ni [t'|]]|] eqn:Hbt; [|done..].
  destruct (PyStr.truthy (Some t') && negb (bool_decide (t' = type_name ∧ module ∈ ni)))
    eqn:Hkeep; [|done].
  injection Hem as ->. exists bases, b, ni. repeat split; try done.
  apply andb_prop in Hkeep as [_ Hn]. apply negb_true_iff, bool_decide_eq_false in Hn.
  done.
Qed.

Lemma no_self_inheritance_witness :
  ∃ mi, MemberInfo_init example_runtime "C" (Some class_C) None None (Some "m") None
          DocNone None = Some mi
        ∧ mi_type_name mi = Some "C"
        ∧ mi_bases mi = ["builtins.object"]
        ∧ ∀ t, t ∈ mi_bases mi →
            ∃ bases b ni, ob_bases class_C = GetValue bases ∧ b ∈ bases
              ∧ _get_typename example_runtime b (Some "m") = Some (ni, Some t)
              ∧ ¬ (t = "C" ∧ Some "m" ∈ ni).
Proof.
  eexists. split; [vm_compute; reflexivity|]. split; [reflexivity|].
  split; [reflexivity|].
  eapply (no_self_inheritance example_runtime "C" class_C None None (Some "m") None
            DocNone None _ "C"); reflexivity.
Defined.

End BaseClasses.

(** ** Types that lie about their module (C8) *)

Section LyingTypes.

(** In this section [simpl] unfolds the concatenation of strings. *)
Local Arguments String.append : simpl nomatch.

Lemma lies_have_a_module rt (module bare : string) :
  qualified (Some module) bare ∈ LIES_ABOUT_MODULE rt →
  PyStr.truthy (Some module) = true ∧ module ≠ "<unknown>" ∧ module ≠ "exceptions".
Proof.
  unfold LIES_ABOUT_MODULE, builtins_name, qualified. intros Hin.
  apply elem_of_list_to_set in Hin.
  assert (∀ rest, module +:+ "." +:+ bare = rest →
            (∃ c r, rest = String c r ∧ c ≠ "."%char ∧ c ≠ "<"%char ∧ c ≠ "e"%char) →
            PyStr.truthy (Some module) = true ∧ module ≠ "<unknown>"
            ∧ module ≠ "exceptions") as Hcase.
  { intros rest Heq (c & r & -> & Hdot & Hlt & He).
    destruct module as [|c' module']; simpl in Heq; [congruence|].
    injection Heq as -> _. repeat split; congruence. }
  destruct (py2 rt); simpl in Hin;
    repeat (apply elem_of_cons in Hin as [Hin|Hin];
            [apply (Hcase _ Hin); eexists _, _; split; [reflexivity|];
             repeat split; discriminate|]);
    by apply elem_of_nil in Hin.
Qed.

Lemma dump_imports_acc members :
  ∀ imports, dump_imports members imports
             = (λ s, s ∪ imports) <$> dump_imports members ∅.
Proof.
  induction members as [|[m|] members IH]; intros imports; simpl.
  - f_equal. set_solver.
  - rewrite IH, (IH (_ ∪ ∅)). destruct (dump_imports members ∅); simpl; [|done].
    f_equal. set_solver.
  - done.
Qed.

Lemma dump_imports_app members1 members2 :
  dump_imports (members1 ++ members2) ∅
  = s1 ← dump_imports members1 ∅; s2 ← dump_imports members2 ∅; Some (s1 ∪ s2).
Proof.
  induction members1 as [|[m|] members1 IH]; simpl.
  - destruct (dump_imports members2 ∅); simpl; [|done]. f_equal. set_solver.
  - rewrite dump_imports_acc, IH, (dump_imports_acc members1 (_ ∪ ∅)).
    destruct (dump_imports members1 ∅); simpl; [|done].
    destruct (dump_imports members2 ∅); simpl; [|done]. f_equal. set_solver.
  - done.
Qed.

(** C8: a type whose reported module differs from the current one, and
    whose qualified name is in [LIES_ABOUT_MODULE], resolves to its bare name
    and to the current module, as a type defined in the current module does.
    An entry with these imports adds nothing to the imports that [dump]
    writes for the scanned module, and a plain value of such a type is
    rendered as an instance of the bare name. *)
Theorem lying_type_is_local
    rt (value_type : TypeInfo) (bare module in_module : string) :
  tp_name value_type = Some bare →
  tp_module value_type = Some module →
  module ≠ in_module →
  qualified (Some module) (PyStr.replace "-" "_" bare) ∈ LIES_ABOUT_MODULE rt →
  _get_typename rt value_type (Some in_module)
    = Some ([Some in_module], Some (PyStr.replace "-" "_" bare))
  ∧ (PyStr.truthy (Some in_module) = true → in_module ≠ "<unknown>" →
     _get_typename rt value_type (Some in_module)
     = _get_typename rt {| tp_name := Some bare; tp_module := Some in_module |}
         (Some in_module))
  ∧ (∀ st members1 members2 mi,
       st_module_name st = in_module →
       st_members st = members1 ++ Some mi :: members2 →
       Some (mi_need_imports mi)
         = fst <$> _get_typename rt value_type (Some in_module) →
       dump_import_set st = dump_import_set (with_members st (members1 ++ members2)))
  ∧ (∀ name (v : pyobject) scope alias module_doc scope_alias,
       ob_self (py_type rt v) = value_type →
       ob_is_type (py_type rt v) = false → ob_has_call v = false →
       ob_tag (py_type rt v) = TyOther →
       ob_is_float v = false → ob_infinity v = None →
       ∃ mi, MemberInfo_init rt name (Some v) None scope (Some in_module) alias
               module_doc scope_alias = Some mi
             ∧ mi_need_imports mi = [Some in_module]
             ∧ mi_type_name mi = Some (PyStr.replace "-" "_" bare)
             ∧ as_str rt EmptyString mi
               = PyStr.replace "-" "_" name +:+ " = "
                 +:+ PyStr.replace "-" "_" bare +:+ "()").
Proof.
  intros Hname Hmodule Hne Hlie.
  destruct (lies_have_a_module rt _ _ Hlie) as (Htruthy & Hunknown & Hexc).
  assert (Hresolve : _get_typename rt value_type (Some in_module)
            = Some ([Some in_module], Some (PyStr.replace "-" "_" bare))).
  { unfold _get_typename. rewrite Hname, Hmodule.
    rewrite (bool_decide_eq_false_2 (Some module = Some "exceptions")) by congruence.
    rewrite andb_false_r. cbn [andb].
    rewrite Htruthy. rewrite (bool_decide_eq_false_2 (Some module = Some "<unknown>"))
      by congruence.
    cbn [negb andb].
    rewrite (bool_decide_eq_false_2 (Some module = Some in_module)) by congruence.
    by rewrite (bool_decide_eq_true_2 _ Hlie). }
  split; [exact Hresolve|]. split; [|split].
  - intros Hin Hun. rewrite Hresolve. unfold _get_typename. cbn [tp_name tp_module].
    destruct (py2 rt && bool_decide (Some in_module = Some "exceptions")
              && bool_decide (Some in_module = Some (builtins_name rt))) eqn:Hpy2.
    + apply andb_prop in Hpy2 as [_ Hb]. apply bool_decide_eq_true in Hb.
      rewrite <- Hb, Hin.
      rewrite (bool_decide_eq_false_2 (Some in_module = Some "<unknown>")) by congruence.
      cbn [negb andb]. by rewrite bool_decide_eq_true_2.
    + rewrite Hin.
      rewrite (bool_decide_eq_false_2 (Some in_module = Some "<unknown>")) by congruence.
      cbn [negb andb]. by rewrite bool_decide_eq_true_2.
  - intros st members1 members2 mi Hst Hmembers Himports.
    rewrite Hresolve in Himports. cbn in Himports. injection Himports as Himports.
    unfold dump_import_set. rewrite Hmembers. cbn [with_members st_members st_module_name].
    rewrite !dump_imports_app. cbn [dump_imports]. rewrite dump_imports_acc.
    rewrite Himports, Hst.
    destruct (dump_imports members1 ∅) as [s1|]; [|done].
    destruct (dump_imports members2 ∅) as [s2|]; [|done].
    cbn. f_equal. clear. set_solver.
  - intros name v scope alias module_doc scope_alias Hself Htype Hcall Htag Hfloat Hinf.
    unfold MemberInfo_init. rewrite Htype, Hcall, Htag, Hself, Hresolve, Hfloat, Hinf.
    assert (bool_decide (TyOther ∈ PROPERTY_TYPES) = false) as -> by reflexivity.
    assert (bool_decide (TyOther ∈ SKIP_TYPENAME_FOR_TYPES rt) = false) as ->
      by (unfold SKIP_TYPENAME_FOR_TYPES; destruct (py2 rt); reflexivity).
    cbn [negb andb mbind option_bind]. eexists. split; [reflexivity|].
    split; [reflexivity|]. split; [reflexivity|].
    cbn. by destruct name.
Qed.

Lemma lying_type_is_local_witness :
  _get_typename example_runtime (ob_self ndarray_type) (Some "numpy.core.multiarray")
    = Some ([Some "numpy.core.multiarray"], Some "ndarray")
  ∧ ∃ mi, MemberInfo_init example_runtime "empty" (Some ndarray_value) None None
            (Some "numpy.core.multiarray") None DocNone None = Some mi
          ∧ as_str example_runtime EmptyString mi = "empty = ndarray()"
          ∧ dump example_runtime elements
              {| st_module := None; st_module_name := "numpy.core.multiarray";
                 st_members := [Some mi] |}
            = Some ("empty = ndarray()" +:+ newline).
Proof.
  destruct (lying_type_is_local example_runtime (ob_self ndarray_type)
              "ndarray" "numpy" "numpy.core.multiarray")
    as (Hresolve & _ & _ & Hvalue);
    [reflexivity|reflexivity|discriminate|vm_compute; reflexivity|].
  split; [exact Hresolve|].
  destruct (Hvalue "empty" ndarray_value None None DocNone None)
    as (mi & Hmi & Himports & Hname & Hstr); try reflexivity.
  exists mi. split; [exact Hmi|]. split; [exact Hstr|].
  vm_compute in Hmi. injection Hmi as <-. vm_compute. reflexivity.
Defined.

End LyingTypes.

(** ** Determinism of the scan (C1) *)

Section Determinism.

Lemma py_sorted_order_irrelevant (order1 order2 : set_order) (X : gset string) :
  valid_set_order order1 → valid_set_order order2 →
  py_sorted (order1 X) = py_sorted (order2 X).
Proof.
  intros H1 H2. destruct (H1 X) as [Hnd1 Hin1], (H2 X) as [Hnd2 Hin2].
  unfold py_sorted. apply (Sorted_unique String.le).
  - apply Sorted_merge_sort, _.
  - apply Sorted_merge_sort, _.
  - rewrite !merge_sort_Permutation.
    apply NoDup_Permutation; [done|done|]. intros x. by rewrite Hin1, Hin2.
Qed.

Lemma dump_order_irrelevant rt (order1 order2 : set_order) st :
  valid_set_order order1 → valid_set_order order2 →
  dump rt order1 st = dump rt order2 st.
Proof.
  intros H1 H2. unfold dump.
  destruct (dump_imports (st_members st) ∅) as [imports|]; [|done]. cbn [mbind option_bind].
  destruct (import_names _) as [names|]; [|done]. cbn [mbind option_bind].
  by rewrite (py_sorted_order_irrelevant order1 order2 names H1 H2).
Qed.

(** C1: the text that the scan writes for a namespace does not depend on
    the order in which the sets of the run hand out their elements, the one
    thing that changes between two runs on the same namespace: two runs of
    top-level collection, exclusion, second-level collection and dump write
    the same text, or fail alike. *)
Theorem scrape_is_deterministic
    rt (order1 order2 : set_order) (excluded : list string) (st : ScrapeState) :
  valid_set_order order1 → valid_set_order order2 →
  scrape rt order1 excluded st = scrape rt order2 excluded st.
Proof.
  intros H1 H2. unfold scrape.
  destruct (collect_top_level_members rt st) as [st1|]; [|done]. cbn [mbind option_bind].
  destruct (exclude_members excluded st1) as [st2|]; [|done]. cbn [mbind option_bind].
  destruct (collect_second_level_members rt st2) as [st3|]; [|done].
  cbn [mbind option_bind]. by apply dump_order_irrelevant.
Qed.

Lemma valid_set_order_elements : valid_set_order elements.
Proof. intros X. split; [apply NoDup_elements|]. intros x. apply elem_of_elements. Qed.

Lemma valid_set_order_reverse : valid_set_order reverse_order.
Proof.
  intros X. unfold reverse_order.
  split; [rewrite reverse_Permutation; apply NoDup_elements|].
  intros x. rewrite elem_of_reverse. apply elem_of_elements.
Qed.

Lemma scrape_is_deterministic_witness :
  reverse_order {["abc"; "zlib"]} ≠ elements ({["abc"; "zlib"]} : gset string)
  ∧ is_Some (scrape example_runtime elements ["n"] example_state)
  ∧ scrape example_runtime elements ["n"] example_state
    = scrape example_runtime reverse_order ["n"] example_state.
Proof.
  split; [vm_compute; discriminate|]. split; [vm_compute; eexists; reflexivity|].
  apply scrape_is_deterministic;
    [exact valid_set_order_elements|exact valid_set_order_reverse].
Defined.

End Determinism.

(** ** The text repairs of a documentation signature *)

Section TextRepairs.

(** In this section [simpl] unfolds the concatenation of strings. *)
Local Arguments String.append : simpl nomatch.

Lemma first_call_scan_fixpoint s : ∀ n r,
  first_call_scan n s = Some r → first_call_scan n r = Some r.
Proof.
  induction s as [|c s IH]; intros n r; simpl; [done|].
  destruct (bool_decide (c = ")"%char)) eqn:Hclose.
  - destruct (bool_decide (n - 1 ≤ 0)%Z) eqn:Hle.
    + intros [= <-]. simpl. by rewrite Hclose, Hle.
    + destruct (first_call_scan (n - 1) s) as [r'|] eqn:Hr'; [|done].
      intros [= <-]. simpl. rewrite Hclose, Hle. by rewrite (IH _ _ Hr').
  - destruct (bool_decide (c = "("%char)) eqn:Hopen.
    + destruct (first_call_scan (n + 1) s) as [r'|] eqn:Hr'; [|done].
      intros [= <-]. simpl. rewrite Hclose, Hopen. by rewrite (IH _ _ Hr').
    + destruct (first_call_scan n s) as [r'|] eqn:Hr'; [|done].
      intros [= <-]. simpl. rewrite Hclose, Hopen. by rewrite (IH _ _ Hr').
Qed.

Lemma first_call_scan_shape s : ∀ n r,
  first_call_scan n s = Some r →
  PyStr.contains ")" r = true ∧ ∃ c r' rest, r = String c r' ∧ s = String c rest.
Proof.
  induction s as [|c s IH]; intros n r; simpl; [done|].
  assert (Hstep : ∀ m, String c <$> first_call_scan m s = Some r →
            PyStr.contains ")" r = true
            ∧ ∃ c' r' rest, r = String c' r' ∧ String c s = String c' rest).
  { intros m Hm. destruct (first_call_scan m s) as [r'|] eqn:Hr'; [|done].
    injection Hm as <-. destruct (IH _ _ Hr') as [Hin _].
    split; [simpl; rewrite Hin; apply orb_true_r|]. by exists c, r', s. }
  destruct (bool_decide (c = ")"%char)) eqn:Hclose.
  - destruct (bool_decide (n - 1 ≤ 0)%Z); [|by apply Hstep].
    intros [= <-]. apply bool_decide_eq_true in Hclose as ->.
    split; [done|]. by exists ")"%char, EmptyString, s.
  - destruct (bool_decide (c = "("%char)); by apply Hstep.
Qed.

Lemma lstrip_head chars s c r :
  PyStr.lstrip chars s = String c r → c ∉ chars.
Proof.
  induction s as [|d s IH]; simpl; [done|].
  case_bool_decide as Hd; [done|]. by intros [= <- _].
Qed.

Lemma lstrip_stable chars c r :
  c ∉ chars → PyStr.lstrip chars (String c r) = String c r.
Proof. intros Hc. simpl. by rewrite bool_decide_eq_false_2. Qed.

(** X1: a text that is empty or holds no closing parenthesis gives no
    call. An extracted call is not empty, does not start with white space,
    holds a closing parenthesis, and is its own extraction. *)
Theorem first_function_call_idempotent (text : string) :
  (PyStr.contains ")" text = false → _get_first_function_call text = None)
  ∧ ∀ call, _get_first_function_call text = Some call →
      (∃ c r, call = String c r ∧ c ∉ py_whitespace)
      ∧ PyStr.contains ")" call = true
      ∧ _get_first_function_call call = Some call.
Proof.
  split.
  { intros Hno. unfold _get_first_function_call. rewrite Hno.
    by rewrite orb_true_r. }
  intros call. unfold _get_first_function_call.
  destruct (negb (PyStr.truthy (Some text)) || negb (PyStr.contains ")" text)); [done|].
  intros Hscan.
  destruct (first_call_scan_shape _ _ _ Hscan) as (Hin & c & r & rest & -> & Hstrip).
  pose proof (lstrip_head _ _ _ _ Hstrip) as Hc.
  split; [by exists c, r|]. split; [done|].
  rewrite Hin. cbn [PyStr.truthy negb orb].
  rewrite (lstrip_stable _ _ _ Hc). by eapply first_call_scan_fixpoint.
Qed.

Lemma first_function_call_idempotent_witness :
  _get_first_function_call "  f(a, (b)) -> int" = Some "f(a, (b))"
  ∧ _get_first_function_call "f(a, (b))" = Some "f(a, (b))".
Proof.
  split; [vm_compute; reflexivity|].
  destruct (first_function_call_idempotent "  f(a, (b)) -> int") as [_ H].
  destruct (H "f(a, (b))") as (_ & _ & Hidem); [vm_compute; reflexivity|].
  exact Hidem.
Defined.

Lemma strip_brackets_no_bracket s :
  PyStr.contains "[" (strip_brackets s) = false
  ∧ PyStr.contains "]" (strip_brackets s) = false.
Proof.
  induction s as [|d s [IH1 IH2]]; simpl; [done|].
  destruct (bool_decide (d = "["%char)) eqn:H1; simpl; [done|].
  destruct (bool_decide (d = "]"%char)) eqn:H2; simpl; [done|].
  apply bool_decide_eq_false in H1, H2. rewrite IH1, IH2.
  rewrite !bool_decide_eq_false_2 by congruence. done.
Qed.

Lemma strip_brackets_without s :
  PyStr.contains "[" s = false → PyStr.contains "]" s = false → strip_brackets s = s.
Proof.
  induction s as [|d s IH]; simpl; [done|].
  intros [H1 H1']%orb_false_elim [H2 H2']%orb_false_elim.
  apply bool_decide_eq_false in H1, H2.
  rewrite !bool_decide_eq_false_2 by congruence. simpl. by rewrite IH.
Qed.

(** X2: the text without optional-parameter marks holds no bracket; a
    text without brackets is unchanged, and so the rewrite is idempotent. *)
Theorem strip_brackets_removes_all (s : string) :
  PyStr.contains "[" (strip_brackets s) = false
  ∧ PyStr.contains "]" (strip_brackets s) = false
  ∧ strip_brackets (strip_brackets s) = strip_brackets s
  ∧ (PyStr.contains "[" s = false → PyStr.contains "]" s = false →
     strip_brackets s = s).
Proof.
  destruct (strip_brackets_no_bracket s) as [H1 H2].
  split; [done|]. split; [done|]. split; [by apply strip_brackets_without|].
  apply strip_brackets_without.
Qed.

Lemma strip_defaults_from_plain pre :
  ∀ s, PyStr.contains "=" pre = false →
       strip_defaults_from 0 (pre +:+ s) = pre +:+ strip_defaults_from 0 s.
Proof.
  induction pre as [|c pre IH]; intros s; simpl; [done|].
  intros [Hc Hpre]%orb_false_elim. apply bool_decide_eq_false in Hc.
  rewrite bool_decide_eq_false_2 by congruence. by rewrite IH.
Qed.

Lemma strip_defaults_from_without s :
  PyStr.contains "=" s = false → strip_defaults_from 0 s = s.
Proof.
  induction s as [|c s IH]; simpl; [done|].
  intros [Hc Hs]%orb_false_elim. apply bool_decide_eq_false in Hc.
  rewrite bool_decide_eq_false_2 by congruence. by rewrite IH.
Qed.

Lemma terminator_offset_value v :
  ∀ t rest, all_chars value_char v = true →
            (t = ","%char ∨ t = ")"%char) →
            terminator_offset (v +:+ String t rest) = Some (String.length v).
Proof.
  induction v as [|c v IH]; intros t rest Hv Ht; simpl.
  - destruct Ht as [-> | ->]; done.
  - simpl in Hv. apply andb_prop in Hv as [Hc Hv]. unfold value_char in Hc.
    apply andb_prop in Hc as [[H1 H2]%andb_prop H3].
    apply negb_true_iff in H1, H2, H3. rewrite H1, H2, H3. simpl.
    by rewrite (IH t rest Hv Ht).
Qed.

Lemma strip_defaults_from_skip v :
  ∀ s, strip_defaults_from (String.length v) (v +:+ s) = strip_defaults_from 0 s.
Proof. induction v as [|c v IH]; intros s; simpl; [done|]. apply IH. Qed.

(** X3: stripping the defaults leaves a text without [=] as it is, and
    takes a default [=value] before [,] or [)] away whole: for a text [pre]
    without [=] and a value that is not empty and holds no [,], no [)] and
    no newline, [pre=value,post] becomes [pre,] followed by the stripped
    [post]. *)
Theorem strip_defaults_removes_default (pre value post : string) (t : ascii) :
  PyStr.contains "=" pre = false →
  (PyStr.contains "=" post = false → strip_defaults (pre +:+ post) = pre +:+ post)
  ∧ (value ≠ EmptyString → all_chars value_char value = true →
     t = ","%char ∨ t = ")"%char →
     strip_defaults (pre +:+ "=" +:+ value +:+ String t post)
     = pre +:+ String t (strip_defaults post)).
Proof.
  intros Hpre. unfold strip_defaults. split.
  - intros Hpost. rewrite strip_defaults_from_plain by done.
    by rewrite strip_defaults_from_without.
  - intros Hne Hv Ht. rewrite strip_defaults_from_plain by done. f_equal.
    destruct value as [|c v]; [done|]. simpl in Hv |- *.
    apply andb_prop in Hv as [Hc Hv].
    assert (bool_decide (c = "010"%char) = false) as ->.
    { unfold value_char in Hc. apply andb_prop in Hc as [_ H3].
      by apply negb_true_iff in H3. }
    rewrite (terminator_offset_value v t post Hv Ht). simpl.
    rewrite strip_defaults_from_skip. simpl.
    destruct Ht as [-> | ->]; done.
Qed.

Lemma strip_defaults_removes_default_witness :
  strip_defaults "f(a, b=1, c='x')" = "f(a, b, c)"
  ∧ strip_defaults "f(a, b)" = "f(a, b)".
Proof.
  destruct (strip_defaults_removes_default "f(a, b" "1" " c='x')" ","%char eq_refl)
    as [_ H1].
  destruct (strip_defaults_removes_default "f(a, b)" "1" EmptyString ","%char eq_refl)
    as [H2 _].
  split; [|exact (H2 eq_refl)].
  etrans; [exact (H1 ltac:(discriminate) eq_refl (or_introl eq_refl))|].
  vm_compute. reflexivity.
Defined.

Lemma is_word_ascii rt (c : ascii) :
  nat_of_ascii c < 128 → is_word rt c = ascii_word c.
Proof.
  intros Hc. unfold is_word.
  rewrite (bool_decide_eq_false_2 (128 ≤ nat_of_ascii c)) by lia.
  by rewrite andb_false_r, orb_false_r.
Qed.

Lemma span_word_app rt w :
  ∀ s, all_chars (is_word rt) w = true →
       (∀ c r, s = String c r → is_word rt c = false) →
       span_word rt (w +:+ s) = (w, s).
Proof.
  induction w as [|c w IH]; intros s Hw Hs; simpl.
  - destruct s as [|c r]; [done|]. simpl. by rewrite (Hs c r eq_refl).
  - simpl in Hw. apply andb_prop in Hw as [Hc Hw]. rewrite Hc.
    by rewrite (IH s Hw Hs).
Qed.

(** X4: the rewrites of a leading [Owner.method(]. For an owner and a
    method made of word characters, [Owner.method(rest] becomes
    [method(self : Owner, rest], and [method(self, rest] in the untyped
    form. A call without an owner, [method(rest], is left as it is. The
    word characters are those of the runtime: on Python 3 they include the
    alphanumeric characters beyond ASCII. *)
Theorem owner_method_rewrite rt (owner method rest : string) :
  owner ≠ EmptyString → method ≠ EmptyString →
  all_chars (is_word rt) owner = true → all_chars (is_word rt) method = true →
  rewrite_self_typed rt (owner +:+ "." +:+ method +:+ "(" +:+ rest)
    = method +:+ "(self : " +:+ owner +:+ ", " +:+ rest
  ∧ rewrite_self rt (owner +:+ "." +:+ method +:+ "(" +:+ rest)
    = method +:+ "(self, " +:+ rest
  ∧ rewrite_self_typed rt (method +:+ "(" +:+ rest) = method +:+ "(" +:+ rest
  ∧ rewrite_self rt (method +:+ "(" +:+ rest) = method +:+ "(" +:+ rest.
Proof.
  intros Ho Hm Hwo Hwm.
  assert (Hdot : ∀ s, span_word rt (owner +:+ String "." s) = (owner, String "." s)).
  { intros s. apply span_word_app; [done|]. intros c r [= <- _].
    rewrite is_word_ascii; [reflexivity|vm_compute; lia]. }
  assert (Hparen : ∀ s, span_word rt (method +:+ String "(" s)
                        = (method, String "(" s)).
  { intros s. apply span_word_app; [done|]. intros c r [= <- _].
    rewrite is_word_ascii; [reflexivity|vm_compute; lia]. }
  unfold rewrite_self_typed, rewrite_self, match_owner_method. simpl.
  rewrite Hdot, !Hparen.
  destruct owner as [|co owner]; [done|]. destruct method as [|cm method]; [done|].
  done.
Qed.

Lemma owner_method_rewrite_witness :
  rewrite_self_typed example_runtime "list.append(object) -> None"
    = "append(self : list, object) -> None"
  ∧ rewrite_self example_runtime "list.append(object) -> None"
    = "append(self, object) -> None"
  ∧ rewrite_self example_runtime "append(object)" = "append(object)"
  ∧ rewrite_self_typed example_runtime (accented_owner +:+ ".m(x)")
    = "m(self : " +:+ accented_owner +:+ ", x)".
Proof.
  pose proof (owner_method_rewrite example_runtime "list" "append" "object) -> None"
                ltac:(discriminate) ltac:(discriminate) eq_refl eq_refl)
    as (H1 & H2 & _).
  pose proof (owner_method_rewrite example_runtime "list" "append" "object)"
                ltac:(discriminate) ltac:(discriminate) eq_refl eq_refl)
    as (_ & _ & _ & H4).
  pose proof (owner_method_rewrite example_runtime accented_owner "m" "x)"
                ltac:(discriminate) ltac:(discriminate) eq_refl eq_refl)
    as (H5 & _).
  split; [exact H1|]. split; [exact H2|]. split; [exact H4|exact H5].
Defined.

End TextRepairs.

(** ** The rendering of parsed arguments *)

Section ArgumentRendering.

(** In this section [simpl] unfolds the concatenation of strings. *)
Local Arguments String.append : simpl nomatch.

Lemma walk_unrenderable rt e : unrenderable e → walk rt e = None.
Proof.
  induction 1 as [| |value attr _ IH|l op r _ IH|l op r _ IH|l r|op e _ IH|e];
    simpl; try done.
  - by rewrite IH.
  - by rewrite IH.
  - rewrite IH. by rewrite !andb_false_r.
  - by rewrite andb_false_r.
  - rewrite IH. by rewrite andb_false_r.
Qed.

Lemma existsb_unrendered (elts : list (option string)) :
  None ∈ elts → existsb (λ n, negb (bool_decide (is_Some n))) elts = true.
Proof.
  induction elts as [|x elts IH]; [by intros ?%elem_of_nil|].
  intros [<-|Hin]%elem_of_cons; simpl.
  - done.
  - rewrite IH by done. apply orb_true_r.
Qed.

(** X5: a call is never rendered as a default value, and neither is an
    expression built on one by attribute access or operators. A list or
    tuple that holds such an element falls back to the empty literal, and a
    parameter with such a default is written without it: as its bare
    identifier, or with [=None] once an earlier default was written. *)
Theorem unrenderable_defaults_are_dropped rt (e : expr) :
  unrenderable e →
  walk rt e = None
  ∧ (∀ elts, e ∈ elts →
       walk rt (List elts) = Some "[]" ∧ walk rt (Tuple elts) = Some "()")
  ∧ ∀ arg seen_names,
      let r := _ast_arg_to_str rt arg (Some e) seen_names in
      arg_text r = arg_ident r ∨ arg_text r = arg_ident r +:+ "=None".
Proof.
  intros He. pose proof (walk_unrenderable rt e He) as Hwalk.
  split; [done|]. split.
  - intros elts Hin.
    assert (None ∈ map (walk rt) elts) as Hnone.
    { rewrite <- Hwalk. apply list_elem_of_fmap. by exists e. }
    simpl. by rewrite (existsb_unrendered _ Hnone).
  - intros arg seen_names. unfold _ast_arg_to_str. rewrite Hwalk. simpl.
    case_bool_decide; simpl; auto.
Qed.

Lemma unrenderable_defaults_are_dropped_witness :
  walk example_runtime (BinOp (Name "a") BitOr (Attribute Call "x")) = None
  ∧ walk example_runtime (List [Num "1"; BinOp (Name "a") BitOr (Attribute Call "x")])
    = Some "[]".
Proof.
  pose proof (unrenderable_defaults_are_dropped example_runtime
                (BinOp (Name "a") BitOr (Attribute Call "x"))
                (unrenderable_right _ _ _
                   (unrenderable_attribute _ _ unrenderable_call)))
    as (H1 & H2 & _).
  split; [exact H1|]. apply H2. set_solver.
Defined.

Lemma string_append_assoc (s t u : string) : (s +:+ t) +:+ u = s +:+ (t +:+ u).
Proof. induction s as [|c s IHs]; simpl; [done|]. by rewrite IHs. Qed.

Lemma join_snoc (sep x : string) (l : list string) (a : string) :
  PyStr.join sep (x :: (l ++ [a])) = PyStr.join sep (x :: l) +:+ sep +:+ a.
Proof.
  unfold PyStr.join. revert x. induction l as [|y l IH]; intros x; [done|].
  change (String.concat sep (x :: (y :: l) ++ [a]))
    with (x +:+ sep +:+ String.concat sep (y :: (l ++ [a]))).
  change (String.concat sep (x :: y :: l))
    with (x +:+ sep +:+ String.concat sep (y :: l)).
  rewrite (IH y). by rewrite !string_append_assoc.
Qed.

Lemma join_cons_truthy (sep : string) (c : ascii) (x : string) (l : list string) :
  PyStr.truthy (Some (PyStr.join sep (String c x :: l))) = true.
Proof. unfold PyStr.join. by destruct l. Qed.

(** X6: a chain of attribute accesses on a name is rendered as the dotted
    path, when the name is not empty; on an empty name no attribute access
    is rendered. *)
Theorem attribute_chain_is_dotted rt (x : string) (attrs : list string) :
  (x ≠ EmptyString →
   walk rt (attribute_chain x attrs) = Some (PyStr.join "." (x :: attrs)))
  ∧ (attrs ≠ [] → walk rt (attribute_chain EmptyString attrs) = None).
Proof.
  unfold attribute_chain. split.
  - intros Hx. destruct x as [|c x]; [done|].
    induction attrs as [|a attrs IH] using rev_ind; [done|].
    rewrite foldl_app. cbn [foldl walk]. rewrite IH, join_cons_truthy.
    cbn [default]. by rewrite (join_snoc "." (String c x) attrs a).
  - induction attrs as [|a attrs IH] using rev_ind; [done|]. intros _.
    rewrite foldl_app. cbn [foldl walk].
    destruct attrs as [|b attrs]; [done|]. by rewrite IH.
Qed.

Lemma attribute_chain_is_dotted_witness :
  walk example_runtime (Attribute (Attribute (Name "os") "path") "sep")
  = Some "os.path.sep".
Proof.
  destruct (attribute_chain_is_dotted example_runtime "os" ["path"; "sep"]) as [H _].
  exact (H ltac:(discriminate)).
Defined.

Lemma append_nonempty_ne (s t : string) : t ≠ EmptyString → s +:+ t ≠ s.
Proof.
  intros Ht Heq. apply Ht. induction s as [|c s IH]; simpl in Heq; [done|].
  injection Heq as Heq. by apply IH.
Qed.

Lemma ast_arg_to_str_default rt a d seen :
  let r := _ast_arg_to_str rt a d seen in
  seen ⊆ arg_seen r
  ∧ (arg_text r ≠ arg_ident r ↔ default_value_marker ∈ arg_seen r).
Proof.
  unfold _ast_arg_to_str.
  set (dv := match d with
             | Some d' => match walk rt d' with
                          | Some v => "=" +:+ v
                          | None => EmptyString
                          end
             | None => EmptyString
             end).
  destruct (PyStr.truthy (Some dv) && ast_parse_ok rt _) eqn:Hb; simpl.
  - split; [set_solver|]. split; [set_solver|]. intros _.
    apply append_nonempty_ne. apply andb_prop in Hb as [Hb _]. by destruct dv.
  - case_bool_decide as Hm; simpl.
    + split; [set_solver|]. split; [done|]. intros _. by apply append_nonempty_ne.
    + split; [set_solver|]. split; [done|]. intros Hin. by destruct Hm.
Qed.

Lemma ast_args_loop_after_default rt pairs :
  ∀ seen, default_value_marker ∈ seen →
          Forall (λ r, arg_text r ≠ arg_ident r) (ast_args_loop rt pairs seen).
Proof.
  induction pairs as [|[a d] pairs IH]; intros seen Hin; simpl; [constructor|].
  destruct (ast_arg_to_str_default rt a d seen) as [Hsub Hiff].
  constructor; [apply Hiff; set_solver|]. apply IH. set_solver.
Qed.

Lemma ast_args_loop_defaults_monotone rt pairs :
  ∀ seen i j ri rj,
    i < j →
    ast_args_loop rt pairs seen !! i = Some ri →
    ast_args_loop rt pairs seen !! j = Some rj →
    arg_text ri ≠ arg_ident ri → arg_text rj ≠ arg_ident rj.
Proof.
  induction pairs as [|[a d] pairs IH]; intros seen i j ri rj Hij; simpl; [done|].
  destruct j as [|j]; [lia|]. destruct i as [|i]; simpl.
  - intros [= <-] Hj Hdef.
    destruct (ast_arg_to_str_default rt a d seen) as [_ Hiff].
    apply Hiff in Hdef.
    pose proof (ast_args_loop_after_default rt pairs _ Hdef) as Hall.
    rewrite Forall_lookup in Hall. by eapply Hall.
  - intros Hi Hj. eapply IH; [|done..]. lia.
Qed.

(** X7: in the parameters written for a parsed header, every parameter
    after one that carries a default carries a default too: once a default
    was written, a parameter without a renderable default gets [=None]. *)
Theorem defaults_are_never_followed_by_bare_parameters
    rt (node : FunctionDef) (i j : nat) (ri rj : arg_str) :
  i < j →
  ast_args_results rt node !! i = Some ri →
  ast_args_results rt node !! j = Some rj →
  arg_text ri ≠ arg_ident ri →
  arg_text rj ≠ arg_ident rj.
Proof. apply ast_args_loop_defaults_monotone. Qed.

Lemma defaults_are_never_followed_by_bare_parameters_witness :
  _ast_args_to_list example_runtime header_with_call_default = ["a=1"; "b=None"]
  ∧ ∃ rj, ast_args_results example_runtime header_with_call_default !! 1 = Some rj
          ∧ arg_text rj ≠ arg_ident rj.
Proof.
  split; [vm_compute; reflexivity|]. eexists. split; [vm_compute; reflexivity|].
  eapply (defaults_are_never_followed_by_bare_parameters example_runtime
            header_with_call_default 0 1);
    [lia|vm_compute; reflexivity|vm_compute; reflexivity|vm_compute; discriminate].
Defined.

End ArgumentRendering.

(** ** The construction of a signature *)

Section SignatureConstruction.

(** In this section [simpl] unfolds the concatenation of strings. *)
Local Arguments String.append : simpl nomatch.

Lemma truthy_name_append (name rest : string) :
  rest ≠ EmptyString → PyStr.truthy (Some (name +:+ rest)) = true.
Proof. intros Hr. destruct name; [by destruct rest|done]. Qed.

Lemma py_or_named name a b :
  named name a → named_some name b → named_some name (py_or a b).
Proof.
  intros [->|(rest & Hr & ->)] Hb; [done|].
  unfold py_or. rewrite truthy_name_append by done. by exists rest.
Qed.

Lemma named_paren name (body : string) :
  named_some name (Some (name +:+ "(" +:+ body)).
Proof. exists ("(" +:+ body). split; [done|done]. Qed.

Lemma fromargspec_named name callable defaults :
  named name (_init_argspec_fromargspec name callable defaults).
Proof.
  unfold _init_argspec_fromargspec. destruct (ob_argspec callable); [|by left].
  right. apply named_paren.
Qed.

Lemma fromknown_named argspecs name scope scope_alias :
  named name (_init_argspec_fromknown argspecs name scope scope_alias).
Proof.
  unfold _init_argspec_fromknown.
  match goal with
  | |- named _ (if negb (PyStr.truthy ?spec) then _ else _) =>
      destruct (PyStr.truthy spec) eqn:Hs; simpl; [|by left];
      right; exists (default EmptyString spec); split; [|done];
      destruct spec as [[|]|]; done
  end.
Qed.

Lemma fromdocstring_named rt name callable defaults doc r :
  _init_argspec_fromdocstring rt name callable defaults doc = Some r →
  named name r.1.
Proof.
  unfold _init_argspec_fromdocstring.
  destruct (if pydoc_truthy doc then _ else _) as [[| text |] allow];
    try (intros [= <-]; by left).
  destruct (_get_first_function_call text); [|intros [= <-]; by left].
  destruct (parse_docstring_call _ _ _ _) as [[[node|] ws]|]; [| |done].
  - intros [= <-]. right. apply named_paren.
  - intros [= <-]. by left.
Qed.

Lemma py_or_else_named name a b r :
  named name a → (∀ r', b = Some r' → named_some name r') →
  py_or_else a b = Some r → named_some name r.
Proof.
  intros [->|(rest & Hr & ->)] Hb; unfold py_or_else.
  - cbn. apply Hb.
  - rewrite truthy_name_append by done. intros [= <-]. by exists rest.
Qed.

(** X8: whatever strategy resolves it, the signature text of a
    [Signature] that the constructor returns starts with the name it was
    constructed with, followed by a text that is not empty. *)
Theorem fullsig_starts_with_name
    rt name callable scope defaults scope_alias decs module_doc s :
  Signature_init rt name callable scope defaults scope_alias decs module_doc = Some s →
  ∃ rest, rest ≠ EmptyString ∧ fullsig s = name +:+ rest.
Proof.
  assert (Hchain : ∀ first r, named name first →
            py_or_else first
              (py_or_else (_init_argspec_fromargspec name callable
                             (init_defaults scope decs defaults))
                 (py_or_else (_init_argspec_fromknown (known_argspecs rt) name scope
                                scope_alias)
                    (r ← _init_argspec_fromdocstring rt name callable
                           (init_defaults scope decs defaults) DocNone;
                     Some (py_or r.1 (Some (bare_signature name
                                              (init_defaults scope decs defaults)))))))
            = Some r →
            named_some name r).
  { intros first r Hfirst. apply py_or_else_named; [done|]. intros r1.
    apply py_or_else_named; [apply fromargspec_named|]. intros r2.
    apply py_or_else_named; [apply fromknown_named|]. intros r3.
    destruct (_init_argspec_fromdocstring _ _ _ _ DocNone) as [d|] eqn:Hd; [|done].
    cbn [mbind option_bind]. intros [= <-].
    apply py_or_named; [by eapply fromdocstring_named|]. apply named_paren. }
  unfold Signature_init. intros Hinit.
  assert (Hfirst : ∀ decs' first,
            (if bool_decide (name ∈ ["__init__"; "__new__"]) && pydoc_truthy module_doc
             then
               r ← _init_argspec_fromdocstring rt name callable
                      (init_defaults scope decs defaults) module_doc;
               Some (decs, r.1)
             else if negb (ob_has_call callable) && ob_has_get callable
             then Some (["@property"],
                        Some (bare_signature name (init_defaults scope decs defaults)))
             else Some (decs, None)) = Some (decs', first) →
            named name first).
  { intros decs' first.
    destruct (bool_decide (name ∈ ["__init__"; "__new__"]) && pydoc_truthy module_doc).
    - destruct (_init_argspec_fromdocstring _ _ _ _ module_doc) as [d|] eqn:Hd; [|done].
      cbn [mbind option_bind]. intros [= _ <-]. by eapply fromdocstring_named.
    - destruct (negb (ob_has_call callable) && ob_has_get callable).
      + intros [= _ <-]. right. apply named_paren.
      + intros [= _ <-]. by left. }
  destruct (if bool_decide (name ∈ ["__init__"; "__new__"]) && pydoc_truthy module_doc
            then _ else _) as [[decs' first]|] eqn:Hstart; [|done].
  cbn [mbind option_bind] in Hinit.
  destruct (py_or_else first _) as [r|] eqn:Hr; [|done].
  cbn [mbind option_bind] in Hinit. injection Hinit as <-. cbn [fullsig].
  destruct (Hchain first r (Hfirst decs' first eq_refl) Hr) as (rest & Hrest & ->).
  by exists rest.
Qed.

Lemma fullsig_starts_with_name_witness :
  ∃ s, Signature_init example_runtime "g" described_function None [] None [] DocNone
         = Some s
       ∧ fullsig s = "g(a)"
       ∧ ∃ rest, rest ≠ EmptyString ∧ fullsig s = "g" +:+ rest.
Proof.
  eexists. split; [vm_compute; reflexivity|]. split; [reflexivity|].
  apply (fullsig_starts_with_name example_runtime "g" described_function None [] None
           [] DocNone).
  vm_compute. reflexivity.
Defined.

(** X9: a value that cannot be called and has [__get__] is an accessor:
    unless the constructor case applies, the constructor returns, its
    signature is the name with the implicit arguments and its only decorator
    is ['@property'], whatever the argument specification, the knowledge
    base or its documentation say. *)
Theorem accessor_short_circuit
    rt name callable scope defaults scope_alias decs module_doc :
  ob_has_call callable = false →
  ob_has_get callable = true →
  bool_decide (name ∈ ["__init__"; "__new__"]) && pydoc_truthy module_doc = false →
  ∃ s, Signature_init rt name callable scope defaults scope_alias decs module_doc
         = Some s
       ∧ decorators s = ["@property"]
       ∧ fullsig s = bare_signature name (init_defaults scope decs defaults).
Proof.
  intros Hcall Hget Hctor. unfold Signature_init. rewrite Hctor, Hcall, Hget.
  cbn [negb andb mbind option_bind]. unfold py_or_else at 1, bare_signature.
  rewrite (truthy_name_append name ("(" +:+ _)) by done.
  cbn [mbind option_bind]. eexists. split; [reflexivity|]. split; reflexivity.
Qed.

Lemma accessor_short_circuit_witness :
  ∃ s, Signature_init example_runtime "real" getset_descriptor (Some "int") []
         None [] DocNone = Some s
       ∧ fullsig s = "real(self)" ∧ decorators s = ["@property"].
Proof.
  destruct (accessor_short_circuit example_runtime "real" getset_descriptor
              (Some "int") [] None [] DocNone eq_refl eq_refl eq_refl)
    as (s & Hs & Hd & Hf).
  exists s. split; [exact Hs|]. split; [exact Hf|exact Hd].
Defined.

(** X10: when the runtime offers a native signature for the callable, the
    return expression of the signature that the constructor returns is
    ['pass'], whatever the knowledge base holds for its name: the known
    return types serve only callables without one. *)
Theorem native_signature_gives_pass
    rt name callable scope defaults scope_alias decs module_doc parameters s :
  ob_signature callable = Some parameters →
  Signature_init rt name callable scope defaults scope_alias decs module_doc = Some s →
  restype s = "pass".
Proof.
  intros Hsig Hinit.
  rewrite (fullsig_choice_irrelevant_for_restype _ _ _ _ _ _ _ _ _ Hinit).
  unfold _init_restype_fromsignature. rewrite Hsig. cbn.
  by destruct (PyStr.truthy scope).
Qed.

Lemma native_signature_gives_pass_witness :
  _init_restype_fromknown (known_restypes builtins_runtime) "__abs__" (Some "int")
    (Some "__Int__") = Some "return __T()"
  ∧ ∃ s, Signature_init builtins_runtime "__abs__"
           (with_introspection opaque_callable
              (Some [{| p_name := "self"; p_kind := POSITIONAL_ONLY;
                        p_default := None |}]) None)
           (Some "int") [] (Some "__Int__") [] DocNone = Some s
         ∧ restype s = "pass".
Proof.
  split; [vm_compute; reflexivity|].
  eexists. split; [vm_compute; reflexivity|].
  apply (native_signature_gives_pass builtins_runtime "__abs__"
           (with_introspection opaque_callable
              (Some [{| p_name := "self"; p_kind := POSITIONAL_ONLY;
                        p_default := None |}]) None)
           (Some "int") [] (Some "__Int__") [] DocNone
           [{| p_name := "self"; p_kind := POSITIONAL_ONLY; p_default := None |}]).
  - reflexivity.
  - vm_compute. reflexivity.
Defined.

Lemma replace_from_plain (old new pre : string) :
  ∀ s c old', old = String c old' → PyStr.contains c pre = false →
    PyStr.replace_from old new 0 (pre +:+ s) = pre +:+ PyStr.replace_from old new 0 s.
Proof.
  intros s c old' -> Hpre. induction pre as [|d pre IH]; simpl in *; [done|].
  apply orb_false_elim in Hpre as [Hd Hpre]. apply bool_decide_eq_false in Hd.
  destruct (ascii_dec c d) as [Heq|_]; [congruence|]. by rewrite IH.
Qed.

(** X11: the placeholder [__T] of a known return type is replaced by the
    scope. For a callable without native signature whose known return
    statement holds [__T] after a text without underscore, the return
    expression stored in the signature that the constructor returns holds
    the scope in its place, and the rest of the statement with its
    placeholders replaced alike. *)
Theorem return_template_substitutes_scope
    rt name callable (scope : string) defaults scope_alias decs module_doc
    (pre post : string) s :
  scope ≠ EmptyString →
  PyStr.contains "_" pre = false →
  ob_signature callable = None →
  _init_restype_fromknown (known_restypes rt) name (Some scope) scope_alias
    = Some ("return " +:+ pre +:+ "__T" +:+ post) →
  Signature_init rt name callable (Some scope) defaults scope_alias decs module_doc
    = Some s →
  restype s = "return " +:+ pre +:+ scope +:+ PyStr.replace "__T" scope post.
Proof.
  intros Hscope Hpre Hsig Hknown Hinit.
  rewrite (fullsig_choice_irrelevant_for_restype _ _ _ _ _ _ _ _ _ Hinit).
  unfold _init_restype_fromsignature. rewrite Hsig, Hknown.
  set (known := "return " +:+ pre +:+ "__T" +:+ post).
  set (result := "return " +:+ pre +:+ scope +:+ PyStr.replace "__T" scope post).
  assert (PyStr.replace "__T" scope known = result) as Hreplace.
  { unfold PyStr.replace, known, result.
    etrans; [exact (replace_from_plain "__T" scope "return " _ "_"%char "_T"
                      eq_refl eq_refl)|].
    f_equal.
    etrans; [exact (replace_from_plain "__T" scope pre _ "_"%char "_T" eq_refl Hpre)|].
    f_equal. simpl. by destruct post. }
  assert (PyStr.truthy (Some scope) = true) as Hs by (by destruct scope).
  assert (py_or None (py_or (Some known) (Some "pass")) = Some known) as -> by done.
  cbn zeta. rewrite Hs.
  change (default EmptyString (Some scope)) with scope.
  change (default EmptyString (Some known)) with known. rewrite Hreplace.
  rewrite bool_decide_eq_false_2; [done|].
  intros [H|[H|H]%elem_of_cons]%elem_of_cons; [discriminate H|discriminate H|].
  by apply elem_of_nil in H.
Qed.

Lemma return_template_substitutes_scope_witness :
  ∃ s, Signature_init builtins_runtime "partition" opaque_callable (Some "str") []
         (Some "__Unicode__") [] DocNone = Some s
       ∧ restype s = "return (str(), str(), str())".
Proof.
  eexists. split; [vm_compute; reflexivity|].
  etrans;
    [exact (return_template_substitutes_scope builtins_runtime "partition"
              opaque_callable "str" [] (Some "__Unicode__") [] DocNone
              "(" "(), __T(), __T())" _ ltac:(discriminate) eq_refl eq_refl
              ltac:(vm_compute; reflexivity) ltac:(vm_compute; reflexivity))|].
  vm_compute. reflexivity.
Defined.

End SignatureConstruction.

(** ** Entries and their rendering *)

Section Entries.

(** In this section [simpl] unfolds the concatenation of strings. *)
Local Arguments String.append : simpl nomatch.

Lemma prefix_empty (s : string) : String.prefix EmptyString s = true.
Proof. by destruct s. Qed.

Lemma replace_hyphen_step (c : ascii) (s : string) :
  PyStr.replace_from "-" "_" 0 (String c s)
  = String (if bool_decide (c = "-"%char) then "_"%char else c)
      (PyStr.replace_from "-" "_" 0 s).
Proof.
  cbn [PyStr.replace_from String.prefix String.length].
  destruct (ascii_dec "-" c) as [<-|Hne].
  - rewrite prefix_empty. reflexivity.
  - rewrite bool_decide_eq_false_2 by congruence. reflexivity.
Qed.

Lemma replace_hyphen_spec (s : string) :
  PyStr.contains "-" (PyStr.replace "-" "_" s) = false
  ∧ (PyStr.contains "-" s = false → PyStr.replace "-" "_" s = s).
Proof.
  unfold PyStr.replace. induction s as [|c s [IH1 IH2]]; [done|].
  rewrite replace_hyphen_step. cbn [PyStr.contains]. split.
  - rewrite IH1, orb_false_r. destruct (decide (c = "-"%char)) as [->|Hc].
    + reflexivity.
    + rewrite (bool_decide_eq_false_2 (c = "-"%char)) by done.
      apply bool_decide_eq_false_2. congruence.
  - intros [Hc Hs]%orb_false_elim. apply bool_decide_eq_false in Hc.
    rewrite (bool_decide_eq_false_2 (c = "-"%char)) by congruence.
    by rewrite IH2.
Qed.

(** X12: the name of an entry holds no hyphen: the constructor replaces
    every hyphen of the name it is given by an underscore, and keeps a name
    without hyphen as it is. *)
Theorem member_names_have_no_hyphen
    rt name value literal scope module alias module_doc scope_alias mi :
  MemberInfo_init rt name value literal scope module alias module_doc scope_alias
    = Some mi →
  PyStr.contains "-" (mi_name mi) = false
  ∧ (PyStr.contains "-" name = false → mi_name mi = name).
Proof.
  intros Hinit. rewrite (MemberInfo_init_name _ _ _ _ _ _ _ _ _ _ Hinit).
  apply replace_hyphen_spec.
Qed.

Lemma member_names_have_no_hyphen_witness :
  ∃ mi, MemberInfo_init example_runtime "built-in" None None None None None DocNone None
          = Some mi
        ∧ mi_name mi = "built_in" ∧ PyStr.contains "-" (mi_name mi) = false.
Proof.
  eexists. split; [vm_compute; reflexivity|]. split; [reflexivity|].
  eapply (member_names_have_no_hyphen example_runtime "built-in" None None None None
            None DocNone None).
  vm_compute. reflexivity.
Defined.

Lemma contains_append_r (c : ascii) (s t : string) :
  PyStr.contains c t = true → PyStr.contains c (s +:+ t) = true.
Proof.
  intros Ht. induction s as [|d s IH]; simpl; [done|]. rewrite IH. apply orb_true_r.
Qed.

(** X13: a class that another module defines is entered as a reference:
    when its module is not the current one (and its qualified name is none
    of the known lies), the entry is the literal [name = module.Class], it
    has no type name, no bases and no members, it needs the import of that
    module, and the second-level collection leaves it alone. *)
Theorem foreign_class_is_a_reference
    rt (name : string) (v : pyobject) literal scope (in_module : string) alias
    module_doc scope_alias (bare module : string) :
  ob_is_type (py_type rt v) = true →
  ob_self v = {| tp_name := Some bare; tp_module := Some module |} →
  module ≠ EmptyString → module ≠ "<unknown>" → module ≠ "exceptions" →
  module ≠ in_module →
  qualified (Some module) (PyStr.replace "-" "_" bare) ∉ LIES_ABOUT_MODULE rt →
  ∃ mi,
    MemberInfo_init rt name (Some v) literal scope (Some in_module) alias module_doc
      scope_alias = Some mi
    ∧ mi_literal mi = Some (module +:+ "." +:+ PyStr.replace "-" "_" bare)
    ∧ mi_type_name mi = None ∧ mi_bases mi = [] ∧ mi_members mi = []
    ∧ mi_need_imports mi = [Some module]
    ∧ (∀ indent, as_str rt indent mi
         = indent +:+ PyStr.replace "-" "_" name +:+ " = "
           +:+ module +:+ "." +:+ PyStr.replace "-" "_" bare)
    ∧ ∀ module_name, collect_second_level rt module_name mi = Some mi.
Proof.
  intros Htype Hself Hne Hunknown Hexc Hin Hlie.
  assert (Hresolve : _get_typename rt (ob_self v) (Some in_module)
            = Some ([Some module],
                    Some (module +:+ "." +:+ PyStr.replace "-" "_" bare))).
  { unfold _get_typename. rewrite Hself. cbn [tp_name tp_module].
    rewrite (bool_decide_eq_false_2 (Some module = Some "exceptions")) by congruence.
    rewrite andb_false_r. cbn [andb].
    assert (PyStr.truthy (Some module) = true) as -> by (by destruct module).
    rewrite (bool_decide_eq_false_2 (Some module = Some "<unknown>")) by congruence.
    cbn [negb andb].
    rewrite (bool_decide_eq_false_2 (Some module = Some in_module)) by congruence.
    by rewrite (bool_decide_eq_false_2 _ Hlie). }
  unfold MemberInfo_init. rewrite Htype, Hresolve. cbn [mbind option_bind].
  rewrite (contains_append_r "." module ("." +:+ PyStr.replace "-" "_" bare))
    by done.
  eexists. split; [reflexivity|]. cbn [mi_literal mi_type_name mi_bases mi_members
                                        mi_need_imports].
  repeat (split; [reflexivity|]).
  assert (Hname : (if PyStr.truthy (Some name) then PyStr.replace "-" "_" name else name)
                  = PyStr.replace "-" "_" name) by (by destruct name).
  split.
  - intros indent. cbn [as_str mi_literal mi_name]. rewrite Hname.
    assert (PyStr.truthy (Some (module +:+ "." +:+ PyStr.replace "-" "_" bare)) = true)
      as -> by (by destruct module).
    done.
  - intros module_name. unfold collect_second_level, _should_collect_members.
    cbn [mi_type_name mi_name mi_need_imports].
    rewrite (bool_decide_eq_false_2 (Some _ = None)) by done.
    rewrite andb_false_r.
    by rewrite (bool_decide_eq_false_2 (None = Some _)) by done.
Qed.

Lemma foreign_class_is_a_reference_witness :
  ∃ mi, MemberInfo_init example_runtime "Decimal" (Some foreign_class) None None
          (Some "m") None DocNone None = Some mi
        ∧ as_str example_runtime EmptyString mi = "Decimal = decimal.Decimal"
        ∧ mi_need_imports mi = [Some "decimal"].
Proof.
  destruct (foreign_class_is_a_reference example_runtime "Decimal" foreign_class None
              None "m" None DocNone None "Decimal" "decimal")
    as (mi & Hmi & _ & _ & _ & _ & Himports & Hstr & _);
    [reflexivity|reflexivity|discriminate..|vm_compute; discriminate|].
  exists mi. split; [exact Hmi|]. split; [exact (Hstr EmptyString)|exact Himports].
Defined.

Lemma member_name_replace (name : string) :
  (if PyStr.truthy (Some name) then PyStr.replace "-" "_" name else name)
  = PyStr.replace "-" "_" name.
Proof. by destruct name. Qed.

(** X14: a float that is not finite is written as an expression that
    evaluates to it. For a value that is neither a type nor callable nor of
    a descriptor type, whose type is one of those without type name or has a
    name that can be read, and that is an infinity or the float [nan], the
    constructor returns and the entry is rendered as [name = float('inf')],
    [name = float('-inf')] or [name = float('nan')], whatever literal the
    caller passed and whatever the name of the type is; the infinity wins
    over [nan]. *)
Theorem nonfinite_floats_are_spelled_out
    rt (name : string) (v : pyobject) literal scope module alias module_doc scope_alias
    (spelling : string) :
  ob_is_type (py_type rt v) = false →
  ob_has_call v = false →
  ob_tag (py_type rt v) ∉ PROPERTY_TYPES →
  ob_tag (py_type rt v) ∈ SKIP_TYPENAME_FOR_TYPES rt
  ∨ is_Some (tp_name (ob_self (py_type rt v))) →
  (∃ i, ob_infinity v = Some i ∧ spelling = VALUE_REPR_FIX i)
  ∨ (ob_infinity v = None ∧ ob_is_float v = true ∧ ob_repr v = "nan"
     ∧ spelling = "float('nan')") →
  ∃ mi,
    MemberInfo_init rt name (Some v) literal scope module alias module_doc scope_alias
      = Some mi
    ∧ mi_literal mi = Some spelling
    ∧ ∀ indent, as_str rt indent mi
        = indent +:+ PyStr.replace "-" "_" name +:+ " = " +:+ spelling.
Proof.
  intros Htype Hcall Hproperty Hnamed Hvalue. unfold MemberInfo_init.
  rewrite Htype, Hcall. rewrite (bool_decide_eq_false_2 _ Hproperty).
  cbn [mbind option_bind].
  assert (Hresolved : ∃ need_imports type_name,
            (if negb (bool_decide (ob_tag (py_type rt v) ∈ SKIP_TYPENAME_FOR_TYPES rt))
             then _get_typename rt (ob_self (py_type rt v)) module
             else Some ([], None)) = Some (need_imports, type_name)).
  { case_bool_decide as Hskip; cbn [negb]; [by eexists _, _|].
    destruct Hnamed as [Hin|[type_name Hname]]; [done|].
    unfold _get_typename. rewrite Hname.
    repeat match goal with
           | |- context [if ?b then _ else _] => destruct b
           end; by eexists _, _. }
  destruct Hresolved as (need_imports & type_name & ->). cbn [mbind option_bind].
  assert (Hliteral :
    match ob_infinity v with
    | Some i => Some (VALUE_REPR_FIX i)
    | None => if ob_is_float v && bool_decide (ob_repr v = "nan")
              then Some "float('nan')" else literal
    end = Some spelling).
  { destruct Hvalue as [(i & -> & ->)|(-> & -> & -> & ->)]; reflexivity. }
  rewrite Hliteral. eexists. split; [reflexivity|]. split; [reflexivity|].
  intros indent. cbn [as_str mi_literal mi_name]. rewrite member_name_replace.
  assert (PyStr.truthy (Some spelling) = true) as ->.
  { destruct Hvalue as [(i & _ & ->)|(_ & _ & _ & ->)]; [by destruct i|done]. }
  reflexivity.
Qed.

Lemma nonfinite_floats_are_spelled_out_witness :
  (∃ mi, MemberInfo_init example_runtime "inf" (Some float_inf) None None (Some "math")
           None DocNone None = Some mi
         ∧ as_str example_runtime EmptyString mi = "inf = float('inf')")
  ∧ (∃ mi, MemberInfo_init example_runtime "nan" (Some float_nan) None None (Some "math")
             None DocNone None = Some mi
           ∧ as_str example_runtime EmptyString mi = "nan = float('nan')").
Proof.
  split.
  - destruct (nonfinite_floats_are_spelled_out example_runtime "inf" float_inf None None
                (Some "math") None DocNone None "float('inf')")
      as (mi & Hmi & _ & Hstr);
      [reflexivity|reflexivity|apply (bool_decide_unpack _); vm_compute; exact I
      |left; apply (bool_decide_unpack _); vm_compute; exact I
      |left; exists PosInf; split; reflexivity|].
    exists mi. split; [exact Hmi|exact (Hstr EmptyString)].
  - destruct (nonfinite_floats_are_spelled_out example_runtime "nan" float_nan None None
                (Some "math") None DocNone None "float('nan')")
      as (mi & Hmi & _ & Hstr);
      [reflexivity|reflexivity|apply (bool_decide_unpack _); vm_compute; exact I
      |left; apply (bool_decide_unpack _); vm_compute; exact I
      |right; repeat split; reflexivity|].
    exists mi. split; [exact Hmi|exact (Hstr EmptyString)].
Defined.

Lemma decorator_lines_spec (ds : list string) (seen : gset string) :
  NoDup (decorator_lines ds seen)
  ∧ (∀ d, d ∈ decorator_lines ds seen ↔ d ∈ ds ∧ d ∉ seen)
  ∧ decorator_lines ds seen `sublist_of` ds.
Proof.
  revert seen. induction ds as [|d ds IH]; intros seen; cbn [decorator_lines].
  - split; [constructor|]. split; [|constructor].
    intros d. rewrite elem_of_nil. clear. set_solver.
  - case_bool_decide as Hseen.
    + destruct (IH seen) as (Hnodup & Helem & Hsub). split; [exact Hnodup|].
      split; [|by apply sublist_cons].
      intros e. rewrite Helem, elem_of_cons. clear -Hseen. set_solver.
    + destruct (IH ({[d]} ∪ seen)) as (Hnodup & Helem & Hsub). split; [|split].
      * constructor; [|exact Hnodup]. rewrite Helem. clear. set_solver.
      * intros e. rewrite !elem_of_cons, Helem. clear -Hseen.
        destruct (decide (e = d)) as [->|Hne]; set_solver.
      * by apply sublist_skip.
Qed.

(** X15: the rendering of a callable prints each of its decorators once:
    the decorator lines are the decorators of the signature in their order,
    with every repetition after the first occurrence left out. *)
Theorem decorators_are_printed_once (rt : Runtime) (documentation : option string)
    (signature : Signature) :
  ∃ rest,
    _lines_with_signature rt documentation signature
      = decorator_lines (decorators signature) ∅
        ++ ("def " +:+ fullsig signature +:+ ":") :: rest
    ∧ NoDup (decorator_lines (decorators signature) ∅)
    ∧ (∀ d, d ∈ decorator_lines (decorators signature) ∅ ↔ d ∈ decorators signature)
    ∧ decorator_lines (decorators signature) ∅ `sublist_of` decorators signature.
Proof.
  destruct (decorator_lines_spec (decorators signature) ∅) as (Hnodup & Helem & Hsub).
  eexists. split; [reflexivity|]. split; [exact Hnodup|]. split; [|exact Hsub].
  intros d. rewrite Helem. clear. set_solver.
Qed.

End Entries.

(** ** The traversal and the dump *)

Section Traversal.

(** In this section [simpl] unfolds the concatenation of strings. *)
Local Arguments String.append : simpl nomatch.

Lemma mro_contains_false (mro : list pyobject) (name : string) (value : pyvalue) :
  _mro_contains mro name value = false ↔
  ∀ base inherited,
    base ∈ mro → py_getattr base name = GetValue inherited →
    py_is inherited value = false.
Proof.
  induction mro as [|m mro IH]; cbn [_mro_contains].
  - split; [|done]. intros _ base inherited Hin. exfalso.
    exact (proj1 (elem_of_nil base) Hin).
  - split.
    + intros Hscan base inherited [->|Hin]%elem_of_cons Hget.
      * rewrite Hget in Hscan. by destruct (py_is inherited value).
      * destruct (py_getattr m name) as [mro_value| |];
          [destruct (py_is mro_value value); [done|]|..];
          by eapply (proj1 IH Hscan).
    + intros Hall.
      assert (Hrest : _mro_contains mro name value = false).
      { apply IH. intros base inherited Hin. apply Hall. by right. }
      destruct (py_getattr m name) as [mro_value| |] eqn:Hget; [|done..].
      rewrite (Hall m mro_value); [done|by left|done].
Qed.

Lemma should_add_value_module (rt : Runtime) (v : pyobject) :
  _should_add_value rt (Some v) = true →
  ob_is_module (py_type rt v) = true →
  ob_self (py_type rt v) = CompiledLib rt.
Proof.
  unfold _should_add_value, CompiledLib. intros Hadd Hmodule.
  destruct (ob_self (py_type rt v)) as [[name|] module]; cbn in Hadd; [|done].
  case_bool_decide as Hlib; [by simplify_eq|]. by rewrite Hmodule in Hadd.
Qed.

Lemma MemberInfo_init_value rt name value literal scope module alias module_doc
    scope_alias mi :
  MemberInfo_init rt name value literal scope module alias module_doc scope_alias = Some mi →
  mi_value mi = value.
Proof.
  unfold MemberInfo_init. intros H.
  repeat (match type of H with
          | context [mbind _ ?x] => destruct x eqn:?
          | context [match ?x with _ => _ end] => destruct x eqn:?
          end;
          cbn [mbind option_bind] in H; simplify_eq); try done.
Qed.

Lemma collect_member_scanned rt module_name mod_ substitutes existing scope scope_alias
    mod_scope members name members' :
  name ∈ ob_dir mod_ →
  collect_member rt module_name mod_ substitutes existing scope scope_alias mod_scope
    (drop 1 (ob_mro mod_)) members name = Some members' →
  members' = members
  ∨ ∃ e, members' = members ++ [e] ∧ scanned_entry rt mod_ substitutes e.
Proof.
  intros Hdir. unfold collect_member, scanned_entry.
  destruct (iskeyword rt name) eqn:Hkw; [intros [= <-]; by left|].
  destruct (substitutes !! name) as [[mi|]|] eqn:Hs1.
  { intros [= <-]. right. exists (Some mi). split; [done|].
    exists mi. split; [done|]. left. by exists name. }
  { intros [= <-]. by left. }
  destruct (substitutes !! (mod_scope +:+ "." +:+ name)) as [[mi|]|] eqn:Hs2.
  { intros [= <-]. right. exists (Some mi). split; [done|].
    exists mi. split; [done|]. left. by eexists. }
  { intros [= <-]. by left. }
  case_bool_decide as Hex; [intros [= <-]; by left|].
  destruct (py_getattr mod_ name) as [value| |] eqn:Hget; try (intros [= <-]; by left).
  destruct (_should_add_value rt value) eqn:Hadd; cbn [negb]; [|intros [= <-]; by left].
  destruct (_mro_contains _ name value) eqn:Hmro; [intros [= <-]; by left|].
  destruct (MemberInfo_init _ _ _ _ _ _ _ _ _) as [mi|] eqn:Hmi; [|done].
  simpl. intros [= <-]. right. exists (Some mi). split; [done|].
  exists mi. split; [done|]. right. exists name, value.
  split; [done|]. split; [done|]. split; [done|].
  split; [by eapply MemberInfo_init_value|].
  split; [by eapply MemberInfo_init_name|].
  split.
  - intros v ->. by apply should_add_value_module.
  - by apply mro_contains_false.
Qed.

Lemma collect_loop_scanned rt module_name mod_ substitutes existing scope scope_alias
    mod_scope names :
  names ⊆ ob_dir mod_ →
  ∀ members members',
    collect_loop rt module_name mod_ substitutes existing scope scope_alias mod_scope
      (drop 1 (ob_mro mod_)) names members = Some members' →
    ∃ added, members' = members ++ added
             ∧ Forall (scanned_entry rt mod_ substitutes) added.
Proof.
  induction names as [|name names IH]; intros Hsub members members'; simpl.
  { intros [= <-]. exists []. by rewrite app_nil_r. }
  destruct (collect_member _ _ _ _ _ _ _ _ _ members name) as [members1|] eqn:H1;
    [|done].
  simpl. intros Hrest.
  assert (Hname : name ∈ ob_dir mod_) by (apply Hsub; by left).
  assert (Hnames : names ⊆ ob_dir mod_) by (intros x Hx; apply Hsub; by right).
  destruct (IH Hnames _ _ Hrest) as (added & -> & Hadded).
  apply (collect_member_scanned _ _ _ _ _ _ _ _ _ _ _ Hname) in H1
    as [->|(e & -> & He)].
  - by exists added.
  - exists (e :: added). split; [by rewrite <- app_assoc|]. by constructor.
Qed.

(** X16: what a scan lists. Every entry that [_collect_members] appends for
    the attributes of an object is a registered substitute, or stands for an
    attribute that is no keyword and could be read, whose value is not a
    module (the library object of CFFI apart) and is not the very object
    that one of the base classes after the first entry of the method
    resolution order gives under the same name: nested modules and
    attributes inherited unchanged are not listed. *)
Theorem scan_skips_modules_and_inherited
    rt module_name (mod_ : pyobject) members substitutes outer_member members' :
  _collect_members rt module_name (Some mod_) members substitutes outer_member
    = Some members' →
  ∃ added, members' = members ++ added
           ∧ Forall (scanned_entry rt mod_ substitutes) added.
Proof.
  unfold _collect_members.
  destruct (negb (ob_truthy mod_)); [done|].
  destruct (py_is _ _).
  { intros [= <-]. exists []. by rewrite app_nil_r. }
  destruct (member_names members) as [existing|]; [|done]. cbn [mbind option_bind].
  assert (Hdir : ob_dir mod_ ⊆ ob_dir mod_) by (intros x Hx; exact Hx).
  destruct outer_member as [outer|]; cbn zeta beta iota.
  all: intros Hloop; exact (collect_loop_scanned _ _ _ _ _ _ _ _ _ Hdir _ _ Hloop).
Qed.

Lemma scan_skips_modules_and_inherited_witness :
  ∃ members',
    _collect_members example_runtime "m" (Some derived_class) [] ∅ None = Some members'
    ∧ (λ e : option MemberInfo, mi_name <$> e) <$> members' = [Some "own"]
    ∧ ∃ added, members' = [] ++ added
               ∧ Forall (scanned_entry example_runtime derived_class ∅) added.
Proof.
  eexists. split; [vm_compute; reflexivity|]. split; [reflexivity|].
  apply (scan_skips_modules_and_inherited example_runtime "m" derived_class [] ∅ None).
  vm_compute. reflexivity.
Defined.

Lemma undeclared_loop_declares rt module_name m_names members :
  ∀ acc undeclared,
    undeclared_loop rt module_name m_names members acc = Some undeclared →
    (∀ d, d ∈ acc → d ∈ undeclared)
    ∧ ∀ m v t,
        Some m ∈ members → mi_value m = Some v → mi_type_name m = Some t →
        t ≠ EmptyString → PyStr.contains "." t = false → t ∉ m_names →
        ∃ d, Some d ∈ undeclared ∧ mi_name d = PyStr.replace "-" "_" t
             ∧ mi_value d = Some (py_type rt v).
Proof.
  induction members as [|[m0|] members IH]; intros acc undeclared; cbn [undeclared_loop].
  - intros [= <-]. split; [done|]. intros m v t Hin. exfalso.
    exact (proj1 (elem_of_nil _) Hin).
  - assert (Hskip : ∀ acc',
              undeclared_loop rt module_name m_names members acc' = Some undeclared →
              (∀ d, d ∈ acc → d ∈ acc') →
              (∀ m v t, m = m0 → mi_value m = Some v → mi_type_name m = Some t →
                 t ≠ EmptyString → PyStr.contains "." t = false → t ∉ m_names →
                 ∃ d, Some d ∈ acc' ∧ mi_name d = PyStr.replace "-" "_" t
                      ∧ mi_value d = Some (py_type rt v)) →
              (∀ d, d ∈ acc → d ∈ undeclared)
              ∧ ∀ m v t,
                  Some m ∈ Some m0 :: members → mi_value m = Some v →
                  mi_type_name m = Some t →
                  t ≠ EmptyString → PyStr.contains "." t = false → t ∉ m_names →
                  ∃ d, Some d ∈ undeclared ∧ mi_name d = PyStr.replace "-" "_" t
                       ∧ mi_value d = Some (py_type rt v)).
    { intros acc' Hrest Hacc Hhead. destruct (IH _ _ Hrest) as [Hkeep Hdecl].
      split; [intros d Hd; by apply Hkeep, Hacc|].
      intros m v t [Heq|Hin]%elem_of_cons Hv Ht Hne Hdot Hnew.
      - injection Heq as ->.
        destruct (Hhead m0 v t eq_refl Hv Ht Hne Hdot Hnew) as (d & Hd & Hname).
        exists d. split; [by apply Hkeep|done].
      - by eapply Hdecl. }
    intros Hloop.
    destruct (mi_value m0) as [v0|] eqn:Hv0;
      [|apply (Hskip acc Hloop); [done|]; intros m v t -> Hv; congruence].
    destruct (mi_type_name m0) as [t0|] eqn:Ht0;
      [|apply (Hskip acc Hloop); [done|]; intros m v t -> _ Ht; congruence].
    destruct (PyStr.truthy (Some t0) && negb (PyStr.contains "." t0)
              && negb (bool_decide (t0 ∈ m_names))) eqn:Hcond.
    + destruct (MemberInfo_init rt t0 _ _ _ _ _ _ _) as [mi|] eqn:Hmi; [|done].
      cbn [mbind option_bind] in Hloop. apply (Hskip _ Hloop).
      * intros d Hd. apply elem_of_app. by left.
      * intros m v t -> Hv Ht _ _ _. rewrite Hv0 in Hv. rewrite Ht0 in Ht.
        injection Hv as <-. injection Ht as <-.
        exists mi. split; [apply elem_of_app; right; by left|].
        split; [by eapply MemberInfo_init_name|by eapply MemberInfo_init_value].
    + apply (Hskip acc Hloop); [done|].
      intros m v t -> Hv Ht Hne Hdot Hnew. rewrite Ht0 in Ht. injection Ht as <-.
      exfalso. rewrite Hdot in Hcond. rewrite (bool_decide_eq_false_2 _ Hnew) in Hcond.
      by destruct t0.
  - done.
Qed.

Lemma member_names_spec members existing :
  member_names members = Some existing →
  ∀ name, name ∈ existing ↔ ∃ m, Some m ∈ members ∧ mi_name m = name.
Proof.
  unfold member_names. destruct (mapM _ members) as [names|] eqn:Hm; [|done].
  cbn [mbind option_bind]. intros [= <-] name. apply mapM_Some in Hm.
  rewrite elem_of_list_to_set.
  induction Hm as [|m n ms ns Hmn _ IH].
  - split; [intros Hin; exfalso; exact (proj1 (elem_of_nil _) Hin)|].
    intros (m & Hin & _). exfalso. exact (proj1 (elem_of_nil _) Hin).
  - rewrite elem_of_cons, IH. destruct m as [m|]; [|done].
    cbn in Hmn. injection Hmn as <-. split.
    + intros [->|(m' & Hin & Hname)].
      * exists m. split; [by left|done].
      * exists m'. split; [by right|done].
    + intros (m' & [Heq|Hin]%elem_of_cons & Hname).
      * injection Heq as ->. by left.
      * right. by exists m'.
Qed.

(** X17: the types in use are declared. After the collection of the top
    level, the member list is the scanned list preceded by the declarations
    that were missing, and for every scanned entry that holds a value and
    has a type name with neither dot nor hyphen, some entry of the result
    has that type name as its name. *)
Theorem types_in_use_are_declared rt (st st' : ScrapeState) :
  collect_top_level_members rt st = Some st' →
  ∃ undeclared scanned,
    st_members st' = undeclared ++ scanned
    ∧ st_members st `prefix_of` scanned
    ∧ ∀ m v t,
        Some m ∈ scanned → mi_value m = Some v → mi_type_name m = Some t →
        t ≠ EmptyString → PyStr.contains "." t = false →
        PyStr.contains "-" t = false →
        ∃ d, Some d ∈ st_members st' ∧ mi_name d = t.
Proof.
  unfold collect_top_level_members.
  destruct (MODULE_MEMBER_SUBSTITUTE rt) as [substitutes|]; [|done].
  cbn [mbind option_bind].
  destruct (_collect_members _ _ _ _ _ _) as [scanned|] eqn:Hscan; [|done].
  cbn [mbind option_bind].
  destruct (member_names scanned) as [m_names|] eqn:Hnames; [|done].
  cbn [mbind option_bind].
  destruct (undeclared_loop _ _ _ _ _) as [undeclared|] eqn:Hloop; [|done].
  cbn [mbind option_bind]. intros [= <-]. exists undeclared, scanned.
  split; [reflexivity|]. split.
  { apply collect_members_outcome in Hscan as (mod_scope & added & -> & _).
    by exists added. }
  intros m v t Hin Hv Ht Hne Hdot Hhyphen. cbn [st_members with_members].
  unfold assign_prefix. rewrite drop_0.
  destruct (decide (t ∈ m_names)) as [Hold|Hnew].
  - apply (member_names_spec _ _ Hnames) in Hold as (d & Hd & Hname).
    exists d. split; [apply elem_of_app; by right|done].
  - destruct (undeclared_loop_declares _ _ _ _ _ _ Hloop) as [_ Hdecl].
    destruct (Hdecl m v t Hin Hv Ht Hne Hdot Hnew) as (d & Hd & Hname & _).
    exists d. split; [apply elem_of_app; by left|].
    rewrite Hname. by apply replace_hyphen_spec.
Qed.

Lemma types_in_use_are_declared_witness :
  ∃ st',
    collect_top_level_members example_runtime
      {| st_module := Some module_with_hidden_type; st_module_name := "m";
         st_members := [] |} = Some st'
    ∧ (λ e : option MemberInfo, mi_name <$> e) <$> st_members st'
      = [Some "Local"; Some "v"]
    ∧ ∃ undeclared scanned,
        st_members st' = undeclared ++ scanned
        ∧ [] `prefix_of` scanned
        ∧ ∀ m v t,
            Some m ∈ scanned → mi_value m = Some v → mi_type_name m = Some t →
            t ≠ EmptyString → PyStr.contains "." t = false →
            PyStr.contains "-" t = false →
            ∃ d, Some d ∈ st_members st' ∧ mi_name d = t.
Proof.
  eexists. split; [vm_compute; reflexivity|]. split; [reflexivity|].
  apply (types_in_use_are_declared example_runtime
           {| st_module := Some module_with_hidden_type; st_module_name := "m";
              st_members := [] |}).
  vm_compute. reflexivity.
Defined.

Lemma add_staticmethod_decorates members :
  ∀ members',
    add_staticmethod members = Some members' →
    Forall (λ e, ∃ m, e = Some m
                   ∧ ∀ s, mi_signature m = Some s →
                          last (decorators s) = Some "@staticmethod") members'.
Proof.
  induction members as [|[m|] members IH]; intros members'; cbn [add_staticmethod].
  - intros [= <-]. constructor.
  - destruct (add_staticmethod members) as [rest|]; [|done].
    cbn [mbind option_bind]. intros [= <-]. constructor; [|by apply IH].
    eexists. split; [reflexivity|].
    destruct (mi_signature m) as [s|] eqn:Hs.
    + cbn [mi_signature]. intros s' [= <-]. cbn [decorators]. apply last_snoc.
    + intros s'. by rewrite Hs.
  - done.
Qed.

Lemma collect_second_level_header rt module_name m m' :
  collect_second_level rt module_name m = Some m' →
  same_entry_header m m'
  ∧ (_should_collect_members rt module_name m = false → m' = m)
  ∧ (mi_scope_name m = mi_type_name m → mi_members m `prefix_of` mi_members m').
Proof.
  unfold collect_second_level, same_entry_header.
  destruct (_should_collect_members rt module_name m).
  - destruct (CLASS_MEMBER_SUBSTITUTE rt) as [subs|]; [|done]. cbn [mbind option_bind].
    destruct (MemberInfo_init _ _ _ _ _ _ _ _ _) as [class_mi|]; [|done].
    cbn [mbind option_bind].
    destruct (_collect_members _ _ _ _ _ _) as [members|] eqn:Hscan; [|done].
    cbn [mbind option_bind].
    destruct (if bool_decide (mi_scope_name m ≠ mi_type_name m)
              then add_staticmethod members else Some members) as [members2|] eqn:Hstatic;
      [|done].
    cbn [mbind option_bind]. intros [= <-]. split; [repeat split; reflexivity|].
    split; [done|]. intros Hclass. cbn [mi_members].
    rewrite bool_decide_eq_false_2 in Hstatic by (intros Hne; by apply Hne).
    injection Hstatic as <-.
    apply collect_members_outcome in Hscan as (mod_scope & added & -> & _).
    by exists added.
  - intros [= <-]. split; [repeat split; reflexivity|]. split; [done|].
    intros _. reflexivity.
Qed.

Lemma second_level_loop_headers rt module_name members :
  ∀ members',
    second_level_loop rt module_name members = Some members' →
    Forall2 (λ e e', ∃ m m', e = Some m ∧ e' = Some m' ∧ same_entry_header m m'
                       ∧ (_should_collect_members rt module_name m = false → m' = m)
                       ∧ (mi_scope_name m = mi_type_name m →
                          mi_members m `prefix_of` mi_members m'))
      members members'.
Proof.
  induction members as [|[m|] members IH]; intros members'; cbn [second_level_loop].
  - intros [= <-]. constructor.
  - destruct (collect_second_level rt module_name m) as [m'|] eqn:Hm; [|done].
    cbn [mbind option_bind].
    destruct (second_level_loop rt module_name members) as [rest|]; [|done].
    cbn [mbind option_bind]. intros [= <-]. constructor; [|by apply IH].
    exists m, m'. split; [done|]. split; [done|].
    by apply collect_second_level_header.
  - done.
Qed.

Lemma dump_imports_headers members members' :
  Forall2 (λ e e', ∃ m m', e = Some m ∧ e' = Some m'
                     ∧ mi_need_imports m' = mi_need_imports m) members members' →
  ∀ imports, dump_imports members' imports = dump_imports members imports.
Proof.
  induction 1 as [|e e' members members' (m & m' & -> & -> & Himports) _ IH];
    intros imports; cbn [dump_imports]; [done|].
  by rewrite Himports, IH.
Qed.

(** X18: the second level fills in members and nothing else. The collection
    of the second level keeps the entries of the top level in number and
    order; each keeps its name, value, literal, imports, type name, bases,
    signature and documentation; an entry that is no class of the scanned
    module (nor a CFFI library) is left as it is, and the members of a class
    are only added to. The imports that [dump] gathers are therefore those
    of the top level: what only a nested member needs is not imported. *)
Theorem second_level_fills_members_only rt (st st' : ScrapeState) :
  collect_second_level_members rt st = Some st' →
  st_module_name st' = st_module_name st
  ∧ Forall2 (λ e e', ∃ m m', e = Some m ∧ e' = Some m' ∧ same_entry_header m m'
                       ∧ (_should_collect_members rt (st_module_name st) m = false →
                          m' = m)
                       ∧ (mi_scope_name m = mi_type_name m →
                          mi_members m `prefix_of` mi_members m'))
      (st_members st) (st_members st')
  ∧ dump_imports (st_members st') ∅ = dump_imports (st_members st) ∅.
Proof.
  unfold collect_second_level_members.
  destruct (second_level_loop _ _ _) as [members|] eqn:Hloop; [|done].
  cbn [mbind option_bind]. intros [= <-]. cbn [st_members st_module_name with_members].
  split; [done|]. apply second_level_loop_headers in Hloop. split; [exact Hloop|].
  apply dump_imports_headers. eapply Forall2_impl; [exact Hloop|].
  intros e e' (m & m' & -> & -> & Hheader & _). exists m, m'.
  split; [done|]. split; [done|]. apply Hheader.
Qed.

Lemma second_level_fills_members_only_witness :
  ∃ st st' holder nested,
    collect_top_level_members example_runtime
      {| st_module := Some module_with_holder; st_module_name := "m";
         st_members := [] |} = Some st
    ∧ collect_second_level_members example_runtime st = Some st'
    ∧ (λ e : option MemberInfo, mi_members <$> e) <$> st_members st = [Some []]
    ∧ st_members st' = [Some holder]
    ∧ mi_members holder = [Some nested]
    ∧ as_str example_runtime EmptyString nested = "unit = zlib.Z()"
    ∧ mi_need_imports nested = [Some "zlib"]
    ∧ dump_imports (st_members st') ∅ = dump_imports (st_members st) ∅
    ∧ bool_decide (Some "zlib" ∈ default ∅ (dump_imports (st_members st') ∅)) = false.
Proof.
  eexists. eexists. eexists. eexists. split; [vm_compute; reflexivity|].
  split; [vm_compute; reflexivity|]. split; [vm_compute; reflexivity|].
  split; [reflexivity|]. split; [reflexivity|]. split; [vm_compute; reflexivity|].
  split; [reflexivity|]. split; [|vm_compute; reflexivity].
  match goal with
  | |- dump_imports (st_members ?st') _ = dump_imports (st_members ?st) _ =>
      exact (proj2 (proj2 (second_level_fills_members_only example_runtime st st'
                             ltac:(vm_compute; reflexivity))))
  end.
Defined.

Lemma dump_imports_elem members :
  ∀ acc imports,
    dump_imports members acc = Some imports →
    ∀ x, x ∈ imports ↔ x ∈ acc ∨ ∃ e, Some e ∈ members ∧ x ∈ mi_need_imports e.
Proof.
  induction members as [|[m|] members IH]; intros acc imports; cbn [dump_imports].
  - intros [= <-] x. split; [by left|]. intros [Hx|(e & He & _)]; [done|].
    exfalso. exact (proj1 (elem_of_nil _) He).
  - intros Hrest x. rewrite (IH _ _ Hrest x), elem_of_union, elem_of_list_to_set.
    split.
    + intros [[Hx|Hx]|(e & He & Hx)].
      * right. exists m. split; [by left|done].
      * by left.
      * right. exists e. split; [by right|done].
    + intros [Hx|(e & [Heq|He]%elem_of_cons & Hx)].
      * left. by right.
      * injection Heq as ->. left. by left.
      * right. by exists e.
  - done.
Qed.

(** X19: the import lines of the dump. When [dump] succeeds, the text is the
    import lines, an empty line when there is an import, and the texts of
    the entries; the imported modules are in ascending order without
    repetition, and a module is imported exactly when an entry of the top
    level needs it and it is not the scanned module itself. *)
Theorem dump_import_lines rt (order : set_order) (st : ScrapeState) (out : string) :
  valid_set_order order →
  dump rt order st = Some out →
  ∃ modules texts,
    dump_members rt (st_members st) = Some texts
    ∧ out = print_lines
              ((if bool_decide (modules = []) then []
                else ((λ mod_, "import " +:+ mod_) <$> modules) ++ [EmptyString])
               ++ texts)
    ∧ Sorted String.le modules ∧ NoDup modules
    ∧ ∀ mod_, mod_ ∈ modules ↔
        mod_ ≠ st_module_name st
        ∧ ∃ e, Some e ∈ st_members st ∧ Some mod_ ∈ mi_need_imports e.
Proof.
  intros Horder. unfold dump.
  destruct (dump_imports (st_members st) ∅) as [imports|] eqn:Himports; [|done].
  cbn [mbind option_bind]. unfold import_names.
  destruct (bool_decide (None ∈ imports ∖ {[Some (st_module_name st)]})) eqn:Hnone;
    [done|].
  apply bool_decide_eq_false in Hnone. cbn [mbind option_bind].
  destruct (dump_members rt (st_members st)) as [texts|]; [|done].
  cbn [mbind option_bind]. intros [= <-].
  set (needed := imports ∖ {[Some (st_module_name st)]}) in *.
  set (names := list_to_set (omap id (elements needed)) : gset string).
  destruct (Horder names) as [Hnodup Helem].
  assert (Hmodules : ∀ mod_, mod_ ∈ py_sorted (order names) ↔ Some mod_ ∈ needed).
  { intros mod_. unfold py_sorted. rewrite merge_sort_Permutation, Helem.
    unfold names. rewrite elem_of_list_to_set, list_elem_of_omap. split.
    - intros ([x|] & Hx & Hid); [|done]. cbn in Hid. injection Hid as ->.
      by apply elem_of_elements.
    - intros Hin. exists (Some mod_). split; [by apply elem_of_elements|done]. }
  exists (py_sorted (order names)), texts. split; [done|]. split.
  { f_equal. f_equal. case_bool_decide as Hneeded; case_bool_decide as Hempty.
    - exfalso. apply Hneeded. apply set_eq. intros [mod_|].
      + rewrite <- Hmodules, Hempty. clear. set_solver.
      + clear -Hnone. set_solver.
    - done.
    - done.
    - exfalso. destruct (py_sorted (order names)) as [|mod_ rest] eqn:Hsorted; [done|].
      assert (Hin : Some mod_ ∈ needed) by (apply Hmodules; by left).
      rewrite Hneeded in Hin. exact (proj1 (elem_of_empty _) Hin). }
  split; [apply Sorted_merge_sort, _|]. split.
  { unfold py_sorted. by rewrite merge_sort_Permutation. }
  intros mod_. rewrite Hmodules. unfold needed.
  rewrite elem_of_difference, (dump_imports_elem _ _ _ Himports), elem_of_singleton.
  split.
  - intros [[Hx|Hx] Hne]; [clear -Hx; set_solver|]. split; [congruence|done].
  - intros [Hne Hx]. split; [by right|congruence].
Qed.

Lemma elements_is_a_valid_order : valid_set_order elements.
Proof. intros X. split; [apply NoDup_elements|]. intros x. apply elem_of_elements. Qed.

Lemma dump_import_lines_witness :
  ∃ st out,
    collect_top_level_members example_runtime
      {| st_module := Some module_with_foreign_values; st_module_name := "m";
         st_members := [] |} = Some st
    ∧ dump example_runtime elements st = Some out
    ∧ ∃ modules texts,
        dump_members example_runtime (st_members st) = Some texts
        ∧ out = print_lines
                  ((if bool_decide (modules = []) then []
                    else ((λ mod_, "import " +:+ mod_) <$> modules) ++ [EmptyString])
                   ++ texts)
        ∧ Sorted String.le modules ∧ NoDup modules
        ∧ ∀ mod_, mod_ ∈ modules ↔
            mod_ ≠ st_module_name st
            ∧ ∃ e, Some e ∈ st_members st ∧ Some mod_ ∈ mi_need_imports e.
Proof.
  eexists. eexists. split; [vm_compute; reflexivity|].
  split; [vm_compute; reflexivity|].
  apply (dump_import_lines example_runtime elements _ _ elements_is_a_valid_order).
  vm_compute. reflexivity.
Defined.

(** X20: the members of a static class are static. When the second level
    collects the members of an entry whose scope name differs from its type
    name (a value that stands where a class is expected, such as an
    instance named like its type or a CFFI library), every member of the
    result is an entry, and each one that has a signature carries
    [@staticmethod] as its last decorator. *)
Theorem static_class_members_are_static rt module_name (mi mi' : MemberInfo) :
  collect_second_level rt module_name mi = Some mi' →
  _should_collect_members rt module_name mi = true →
  mi_scope_name mi ≠ mi_type_name mi →
  Forall (λ e, ∃ m, e = Some m
                 ∧ ∀ s, mi_signature m = Some s →
                        last (decorators s) = Some "@staticmethod")
    (mi_members mi').
Proof.
  unfold collect_second_level. intros Hcollect Hshould Hstatic.
  rewrite Hshould in Hcollect.
  destruct (CLASS_MEMBER_SUBSTITUTE rt) as [subs|]; [|done].
  cbn [mbind option_bind] in Hcollect.
  destruct (MemberInfo_init _ _ _ _ _ _ _ _ _) as [class_mi|]; [|done].
  cbn [mbind option_bind] in Hcollect.
  destruct (_collect_members _ _ _ _ _ _) as [members|]; [|done].
  cbn [mbind option_bind] in Hcollect.
  rewrite (bool_decide_eq_true_2 _ Hstatic) in Hcollect.
  destruct (add_staticmethod members) as [members2|] eqn:Hadd; [|done].
  cbn [mbind option_bind] in Hcollect. injection Hcollect as <-.
  cbn [mi_members]. by eapply add_staticmethod_decorates.
Qed.

Lemma static_class_members_are_static_witness :
  ∃ mi mi',
    MemberInfo_init example_runtime "Lib" (Some static_value) None None (Some "m") None
      DocNone None = Some mi
    ∧ collect_second_level example_runtime "m" mi = Some mi'
    ∧ (λ e : option MemberInfo, (λ m, (mi_name m, decorators <$> mi_signature m)) <$> e)
        <$> mi_members mi'
      = [Some ("run", Some ["@staticmethod"])]
    ∧ Forall (λ e, ∃ m, e = Some m
                     ∧ ∀ s, mi_signature m = Some s →
                            last (decorators s) = Some "@staticmethod")
        (mi_members mi').
Proof.
  eexists. eexists. split; [vm_compute; reflexivity|].
  split; [vm_compute; reflexivity|]. split; [vm_compute; reflexivity|].
  lazymatch goal with
  | |- Forall _ (mi_members ?mi') =>
      refine (static_class_members_are_static example_runtime "m"
                (Build_MemberInfo "Lib" (Some static_value) None [] [Some "m"]
                   (Some "Lib") None [] None None None)
                mi' _ _ _)
  end.
  - vm_compute. reflexivity.
  - vm_compute. reflexivity.
  - vm_compute. discriminate.
Defined.

End Traversal.
